(** * nbtquery: the RFC 1001/1002 Node Status codec, embedded and verified

    A shallow embedding of [nbtquery.c]: the big-endian byte codec, the
    request encoder, the response decoder with its heap-allocated linked list
    of name entries, the query driver and the error-string table.

    Conventions.
    - C integers are [Z]; conversions to a narrower unsigned type and stores
      to unsigned bit-fields are written out ([u8], [u16], [u32], [bitfield]).
    - A [buffer_t] carries its backing storage as a [list byte]; a read
      outside the storage is the outcome [Fault], a write outside it is
      [None].
    - Pointers to heap nodes are [option addr] with [None] for [NULL]; the heap
      is a finite map, [malloc] is driven by an oracle of outcomes. *)

From Stdlib Require Import ZArith Lia List String.
From Stdlib Require Import Init.Byte Strings.Byte Ascii.
From stdpp Require Import base gmap list.

Local Open Scope Z_scope.

(* ------------------------------------------------------------------ *)
(** ** Constants *)

Definition NBT_DEFAULT_PORT : Z := 137.

Definition OPCODE_QUERY : Z := 0x00.
Definition QTYPE_NBSTAT : Z := 0x0021.
Definition QCLASS_IN : Z := 0x0001.
Definition RR_TYPE_NBSTAT : Z := 0x0021.

Definition NBSTAT_EOK : Z := 0x000.
Definition NBSTAT_ENOMEM : Z := 0x101.
Definition NBSTAT_EINVAL : Z := 0x102.
Definition NBSTAT_EWSAFAIL : Z := 0x103.
Definition NBSTAT_ESOCKET : Z := 0x104.
Definition NBSTAT_EPROTO : Z := 0x105.
Definition NBSTAT_ETRFLAG : Z := 0x106.
Definition NBSTAT_ETIMEOUT : Z := 0x107.
Definition NBSTAT_EDEBUG : Z := 0x200.

Definition SOCKET_ERROR : Z := -1.

(* ------------------------------------------------------------------ *)
(** ** Integer conversions *)

(** Conversion to [uint8_t], [uint16_t], [uint32_t]. *)
Definition u8 (x : Z) : Z := x mod 2 ^ 8.
Definition u16 (x : Z) : Z := x mod 2 ^ 16.
Definition u32 (x : Z) : Z := x mod 2 ^ 32.

(** A store to an unsigned bit-field of width [w] keeps the low [w] bits. *)
Definition bitfield (w : Z) (x : Z) : Z := x mod 2 ^ w.

(** The numeric value of a byte of storage, and the byte holding the low
    eight bits of an integer. *)
Definition byte_val (x : byte) : Z := Z.of_N (Byte.to_N x).

Definition byte_of (x : Z) : byte :=
  match Byte.of_N (Z.to_N (u8 x)) with
  | Some c => c
  | None => x00
  end.

(* ------------------------------------------------------------------ *)
(** ** Data model *)

(** Packet header: [struct nbstat_packet_header]. *)
Record nbstat_packet_header := {
  name_trn_id : Z;
  hdr_r : Z;
  hdr_opcode : Z;
  hdr_aa : Z;
  hdr_tc : Z;
  hdr_rd : Z;
  hdr_ra : Z;
  hdr_unused1 : Z;
  hdr_unused2 : Z;
  hdr_b : Z;
  hdr_rcode : Z;
  qdcount : Z;
  ancount : Z;
  nscount : Z;
  arcount : Z
}.

(** Question section: [struct nbstat_question_section]; [q_name] is the
    34-byte array. *)
Record nbstat_question_section := {
  q_name : list byte;
  q_type : Z;
  q_class : Z
}.

(** Resource record: [struct nbstat_resource_record]. *)
Record nbstat_resource_record := {
  rr_name : list byte;
  rr_type : Z;
  rr_class : Z;
  ttl : Z;
  rdlength : Z
}.

Definition addr := nat.

(** Node entry: [struct nbstat_node_name]; [node_next] is the [next]
    pointer, [None] standing for [NULL]. *)
Record nbstat_node_name := {
  nbf_name : list byte;
  suffix : Z;
  node_g : Z;
  node_ont : Z;
  node_drg : Z;
  node_cnf : Z;
  node_act : Z;
  node_prm : Z;
  node_reserved : Z;
  node_next : option addr
}.

(** Statistics block: [struct nbstat_statistics]. *)
Record nbstat_statistics := {
  unit_id : list Z;
  jumpers : Z;
  test_result : Z;
  version_number : Z;
  period_of_statistics : Z;
  number_of_crcs : Z;
  number_alignment_errors : Z;
  number_of_collisions : Z;
  number_send_aborts : Z;
  number_good_sends : Z;
  number_good_receives : Z;
  number_retransmits : Z;
  number_no_resource_conditions : Z;
  number_free_command_blocks : Z;
  total_number_command_blocks : Z;
  max_total_number_command_blocks : Z;
  number_pending_sessions : Z;
  max_number_pending_sessions : Z;
  max_total_sessions_possible : Z;
  session_data_packet_size : Z
}.

(** Node Status Request: [struct nbstat_query]. *)
Record nbstat_query_t := {
  query_hdr : nbstat_packet_header;
  question : nbstat_question_section
}.

(** Node Status Response: [struct nbstat_response]. *)
Record nbstat_response := {
  rep_hdr : nbstat_packet_header;
  rep_rr : nbstat_resource_record;
  num_names : Z;
  rep_node : option addr;
  rep_stat : nbstat_statistics
}.

(** Buffer object: [buffer_t].  [b_data] is the storage [data] points to,
    [b_size] and [b_length] are the fields [size] and [length]. *)
Record buffer_t := {
  b_data : list byte;
  b_size : Z;
  b_length : Z
}.

(** Field stores on the response object. *)
Definition set_hdr (h : nbstat_packet_header) (rep : nbstat_response) :=
  {| rep_hdr := h; rep_rr := rep_rr rep; num_names := num_names rep;
     rep_node := rep_node rep; rep_stat := rep_stat rep |}.

Definition set_rr (x : nbstat_resource_record) (rep : nbstat_response) :=
  {| rep_hdr := rep_hdr rep; rep_rr := x; num_names := num_names rep;
     rep_node := rep_node rep; rep_stat := rep_stat rep |}.

Definition set_num_names (n : Z) (rep : nbstat_response) :=
  {| rep_hdr := rep_hdr rep; rep_rr := rep_rr rep; num_names := n;
     rep_node := rep_node rep; rep_stat := rep_stat rep |}.

Definition set_node (p : option addr) (rep : nbstat_response) :=
  {| rep_hdr := rep_hdr rep; rep_rr := rep_rr rep; num_names := num_names rep;
     rep_node := p; rep_stat := rep_stat rep |}.

Definition set_stat (x : nbstat_statistics) (rep : nbstat_response) :=
  {| rep_hdr := rep_hdr rep; rep_rr := rep_rr rep; num_names := num_names rep;
     rep_node := rep_node rep; rep_stat := x |}.

Definition set_rr_type (v : Z) (x : nbstat_resource_record) :=
  {| rr_name := rr_name x; rr_type := v; rr_class := rr_class x;
     ttl := ttl x; rdlength := rdlength x |}.

Definition set_rr_class (v : Z) (x : nbstat_resource_record) :=
  {| rr_name := rr_name x; rr_type := rr_type x; rr_class := v;
     ttl := ttl x; rdlength := rdlength x |}.

Definition set_ttl (v : Z) (x : nbstat_resource_record) :=
  {| rr_name := rr_name x; rr_type := rr_type x; rr_class := rr_class x;
     ttl := v; rdlength := rdlength x |}.

Definition set_rdlength (v : Z) (x : nbstat_resource_record) :=
  {| rr_name := rr_name x; rr_type := rr_type x; rr_class := rr_class x;
     ttl := ttl x; rdlength := v |}.

Definition set_next (p : option addr) (n : nbstat_node_name) :=
  {| nbf_name := nbf_name n; suffix := suffix n; node_g := node_g n;
     node_ont := node_ont n; node_drg := node_drg n; node_cnf := node_cnf n;
     node_act := node_act n; node_prm := node_prm n;
     node_reserved := node_reserved n; node_next := p |}.

(* ------------------------------------------------------------------ *)
(** ** Machine state and the monad of the stateful code *)

(** Internet socket address, kept abstract. *)
Definition sockaddr_in := Z.

(** Calls into the sockets layer that the query driver makes, in order. *)
Inductive event : Type :=
  | EvSendto (bytes : list byte)
  | EvSelect (delay : Z)
  | EvRecvfrom
  | EvClose.

(** The state the code works on: the response object [rep] being filled
    in, the heap of live node entries, the outcomes of the [malloc] calls
    still to come ([true]: a block is returned; [false], or no outcome
    left: [NULL]), the offsets of the buffer bytes read so far and the
    socket calls made so far, latest first. *)
Record state := {
  st_rep : nbstat_response;
  st_heap : gmap addr nbstat_node_name;
  st_oracle : list bool;
  st_reads : list Z;
  st_events : list event
}.

Definition upd_rep (f : nbstat_response -> nbstat_response) (s : state) :=
  {| st_rep := f (st_rep s); st_heap := st_heap s; st_oracle := st_oracle s;
     st_reads := st_reads s; st_events := st_events s |}.

Definition upd_heap
    (f : gmap addr nbstat_node_name -> gmap addr nbstat_node_name)
    (s : state) :=
  {| st_rep := st_rep s; st_heap := f (st_heap s); st_oracle := st_oracle s;
     st_reads := st_reads s; st_events := st_events s |}.

Definition set_oracle (o : list bool) (s : state) :=
  {| st_rep := st_rep s; st_heap := st_heap s; st_oracle := o;
     st_reads := st_reads s; st_events := st_events s |}.

Definition log_read (p : Z) (s : state) :=
  {| st_rep := st_rep s; st_heap := st_heap s; st_oracle := st_oracle s;
     st_reads := p :: st_reads s; st_events := st_events s |}.

Definition log_event (e : event) (s : state) :=
  {| st_rep := st_rep s; st_heap := st_heap s; st_oracle := st_oracle s;
     st_reads := st_reads s; st_events := e :: st_events s |}.

(** Outcome of a computation: a value and the state after it, a memory
    fault (an access outside the buffer storage or through a pointer that is
    not live), or the exhaustion of the fuel of a loop. *)
Inductive result (A : Type) : Type :=
  | Ok (a : A) (s : state)
  | Fault
  | OutOfFuel.
Arguments Ok {A} a s.
Arguments Fault {A}.
Arguments OutOfFuel {A}.

Definition M (A : Type) : Type := state -> result A.

Definition ret {A} (a : A) : M A := fun s => Ok a s.

Definition bind {A B} (m : M A) (k : A -> M B) : M B :=
  fun s => match m s with
           | Ok a s' => k a s'
           | Fault => Fault
           | OutOfFuel => OutOfFuel
           end.

#[global] Instance M_ret : MRet M := @ret.
#[global] Instance M_bind : MBind M := fun A B k m => bind m k.

Definition get_rep : M nbstat_response := fun s => Ok (st_rep s) s.

Definition modify_rep (f : nbstat_response -> nbstat_response) : M unit :=
  fun s => Ok tt (upd_rep f s).

Definition emit (e : event) : M unit := fun s => Ok tt (log_event e s).

(** Read of the byte at offset [p] of the buffer storage. *)
Definition load (buffer : buffer_t) (p : Z) : M byte :=
  fun s =>
    if p <? 0 then Fault
    else match b_data buffer !! Z.to_nat p with
         | Some x => Ok x (log_read p s)
         | None => Fault
         end.

(** [n] consecutive bytes from offset [p] on ([memcpy] out of the buffer,
    or a byte-by-byte loop). *)
Fixpoint load_bytes (buffer : buffer_t) (p : Z) (n : nat) : M (list byte) :=
  match n with
  | O => ret []
  | S n' => x ← load buffer p;
            xs ← load_bytes buffer (p + 1) n';
            ret (x :: xs)
  end.

(** *** Byte-order codec, decoding side *)

Definition dec8be (buffer : buffer_t) (p : Z) : M Z :=
  x0 ← load buffer p;
  ret (u8 (byte_val x0)).

Definition dec16be (buffer : buffer_t) (p : Z) : M Z :=
  x0 ← load buffer p;
  x1 ← load buffer (p + 1);
  ret (u16 (Z.lor (Z.shiftl (byte_val x0) 8) (byte_val x1))).

Definition dec32be (buffer : buffer_t) (p : Z) : M Z :=
  x0 ← load buffer p;
  x1 ← load buffer (p + 1);
  x2 ← load buffer (p + 2);
  x3 ← load buffer (p + 3);
  ret (u32 (Z.lor (Z.lor (Z.lor (Z.shiftl (u32 (byte_val x0)) 24)
                                (Z.shiftl (byte_val x1) 16))
                         (Z.shiftl (byte_val x2) 8))
                  (byte_val x3))).

(** *** Heap of node entries *)

(** Contents of a freshly allocated block.  The decoder stores every field
    before it reads one, so the choice is not observable. *)
Definition node_uninit : nbstat_node_name :=
  {| nbf_name := []; suffix := 0; node_g := 0; node_ont := 0; node_drg := 0;
     node_cnf := 0; node_act := 0; node_prm := 0; node_reserved := 0;
     node_next := None |}.

(** [malloc(sizeof(struct nbstat_node_name))]: consumes one outcome of the
    oracle; on success the block is at an address that is not live. *)
Definition malloc_node : M (option addr) :=
  fun s =>
    match st_oracle s with
    | true :: o =>
        let a := fresh (dom (st_heap s)) in
        Ok (Some a) (set_oracle o (upd_heap (insert a node_uninit) s))
    | false :: o => Ok None (set_oracle o s)
    | [] => Ok None s
    end.

(** [free(p)] for a non-null [p]: the block must be live. *)
Definition free_node (a : addr) : M unit :=
  fun s =>
    match st_heap s !! a with
    | Some _ => Ok tt (upd_heap (delete a) s)
    | None => Fault
    end.

(** Read of the node a pointer refers to; [NULL] and dangling pointers
    fault. *)
Definition node_at (p : option addr) : M nbstat_node_name :=
  fun s =>
    match p with
    | Some a => match st_heap s !! a with
                | Some n => Ok n s
                | None => Fault
                end
    | None => Fault
    end.

(** Update of the node a pointer refers to. *)
Definition node_update (p : option addr)
    (f : nbstat_node_name -> nbstat_node_name) : M unit :=
  fun s =>
    match p with
    | Some a => match st_heap s !! a with
                | Some n => Ok tt (upd_heap (insert a (f n)) s)
                | None => Fault
                end
    | None => Fault
    end.

(* ------------------------------------------------------------------ *)
(** ** The response decoder *)

(** Control flow out of a block of a C function: the function has returned
    [code], or execution goes on with the cursor at offset [ptr]. *)
Inductive flow : Type :=
  | Return (code : Z)
  | Next (ptr : Z).

(** [node_name_free]: walks the list from [current], reading each node's
    [next] before the node is freed.  One step frees one live block, so a
    fuel of the number of live blocks is enough. *)
Fixpoint node_name_free_loop (fuel : nat) (current : option addr) : M unit :=
  match current with
  | None => ret tt
  | Some a =>
      match fuel with
      | O => fun _ => OutOfFuel
      | S fuel' =>
          let tmp := current in
          n ← node_at tmp;
          let current := node_next n in
          free_node a;;
          node_name_free_loop fuel' current
      end
  end.

Definition node_name_free (node : option addr) : M unit :=
  fun s => node_name_free_loop (size (st_heap s)) node s.

(** Lines 429-455: header decode.  The stores to [rep->hdr] are grouped in
    one record store after the last header read; no return lies between
    them.  Every decoded flag is stored to its bit-field as the source has
    it: [r] and [opcode] from a shifted and masked value, the other eight
    sub-fields from the unshifted [flags]. *)
Definition decode_header (buffer : buffer_t) (ptr : Z) : M Z :=
  id ← dec16be buffer ptr;
  let ptr := ptr + 2 in
  flags ← dec16be buffer ptr;
  let ptr := ptr + 2 in
  qd ← dec16be buffer ptr;
  let ptr := ptr + 2 in
  an ← dec16be buffer ptr;
  let ptr := ptr + 2 in
  ns ← dec16be buffer ptr;
  let ptr := ptr + 2 in
  ar ← dec16be buffer ptr;
  let ptr := ptr + 2 in
  modify_rep (set_hdr
    {| name_trn_id := id;
       hdr_r := bitfield 1 (Z.land (Z.shiftr flags 15) 0x1);
       hdr_opcode := bitfield 4 (Z.land (Z.shiftr flags 11) 0xf);
       hdr_aa := bitfield 1 flags;
       hdr_tc := bitfield 1 flags;
       hdr_rd := bitfield 1 flags;
       hdr_ra := bitfield 1 flags;
       hdr_unused1 := bitfield 1 flags;
       hdr_unused2 := bitfield 1 flags;
       hdr_b := bitfield 1 flags;
       hdr_rcode := bitfield 4 flags;
       qdcount := qd; ancount := an; nscount := ns; arcount := ar |});;
  ret ptr.

(** Lines 457-482: resource record, entry count and the length
    cross-check.  [sizeof(rep->rr.rr_name)] is 34. *)
Definition decode_rr (buffer : buffer_t) (ptr : Z) : M flow :=
  let ptr := ptr + 34 in
  ty ← dec16be buffer ptr;
  modify_rep (fun rep => set_rr (set_rr_type ty (rep_rr rep)) rep);;
  let ptr := ptr + 2 in
  if negb (ty =? RR_TYPE_NBSTAT) then ret (Return NBSTAT_EPROTO)
  else
    cl ← dec16be buffer ptr;
    modify_rep (fun rep => set_rr (set_rr_class cl (rep_rr rep)) rep);;
    let ptr := ptr + 2 in
    tl ← dec32be buffer ptr;
    modify_rep (fun rep => set_rr (set_ttl tl (rep_rr rep)) rep);;
    let ptr := ptr + 4 in
    rdl ← dec16be buffer ptr;
    modify_rep (fun rep => set_rr (set_rdlength rdl (rep_rr rep)) rep);;
    let ptr := ptr + 2 in
    n ← dec8be buffer ptr;
    modify_rep (set_num_names n);;
    let ptr := ptr + 1 in
    rep ← get_rep;
    let offset := ptr - 0 in
    let offset := offset + (18 * num_names rep + 46) in
    if negb (offset =? b_length buffer) then ret (Return NBSTAT_EPROTO)
    else ret (Next ptr).

(** Lines 487-528: one round of the entry loop per remaining entry;
    [todo] is [rep->num_names - i].  [tmp] is the node of the previous
    round. *)
Fixpoint build_list (buffer : buffer_t) (todo : nat) (ptr : Z)
    (tmp : option addr) : M flow :=
  match todo with
  | O => ret (Next ptr)
  | S todo' =>
      current ← malloc_node;
      match current with
      | None =>
          rep ← get_rep;
          node_name_free (rep_node rep);;
          ret (Return NBSTAT_ENOMEM)
      | Some _ =>
          node_update current (set_next None);;
          rep ← get_rep;
          match rep_node rep with
          | None => modify_rep (set_node current)
          | Some _ => node_update tmp (set_next current)
          end;;
          let tmp := current in
          name ← load_bytes buffer ptr 15;
          let ptr := ptr + 15 in
          sfx ← dec8be buffer ptr;
          let ptr := ptr + 1 in
          flags ← dec16be buffer ptr;
          node_update current (fun n =>
            {| nbf_name := name;
               suffix := sfx;
               node_g := bitfield 1 (Z.land (Z.shiftr flags 15) 0x1);
               node_ont := bitfield 2 (Z.land (Z.shiftr flags 13) 0x3);
               node_drg := bitfield 1 (Z.land (Z.shiftr flags 12) 0x1);
               node_cnf := bitfield 1 (Z.land (Z.shiftr flags 11) 0x1);
               node_act := bitfield 1 (Z.land (Z.shiftr flags 10) 0x1);
               node_prm := bitfield 1 (Z.land (Z.shiftr flags 9) 0x1);
               node_reserved := bitfield 9 (Z.land flags 0x1ff);
               node_next := node_next n |});;
          let ptr := ptr + 2 in
          build_list buffer todo' ptr tmp
      end
  end.

(** Lines 530-573: the statistics block, field by field. *)
Definition decode_statistics (buffer : buffer_t) (ptr : Z) : M Z :=
  uid ← load_bytes buffer ptr 6;
  let ptr := ptr + 6 in
  v1 ← dec8be buffer ptr;
  let ptr := ptr + 1 in
  v2 ← dec8be buffer ptr;
  let ptr := ptr + 1 in
  v3 ← dec16be buffer ptr;
  let ptr := ptr + 2 in
  v4 ← dec16be buffer ptr;
  let ptr := ptr + 2 in
  v5 ← dec16be buffer ptr;
  let ptr := ptr + 2 in
  v6 ← dec16be buffer ptr;
  let ptr := ptr + 2 in
  v7 ← dec16be buffer ptr;
  let ptr := ptr + 2 in
  v8 ← dec16be buffer ptr;
  let ptr := ptr + 2 in
  v9 ← dec32be buffer ptr;
  let ptr := ptr + 4 in
  v10 ← dec32be buffer ptr;
  let ptr := ptr + 4 in
  v11 ← dec16be buffer ptr;
  let ptr := ptr + 2 in
  v12 ← dec16be buffer ptr;
  let ptr := ptr + 2 in
  v13 ← dec16be buffer ptr;
  let ptr := ptr + 2 in
  v14 ← dec16be buffer ptr;
  let ptr := ptr + 2 in
  v15 ← dec16be buffer ptr;
  let ptr := ptr + 2 in
  v16 ← dec16be buffer ptr;
  let ptr := ptr + 2 in
  v17 ← dec16be buffer ptr;
  let ptr := ptr + 2 in
  v18 ← dec16be buffer ptr;
  let ptr := ptr + 2 in
  v19 ← dec16be buffer ptr;
  let ptr := ptr + 2 in
  modify_rep (set_stat
    {| unit_id := map (fun x => u8 (byte_val x)) uid;
       jumpers := v1; test_result := v2; version_number := v3;
       period_of_statistics := v4; number_of_crcs := v5;
       number_alignment_errors := v6; number_of_collisions := v7;
       number_send_aborts := v8; number_good_sends := v9;
       number_good_receives := v10; number_retransmits := v11;
       number_no_resource_conditions := v12;
       number_free_command_blocks := v13;
       total_number_command_blocks := v14;
       max_total_number_command_blocks := v15;
       number_pending_sessions := v16;
       max_number_pending_sessions := v17;
       max_total_sessions_possible := v18;
       session_data_packet_size := v19 |});;
  ret ptr.

(** [nbstat_decode_response]: decode the response and validate. *)
Definition nbstat_decode_response (buffer : buffer_t) : M Z :=
  if b_length buffer >? 576 then ret NBSTAT_EPROTO
  else
    let ptr := 0 in
    ptr ← decode_header buffer ptr;
    fl ← decode_rr buffer ptr;
    match fl with
    | Return code => ret code
    | Next ptr =>
        modify_rep (set_node None);;
        rep ← get_rep;
        fl ← build_list buffer (Z.to_nat (num_names rep)) ptr None;
        match fl with
        | Return code => ret code
        | Next ptr =>
            ptr ← decode_statistics buffer ptr;
            let offset := ptr - 0 in
            ret (if negb (offset =? b_length buffer) then NBSTAT_EDEBUG
                 else NBSTAT_EOK)
        end
    end.

(* ------------------------------------------------------------------ *)
(** ** The request encoder *)

(** Store of byte [x] at offset [p] of a storage; [None] is a store
    outside the storage. *)
Definition store (d : list byte) (p : Z) (x : byte) : option (list byte) :=
  if (p <? 0) || (Z.of_nat (length d) <=? p) then None
  else Some (<[Z.to_nat p := x]> d).

Fixpoint store_bytes (d : list byte) (p : Z) (l : list byte)
    : option (list byte) :=
  match l with
  | [] => Some d
  | x :: l' => d ← store d p x; store_bytes d (p + 1) l'
  end.

(** [memcpy(d + p, src, n)] from an array [src]. *)
Definition memcpy_to (d : list byte) (p : Z) (src : list byte) (n : nat)
    : option (list byte) :=
  if (length src <? n)%nat then None else store_bytes d p (take n src).

(** *** Byte-order codec, encoding side *)

Definition enc8be (d : list byte) (p : Z) (x : Z) : option (list byte) :=
  store d p (byte_of x).

Definition enc16be (d : list byte) (p : Z) (x : Z) : option (list byte) :=
  d ← store d p (byte_of (Z.land (Z.shiftr x 8) 0xff));
  store d (p + 1) (byte_of (Z.land x 0xff)).

Definition enc32be (d : list byte) (p : Z) (x : Z) : option (list byte) :=
  d ← store d p (byte_of (Z.land (Z.shiftr x 24) 0xff));
  d ← store d (p + 1) (byte_of (Z.land (Z.shiftr x 16) 0xff));
  d ← store d (p + 2) (byte_of (Z.land (Z.shiftr x 8) 0xff));
  store d (p + 3) (byte_of (Z.land x 0xff)).

(** The flags word the encoder assembles from the header sub-fields
    (lines 358-371). *)
Definition encode_flags (h : nbstat_packet_header) : Z :=
  let flags := 0x0000 in
  let flags := u16 (Z.lor flags (Z.land (Z.shiftl (hdr_r h) 15) 0x8000)) in
  let flags := u16 (Z.lor flags (Z.land (Z.shiftl (hdr_opcode h) 11) 0x7800)) in
  let flags := u16 (Z.lor flags (Z.land (Z.shiftl (hdr_aa h) 10) 0x0400)) in
  let flags := u16 (Z.lor flags (Z.land (Z.shiftl (hdr_tc h) 9) 0x0200)) in
  let flags := u16 (Z.lor flags (Z.land (Z.shiftl (hdr_rd h) 8) 0x0100)) in
  let flags := u16 (Z.lor flags (Z.land (Z.shiftl (hdr_ra h) 7) 0x0080)) in
  let flags := u16 (Z.lor flags (Z.land (Z.shiftl (hdr_unused1 h) 6) 0x0040)) in
  let flags := u16 (Z.lor flags (Z.land (Z.shiftl (hdr_unused2 h) 5) 0x0020)) in
  let flags := u16 (Z.lor flags (Z.land (Z.shiftl (hdr_b h) 4) 0x0010)) in
  let flags := u16 (Z.lor flags (Z.land (hdr_rcode h) 0x000f)) in
  flags.

(** [nbstat_encode_request].  The pointer arguments are [None] for
    [NULL].  The outer [option] is [None] when a write falls outside the
    buffer storage; otherwise the return code comes with the buffer object
    as the call leaves it. *)
Definition nbstat_encode_request (buffer : option buffer_t)
    (query : option nbstat_query_t) : option (Z * option buffer_t) :=
  match buffer, query with
  | Some buf, Some query =>
      let ptr := 0 in
      d ← enc16be (b_data buf) ptr (name_trn_id (query_hdr query));
      let ptr := ptr + 2 in
      let flags := encode_flags (query_hdr query) in
      d ← enc16be d ptr flags;
      let ptr := ptr + 2 in
      d ← enc16be d ptr (qdcount (query_hdr query));
      let ptr := ptr + 2 in
      d ← enc16be d ptr (ancount (query_hdr query));
      let ptr := ptr + 2 in
      d ← enc16be d ptr (nscount (query_hdr query));
      let ptr := ptr + 2 in
      d ← enc16be d ptr (arcount (query_hdr query));
      let ptr := ptr + 2 in
      d ← memcpy_to d ptr (q_name (question query)) 34;
      let ptr := ptr + 34 in
      d ← enc16be d ptr (q_type (question query));
      let ptr := ptr + 2 in
      d ← enc16be d ptr (q_class (question query));
      let ptr := ptr + 2 in
      Some (NBSTAT_EOK,
            Some {| b_data := d; b_size := b_size buf; b_length := ptr - 0 |})
  | _, _ => Some (NBSTAT_EINVAL, buffer)
  end.

(** [netbios_encode_name]: the bytes written to [name] for the 16-byte
    label [src], and the returned length. *)
Definition netbios_encode_name (src : list byte) (pad : Z)
    : list byte * Z :=
  let body :=
    flat_map (fun c =>
      [byte_of (0x41 + Z.land (Z.shiftr (byte_val c) 4) 0x0f);
       byte_of (0x41 + Z.land (byte_val c) 0x0f)]) (take 16 src) in
  (byte_of 0x20 :: body ++ [byte_of 0x00], 1 + Z.of_nat (length body)).

(* ------------------------------------------------------------------ *)
(** ** The query driver *)

(** The result object: [nbstat_t]. *)
Record nbstat_t := {
  sin : sockaddr_in;
  hwaddr : list Z;
  count : Z;
  node : option addr
}.

(** What the sockets layer answers during one query: the results of
    [winsock_init] and of [nbstat_socket] (with the peer address it
    stores), the process id, the result of [sendto] for the bytes sent, the
    result of [select] for the delay waited, whether the descriptor is in
    the ready set, and what [recvfrom] yields: [None] for [SOCKET_ERROR],
    or the datagram and its sender. *)
Record transport := {
  winsock_init : Z;
  nbstat_socket : Z * sockaddr_in;
  GetCurrentProcessId : Z;
  sendto : list byte -> Z;
  select : Z -> Z;
  FD_ISSET : bool;
  recvfrom : option (list byte * sockaddr_in)
}.

(** [buffer_init]: the storage of [size] bytes, zeroed, with length 0. *)
Definition buffer_init (size : Z) : buffer_t :=
  {| b_data := repeat x00 (Z.to_nat size); b_size := size; b_length := 0 |}.

(** [nbstat_recv] on success: at most [size] bytes of the datagram land at
    the start of the storage and [length] is their number. *)
Definition nbstat_recv (buffer : buffer_t) (dgram : list byte) : buffer_t :=
  let got := take (Z.to_nat (b_size buffer)) dgram in
  {| b_data := got ++ drop (length got) (b_data buffer);
     b_size := b_size buffer;
     b_length := Z.of_nat (length got) |}.

(** Lines 680-681: the timeout handed to the wait. *)
Definition query_timeout (timeout : Z) : Z :=
  if (timeout >? 10000) || (timeout <=? 0) then 3000 else timeout.

(** The loop of lines 713-716 counting the nodes of the list. *)
Fixpoint count_nodes (fuel : nat) (node : option addr) (count : Z) : M Z :=
  match node with
  | None => ret count
  | Some _ =>
      match fuel with
      | O => fun _ => OutOfFuel
      | S fuel' =>
          n ← node_at node;
          count_nodes fuel' (node_next n) (count + 1)
      end
  end.

(** [malloc(sizeof(nbstat_t))]: whether a block is returned. *)
Definition malloc_nbstat : M bool :=
  fun s =>
    match st_oracle s with
    | b :: o => Ok b (set_oracle o s)
    | [] => Ok false s
    end.

(** Lines 699-721 of [nbstat_query]: decode, then build the result
    object.  The pair returned is the return code and the value of
    [*nbstat] when the function returns. *)
Definition nbstat_query_decode (buffer : buffer_t) (sin : sockaddr_in)
    (nbstat : option nbstat_t) : M (Z * option nbstat_t) :=
  result ← nbstat_decode_response buffer;
  if negb (result =? NBSTAT_EOK) then ret (result, nbstat)
  else
    ok ← malloc_nbstat;
    if negb ok then ret (NBSTAT_ENOMEM, None)
    else
      rep ← get_rep;
      cnt ← (fun s => count_nodes (size (st_heap s)) (rep_node rep) 0 s);
      ret (NBSTAT_EOK,
           Some {| sin := sin; hwaddr := take 6 (unit_id (rep_stat rep));
                   count := cnt; node := rep_node rep |}).

(** [nbstat_query], with [nbstat] the value of [*nbstat] at entry. *)
Definition nbstat_query (env : transport) (nbstat : option nbstat_t)
    (timeout : Z) : M (Z * option nbstat_t) :=
  let result := winsock_init env in
  if negb (result =? 0) then ret (NBSTAT_EWSAFAIL, nbstat)
  else
    let '(result, sin) := nbstat_socket env in
    if negb (result =? 0) then ret (NBSTAT_ESOCKET, nbstat)
    else
      let nbtname := byte_of 0x2a :: repeat x00 15 in
      let query :=
        {| query_hdr :=
             {| name_trn_id := u16 (GetCurrentProcessId env);
                hdr_r := 0; hdr_opcode := OPCODE_QUERY; hdr_aa := 0;
                hdr_tc := 0; hdr_rd := 0; hdr_ra := 0; hdr_unused1 := 0;
                hdr_unused2 := 0; hdr_b := 0; hdr_rcode := 0;
                qdcount := 1; ancount := 0; nscount := 0; arcount := 0 |};
           question :=
             {| q_name := fst (netbios_encode_name nbtname 0x20);
                q_type := QTYPE_NBSTAT; q_class := QCLASS_IN |} |} in
      let buffer := buffer_init 1024 in
      match nbstat_encode_request (Some buffer) (Some query) with
      | Some (_, Some buffer) =>
          let bytes := take (Z.to_nat (b_length buffer)) (b_data buffer) in
          emit (EvSendto bytes);;
          let result := sendto env bytes in
          if (result =? SOCKET_ERROR) || negb (result =? b_length buffer)
          then emit EvClose;; ret (NBSTAT_EDEBUG, nbstat)
          else
            let buffer := buffer_init 1024 in
            let timeout := query_timeout timeout in
            emit (EvSelect timeout);;
            let nready := select env timeout in
            if nready =? SOCKET_ERROR
            then emit EvClose;; ret (NBSTAT_EDEBUG, nbstat)
            else if nready =? 0
            then emit EvClose;; ret (NBSTAT_ETIMEOUT, nbstat)
            else if (nready >? 0) && FD_ISSET env
            then
              emit EvRecvfrom;;
              emit EvClose;;
              match recvfrom env with
              | None => ret (NBSTAT_EDEBUG, nbstat)
              | Some (dgram, from) =>
                  nbstat_query_decode (nbstat_recv buffer dgram) from nbstat
              end
            else nbstat_query_decode buffer sin nbstat
      | _ => fun _ => Fault
      end.

(* ------------------------------------------------------------------ *)
(** ** The error-string table *)

Local Open Scope string_scope.

(** [error_list]; the last entry is the sentinel with the [NULL] string,
    its code [0xffffffff] read as an [int]. *)
Definition error_list : list (Z * option string) :=
  [ (NBSTAT_EOK, Some "operation completed successfully");
    (NBSTAT_ENOMEM, Some "memory allocation failure");
    (NBSTAT_EINVAL, Some "an invalid argument was passed to a library function");
    (NBSTAT_EWSAFAIL, Some "could not initialize the sockets layer");
    (NBSTAT_ESOCKET, Some "the system could not allocate a socket descriptor");
    (NBSTAT_ETRFLAG, Some "truncation flag was set in response");
    (NBSTAT_ETIMEOUT, Some "request expired");
    (NBSTAT_EDEBUG, Some "debugging error");
    ((-1)%Z, None) ].

(** The loop of [nbstat_error] over the table from entry [i] on: stops at
    the sentinel, breaks at the first entry whose code is [x]. *)
Fixpoint nbstat_error_loop (table : list (Z * option string)) (x : Z)
    : option string :=
  match table with
  | [] => None
  | (_, None) :: _ => None
  | (result, Some str) :: table' =>
      if (result =? x)%Z then Some str else nbstat_error_loop table' x
  end.

Definition nbstat_error (x : Z) : string :=
  match nbstat_error_loop error_list x with
  | Some error => error
  | None => "Unknown error"
  end.

Local Close Scope string_scope.

(* ------------------------------------------------------------------ *)
(** ** Releasing a result, the wait, presentation and the command line *)

(** [nbstat_free]: the list is released through [node_name_free], then
    the object itself, which is held by value here. *)
Definition nbstat_free (nbstat : option nbstat_t) : M unit :=
  match nbstat with
  | Some obj =>
      match node obj with
      | Some _ => node_name_free (node obj)
      | None => ret tt
      end
  | None => ret tt
  end.

(** Lines 321-322 of [socket_timeout]: the [tv_sec] and [tv_usec] handed
    to [select] for a delay in milliseconds; [/] and [%] of C truncate
    towards zero. *)
Definition socket_timeout_timeval (delay : Z) : Z * Z :=
  (Z.quot delay 1000, Z.rem delay 1000 * 1000).

Local Open Scope string_scope.

(** [netbios_service_name]; [name] is [None] while it is [NULL]. *)
Definition netbios_service_name (g suffix : Z) : string :=
  let name : option string :=
    if (suffix =? 0x00)%Z
    then Some (if (g =? 0)%Z then "Workstation Service" else "Browser Client")
    else if (suffix =? 0x01)%Z
    then (if negb (g =? 0)%Z then Some "Master Browser" else None)
    else if (suffix =? 0x1B)%Z
    then (if (g =? 0)%Z then Some "Domain Master Browser" else None)
    else if (suffix =? 0x1D)%Z
    then (if (g =? 0)%Z then Some "Master Browser" else None)
    else if (suffix =? 0x1E)%Z
    then (if negb (g =? 0)%Z then Some "Browser Service Elections" else None)
    else if (suffix =? 0x20)%Z
    then (if (g =? 0)%Z then Some "Default Name" else None)
    else None in
  match name with
  | Some name => name
  | None => "Unknown"
  end.

(** One character of output. *)
Definition putchar (c : byte) : string := String (ascii_of_byte c) "".

(** [printf("%02X", x)] for a [uint8_t] [x]: two upper-case hexadecimal
    digits. *)
Definition hex_digit (n : Z) : byte :=
  nth (Z.to_nat n)
    [x30; x31; x32; x33; x34; x35; x36; x37; x38; x39;
     x41; x42; x43; x44; x45; x46] x30.

Definition printf_02X (x : Z) : string :=
  putchar (hex_digit (x / 16)) ++ putchar (hex_digit (x mod 16)).

(** Lines 799-805 of [nbstat_dump_nbtstat]: the 15 bytes of a name, each
    read as a (signed) [char] and printed as it is when it lies in
    0x20..0x79, as a dot otherwise. *)
Definition dump_char (b : byte) : byte :=
  let ch := if (byte_val b <? 128)%Z then byte_val b
            else (byte_val b - 256)%Z in
  if (ch >=? 0x20)%Z && (ch <=? 0x79)%Z then b else x2e.

Definition dump_name (name : list byte) : string :=
  fold_right (fun b out => putchar (dump_char b) ++ out) "" (take 15 name).

(** Lines 798-809: the line printed for one node. *)
Definition dump_entry (n : nbstat_node_name) : string :=
  "    " ++ dump_name (nbf_name n)
  ++ "<" ++ printf_02X (suffix n) ++ "> "
  ++ (if (node_g n =? 0)%Z then "UNIQUE" else "GROUP ") ++ " "
  ++ "Registered " ++ netbios_service_name (node_g n) (suffix n)
  ++ putchar x0a.

(** Lines 814-819: the hardware address, bytes in hexadecimal separated
    by dashes. *)
Fixpoint dump_hwaddr (i : nat) (hw : list Z) : string :=
  match hw with
  | [] => ""
  | x :: hw' =>
      (if (0 <? i)%nat then putchar x2d else "")
      ++ printf_02X x ++ dump_hwaddr (S i) hw'
  end.

(** The loop of lines 797-812 over the list. *)
Fixpoint dump_nodes (fuel : nat) (current : option addr) : M string :=
  match current with
  | None => ret ""
  | Some _ =>
      match fuel with
      | O => fun _ => OutOfFuel
      | S fuel' =>
          n ← node_at current;
          rest ← dump_nodes fuel' (node_next n);
          ret (dump_entry n ++ rest)
      end
  end.

(** [nbstat_dump_nbtstat]: the text printed. *)
Definition nbstat_dump_nbtstat (nbstat : option nbstat_t) : M string :=
  match nbstat with
  | None => fun _ => Fault
  | Some obj =>
      table ← (fun s => dump_nodes (size (st_heap s)) (node obj) s);
      ret (putchar x0a
           ++ "    NetBIOS Remote Machine Table" ++ putchar x0a ++ putchar x0a
           ++ "       Name             Type   Status     Description  "
           ++ putchar x0a
           ++ "    ----------------------------------------------"
           ++ putchar x0a
           ++ table
           ++ putchar x0a ++ "    MAC Address = "
           ++ dump_hwaddr 0 (take 6 (hwaddr obj))
           ++ putchar x0a)
  end.

Definition EXIT_SUCCESS : Z := 0.
Definition EXIT_FAILURE : Z := 1.

(** What the argument handling of [main] (lines 843-881) ends in: a
    usage error, which exits with [EXIT_FAILURE]; the target, port and
    timeout handed to [nbstat_query]; or a read outside [argv]. *)
Inductive arguments : Type :=
  | Usage_error
  | Arguments_ok (target : string) (port timeout : Z)
  | Arguments_fault.

(** The loop of lines 854-874 over the arguments left; [atoi] is the C
    library function behind [strtoi]. *)
Fixpoint main_options (atoi : string -> Z) (fuel : nat) (argc : Z)
    (argv : list string) (port timeout : Z) : arguments :=
  if (argc >? 1)%Z then
    match fuel, argv with
    | S fuel', arg :: argv' =>
        if String.eqb arg "-p" then
          let argc := (argc - 1)%Z in
          if (argc <? 1)%Z || negb (port =? 0)%Z then Usage_error
          else
            match argv' with
            | value :: argv'' =>
                main_options atoi fuel' (argc - 1)%Z argv'' (atoi value)
                  timeout
            | [] => Arguments_fault
            end
        else if String.eqb arg "-t" then
          let argc := (argc - 1)%Z in
          if (argc <? 1)%Z || negb (timeout =? 0)%Z then Usage_error
          else
            match argv' with
            | value :: argv'' =>
                main_options atoi fuel' (argc - 1)%Z argv'' port
                  (atoi value)
            | [] => Arguments_fault
            end
        else Usage_error
    | _, _ => Arguments_fault
    end
  else
    match argv with
    | target :: _ =>
        let port := if (port =? 0)%Z then 137%Z else port in
        let timeout := if (timeout =? 0)%Z then 3000%Z else timeout in
        Arguments_ok target port timeout
    | [] => Arguments_fault
    end.

(** Lines 843-881 of [main]; [argc] is the number of entries of
    [argv]. *)
Definition main_arguments (atoi : string -> Z) (argv : list string)
    : arguments :=
  let argc := Z.of_nat (length argv) in
  if negb (argc =? 2)%Z && negb (argc =? 4)%Z && negb (argc =? 6)%Z
  then Usage_error
  else
    match argv with
    | progname :: argv' =>
        main_options atoi (length argv') (argc - 1)%Z argv' 0%Z 0%Z
    | [] => Arguments_fault
    end.

(** [main]: the exit status, and the table printed on success.  The
    port reaches [nbstat_query] as a [uint16_t]; the target and the port
    are what the transport answers for. *)
Definition main (env : string -> Z -> transport) (atoi : string -> Z)
    (argv : list string) : M (Z * option string) :=
  match main_arguments atoi argv with
  | Usage_error => ret (EXIT_FAILURE, None)
  | Arguments_fault => fun _ => Fault
  | Arguments_ok target port timeout =>
      r ← nbstat_query (env target (u16 port)) None timeout;
      let '(result, nbstat) := r in
      if negb (result =? NBSTAT_EOK)%Z then ret (EXIT_FAILURE, None)
      else
        table ← nbstat_dump_nbtstat nbstat;
        nbstat_free nbstat;;
        ret (EXIT_SUCCESS, Some table)
  end.

Local Close Scope string_scope.

(* ------------------------------------------------------------------ *)
(** ** Vocabulary of the specifications *)

(** Number of bytes of storage behind a buffer. *)
Definition storage (buffer : buffer_t) : Z := Z.of_nat (length (b_data buffer)).

(** The wire contents at an offset: a byte, and the big-endian 8-, 16- and
    32-bit values. *)
Definition peek (buffer : buffer_t) (p : Z) : byte :=
  default x00 (b_data buffer !! Z.to_nat p).

Definition peek8 (buffer : buffer_t) (p : Z) : Z := byte_val (peek buffer p).

Definition peek16 (buffer : buffer_t) (p : Z) : Z :=
  256 * peek8 buffer p + peek8 buffer (p + 1).

Definition peek32 (buffer : buffer_t) (p : Z) : Z :=
  65536 * peek16 buffer p + peek16 buffer (p + 2).

(** The [w]-bit field of a word that starts at bit [i]. *)
Definition bits (x : Z) (i w : Z) : Z := (x / 2 ^ i) mod 2 ^ w.

(** Offsets of the fields of a response datagram that decide its
    framing: the flags word, the resource-record type, the entry count. *)
Definition wire_flags (buffer : buffer_t) : Z := peek16 buffer 2.
Definition wire_rr_type (buffer : buffer_t) : Z := peek16 buffer 46.
Definition wire_num_names (buffer : buffer_t) : Z := peek8 buffer 56.

(** Wire sizes: the header, the resource record as the decoder consumes
    it (34-byte name, type, class, TTL, RDLENGTH), one entry, the
    statistics block. *)
Definition header_size : Z := 12.
Definition rr_size : Z := 34 + 2 + 2 + 4 + 2.
Definition entry_size : Z := 18.
Definition statistics_size : Z := 46.

(** The length a response with [n] entries must have. *)
Definition response_length (n : Z) : Z :=
  header_size + rr_size + 1 + entry_size * n + statistics_size.

(** Whether the next [n] calls of [malloc] all return a block. *)
Fixpoint allocs_succeed (n : nat) (o : list bool) : bool :=
  match n with
  | O => true
  | S n' => match o with
            | true :: o' => allocs_succeed n' o'
            | _ => false
            end
  end.

(** The return code of the decoder as a function of the framing fields of
    the datagram and of the allocator. *)
Definition decode_code (buffer : buffer_t) (o : list bool) : Z :=
  if b_length buffer >? 576 then NBSTAT_EPROTO
  else if negb (wire_rr_type buffer =? RR_TYPE_NBSTAT) then NBSTAT_EPROTO
  else if negb (response_length (wire_num_names buffer) =? b_length buffer)
       then NBSTAT_EPROTO
  else if allocs_succeed (Z.to_nat (wire_num_names buffer)) o then NBSTAT_EOK
  else NBSTAT_ENOMEM.

(** A list of addresses is the linked list that starts at pointer [p] in
    heap [h], in order, ending with a [NULL] [next]. *)
Fixpoint is_list (h : gmap addr nbstat_node_name) (p : option addr)
    (l : list addr) : Prop :=
  match l with
  | [] => p = None
  | a :: l' => p = Some a ∧ ∃ n, h !! a = Some n ∧ is_list h (node_next n) l'
  end.

(** The part of the state that reading the buffer and filling in [rep]
    leave alone. *)
Definition same_memory (s s' : state) : Prop :=
  st_heap s' = st_heap s /\ st_oracle s' = st_oracle s
  /\ st_events s' = st_events s.

(** The invariant of the entry loop, relative to the heap [h0] at entry
    of the decoder: the addresses [l] allocated so far are distinct and
    were not live in [h0], the heap is otherwise [h0], they form the list
    hanging off [rep->node], and [tmp] points to the last of them. *)
Definition list_inv (h0 : gmap addr nbstat_node_name) (l : list addr)
    (tmp : option addr) (s : state) : Prop :=
  NoDup l
  /\ (forall a, a ∈ l -> h0 !! a = None)
  /\ (forall a, a ∉ l -> st_heap s !! a = h0 !! a)
  /\ is_list (st_heap s) (rep_node (st_rep s)) l
  /\ (l <> [] -> tmp = last l).

(** The header as the decoder leaves it in [rep->hdr], in terms of the
    wire (established by [decode_header_wp]). *)
Definition decoded_hdr (buffer : buffer_t) : nbstat_packet_header :=
  {| name_trn_id := peek16 buffer 0;
     hdr_r := bits (wire_flags buffer) 15 1;
     hdr_opcode := bits (wire_flags buffer) 11 4;
     hdr_aa := bits (wire_flags buffer) 0 1;
     hdr_tc := bits (wire_flags buffer) 0 1;
     hdr_rd := bits (wire_flags buffer) 0 1;
     hdr_ra := bits (wire_flags buffer) 0 1;
     hdr_unused1 := bits (wire_flags buffer) 0 1;
     hdr_unused2 := bits (wire_flags buffer) 0 1;
     hdr_b := bits (wire_flags buffer) 0 1;
     hdr_rcode := bits (wire_flags buffer) 0 4;
     qdcount := peek16 buffer 4; ancount := peek16 buffer 6;
     nscount := peek16 buffer 8; arcount := peek16 buffer 10 |}.

(** The two bytes of a 16-bit value in network order, and the 50 bytes
    of a request on the wire: header, name, type and class. *)
Definition be16 (x : Z) : list byte :=
  [byte_of (Z.land (Z.shiftr x 8) 0xff); byte_of (Z.land x 0xff)].

Definition request_bytes (query : nbstat_query_t) : list byte :=
  be16 (name_trn_id (query_hdr query))
  ++ be16 (encode_flags (query_hdr query))
  ++ be16 (qdcount (query_hdr query))
  ++ be16 (ancount (query_hdr query))
  ++ be16 (nscount (query_hdr query))
  ++ be16 (arcount (query_hdr query))
  ++ take 34 (q_name (question query))
  ++ be16 (q_type (question query))
  ++ be16 (q_class (question query)).

(** The code a computation returned, if it returned. *)
Definition result_code {A} (r : result A) : option A :=
  match r with
  | Ok a _ => Some a
  | Fault | OutOfFuel => None
  end.

(** The buffer with the two bytes of its flags word replaced. *)
Definition set_wire_flags (buffer : buffer_t) (hi lo : byte) : buffer_t :=
  {| b_data := <[3%nat := lo]> (<[2%nat := hi]> (b_data buffer));
     b_size := b_size buffer; b_length := b_length buffer |}.

(** *** Sample inputs *)

(** A response object and a state before the decoder has run: nothing
    decoded, no node live, [o] the outcomes of the allocations to come. *)
Definition rep_blank : nbstat_response :=
  {| rep_hdr :=
       {| name_trn_id := 0; hdr_r := 0; hdr_opcode := 0; hdr_aa := 0;
          hdr_tc := 0; hdr_rd := 0; hdr_ra := 0; hdr_unused1 := 0;
          hdr_unused2 := 0; hdr_b := 0; hdr_rcode := 0; qdcount := 0;
          ancount := 0; nscount := 0; arcount := 0 |};
     rep_rr := {| rr_name := []; rr_type := 0; rr_class := 0; ttl := 0;
                  rdlength := 0 |};
     num_names := 0;
     rep_node := None;
     rep_stat :=
       {| unit_id := []; jumpers := 0; test_result := 0;
          version_number := 0; period_of_statistics := 0;
          number_of_crcs := 0; number_alignment_errors := 0;
          number_of_collisions := 0; number_send_aborts := 0;
          number_good_sends := 0; number_good_receives := 0;
          number_retransmits := 0; number_no_resource_conditions := 0;
          number_free_command_blocks := 0; total_number_command_blocks := 0;
          max_total_number_command_blocks := 0; number_pending_sessions := 0;
          max_number_pending_sessions := 0; max_total_sessions_possible := 0;
          session_data_packet_size := 0 |} |}.

Definition state_init (o : list bool) : state :=
  {| st_rep := rep_blank; st_heap := ∅; st_oracle := o; st_reads := [];
     st_events := [] |}.

(** A datagram of [len] bytes, zero but for the flags word, the
    resource-record type and the entry count. *)
Definition response_dgram (flags ty n : Z) (len : nat) : list byte :=
  <[2%nat := byte_of (Z.shiftr flags 8)]>
    (<[3%nat := byte_of flags]>
       (<[46%nat := byte_of (Z.shiftr ty 8)]>
          (<[47%nat := byte_of ty]>
             (<[56%nat := byte_of n]> (repeat x00 len))))).

(** The buffer of the query driver after it has received a datagram. *)
Definition received (dgram : list byte) : buffer_t :=
  nbstat_recv (buffer_init 1024) dgram.

(** A well-formed response with two entries; the same with the response
    bit clear; one with the authoritative-answer bit set on the wire, as
    node-status responses have it; a response with 27 entries; a
    datagram of 600 bytes; a two-entry response of another type. *)
Definition buffer_two : buffer_t :=
  received (response_dgram 0x8000 0x0021 2 139).
Definition buffer_no_response_bit : buffer_t :=
  received (response_dgram 0x0000 0x0021 2 139).
Definition buffer_aa : buffer_t :=
  received (response_dgram 0x8400 0x0021 2 139).
Definition buffer_27 : buffer_t :=
  received (response_dgram 0x8400 0x0021 27 589).
Definition buffer_600 : buffer_t :=
  received (response_dgram 0x8400 0x0021 2 600).
Definition buffer_nb : buffer_t :=
  received (response_dgram 0x8400 0x0020 2 139).

(** The driver's buffer when an empty datagram has arrived. *)
Definition buffer_empty : buffer_t := received [].

(** The request the driver builds for process id 1234, and a transport
    on which everything works and [buffer_two] is what arrives. *)
Definition query_1234 : nbstat_query_t :=
  {| query_hdr :=
       {| name_trn_id := 1234; hdr_r := 0; hdr_opcode := OPCODE_QUERY;
          hdr_aa := 0; hdr_tc := 0; hdr_rd := 0; hdr_ra := 0;
          hdr_unused1 := 0; hdr_unused2 := 0; hdr_b := 0; hdr_rcode := 0;
          qdcount := 1; ancount := 0; nscount := 0; arcount := 0 |};
     question :=
       {| q_name :=
            fst (netbios_encode_name (byte_of 0x2a :: repeat x00 15) 0x20);
          q_type := QTYPE_NBSTAT; q_class := QCLASS_IN |} |}.

Definition transport_ok : transport :=
  {| winsock_init := 0;
     nbstat_socket := (0, 0);
     GetCurrentProcessId := 1234;
     sendto := fun bytes => Z.of_nat (length bytes);
     select := fun _ => 1;
     FD_ISSET := true;
     recvfrom := Some (response_dgram 0x8000 0x0021 2 139, 0) |}.

(** Weakest precondition for total correctness: the computation returns,
    without fault, a value and a state that satisfy [Q]. *)
Definition wp {A} (m : M A) (s : state) (Q : A -> state -> Prop) : Prop :=
  match m s with
  | Ok a s' => Q a s'
  | Fault | OutOfFuel => False
  end.

(** *** Vocabulary of the further properties *)

(** The name-table entry that starts at offset [p] of the wire, as a
    node without successor. *)
Definition wire_entry (buffer : buffer_t) (p : Z) : nbstat_node_name :=
  {| nbf_name := map (fun i => peek buffer (p + Z.of_nat i)) (seq 0 15);
     suffix := peek8 buffer (p + 15);
     node_g := bits (peek16 buffer (p + 16)) 15 1;
     node_ont := bits (peek16 buffer (p + 16)) 13 2;
     node_drg := bits (peek16 buffer (p + 16)) 12 1;
     node_cnf := bits (peek16 buffer (p + 16)) 11 1;
     node_act := bits (peek16 buffer (p + 16)) 10 1;
     node_prm := bits (peek16 buffer (p + 16)) 9 1;
     node_reserved := bits (peek16 buffer (p + 16)) 0 9;
     node_next := None |}.

(** The [n] entries of a response, in the order of the wire. *)
Definition wire_entries (buffer : buffer_t) (n : nat)
    : list nbstat_node_name :=
  map (fun i => wire_entry buffer (57 + 18 * Z.of_nat i)) (seq 0 n).

(** The statistics block that starts at offset [p] of the wire. *)
Definition wire_statistics (buffer : buffer_t) (p : Z) : nbstat_statistics :=
  {| unit_id := map (fun i => peek8 buffer (p + Z.of_nat i)) (seq 0 6);
     jumpers := peek8 buffer (p + 6);
     test_result := peek8 buffer (p + 7);
     version_number := peek16 buffer (p + 8);
     period_of_statistics := peek16 buffer (p + 10);
     number_of_crcs := peek16 buffer (p + 12);
     number_alignment_errors := peek16 buffer (p + 14);
     number_of_collisions := peek16 buffer (p + 16);
     number_send_aborts := peek16 buffer (p + 18);
     number_good_sends := peek32 buffer (p + 20);
     number_good_receives := peek32 buffer (p + 24);
     number_retransmits := peek16 buffer (p + 28);
     number_no_resource_conditions := peek16 buffer (p + 30);
     number_free_command_blocks := peek16 buffer (p + 32);
     total_number_command_blocks := peek16 buffer (p + 34);
     max_total_number_command_blocks := peek16 buffer (p + 36);
     number_pending_sessions := peek16 buffer (p + 38);
     max_number_pending_sessions := peek16 buffer (p + 40);
     max_total_sessions_possible := peek16 buffer (p + 42);
     session_data_packet_size := peek16 buffer (p + 44) |}.

(** The nodes met when the list is walked from pointer [p], each
    without its [next]. *)
Fixpoint list_entries (fuel : nat) (h : gmap addr nbstat_node_name)
    (p : option addr) : list nbstat_node_name :=
  match fuel, p with
  | S fuel', Some a =>
      match h !! a with
      | Some n => set_next None n :: list_entries fuel' h (node_next n)
      | None => []
      end
  | _, _ => []
  end.

(** The nodes at the addresses [l] hold the entries of the wire, in
    order. *)
Definition entries_at (buffer : buffer_t) (h : gmap addr nbstat_node_name)
    (l : list addr) : Prop :=
  forall (i : nat) a,
    l !! i = Some a ->
    set_next None <$> h !! a
    = Some (wire_entry buffer (57 + 18 * Z.of_nat i)).

(** The response object a successful decode leaves, but for the pointer
    to the list: every field read off the wire; [rr_name], which the
    decoder skips, as it was. *)
Definition wire_response (buffer : buffer_t) (rep0 : nbstat_response)
    : nbstat_response :=
  {| rep_hdr := decoded_hdr buffer;
     rep_rr := {| rr_name := rr_name (rep_rr rep0);
                  rr_type := wire_rr_type buffer;
                  rr_class := peek16 buffer 48;
                  ttl := peek32 buffer 50;
                  rdlength := peek16 buffer 54 |};
     num_names := wire_num_names buffer;
     rep_node := None;
     rep_stat :=
       wire_statistics buffer (57 + 18 * wire_num_names buffer) |}.

(** A transport on which the exchange of one query with timeout
    [timeout] works: the sockets layer starts, a socket is connected, the
    50 bytes of the request are sent, the wait ends with the descriptor
    ready and [dgram] is received from address [from]. *)
Definition transport_delivers (env : transport) (timeout : Z)
    (dgram : list byte) (from : sockaddr_in) : Prop :=
  winsock_init env = 0
  /\ fst (nbstat_socket env) = 0
  /\ (forall bytes, length bytes = 50%nat -> sendto env bytes = 50)
  /\ 0 < select env (query_timeout timeout)
  /\ FD_ISSET env = true
  /\ recvfrom env = Some (dgram, from).

(** A response buffer with good framing: within the ceiling, of the
    node-status type, of the length of its entry count. *)
Definition well_framed (buffer : buffer_t) : Prop :=
  b_length buffer <= 576
  /\ wire_rr_type buffer = RR_TYPE_NBSTAT
  /\ b_length buffer = response_length (wire_num_names buffer).

(** *** More sample inputs *)

(** The response of a host with the names WORKSTATION (suffix 0x00) and
    FILESERVER (suffix 0x20), both unique and active, and the unit id
    AA BB CC DD EE FF. *)
Definition names_dgram : list byte :=
  [x04; xd2; x84; x00; x00; x00; x00; x01; x00; x00; x00; x00]
  ++ (x20 :: repeat x41 32 ++ [x00])
  ++ [x00; x21; x00; x01; x00; x00; x00; x00; x00; x53]
  ++ [x02]
  ++ list_byte_of_string "WORKSTATION    " ++ [x00; x04; x00]
  ++ list_byte_of_string "FILESERVER     " ++ [x20; x04; x00]
  ++ [xaa; xbb; xcc; xdd; xee; xff] ++ repeat x00 40.

Definition buffer_names : buffer_t := received names_dgram.

(** A transport that works and delivers [names_dgram] from address 7,
    whatever the target and the port. *)
Definition transport_names : transport :=
  {| winsock_init := 0;
     nbstat_socket := (0, 0);
     GetCurrentProcessId := 1234;
     sendto := fun bytes => Z.of_nat (length bytes);
     select := fun _ => 1;
     FD_ISSET := true;
     recvfrom := Some (names_dgram, 7) |}.

(** A stand-in for [atoi] that knows the numerals of the samples. *)
Definition atoi_sample (str : string) : Z :=
  if String.eqb str "137" then 137
  else if String.eqb str "1137" then 1137
  else if String.eqb str "2000" then 2000
  else 0.

(** The text [nbstat_dump_nbtstat] prints for a list of nodes and a
    hardware address: heading, one line per node, the address. *)
Definition dump_text (entries : list nbstat_node_name) (hw : list Z)
    : string :=
  (putchar x0a
   ++ "    NetBIOS Remote Machine Table" ++ putchar x0a ++ putchar x0a
   ++ "       Name             Type   Status     Description  "
   ++ putchar x0a
   ++ "    ----------------------------------------------"
   ++ putchar x0a
   ++ fold_right (fun n out => dump_entry n ++ out) "" entries
   ++ putchar x0a ++ "    MAC Address = "
   ++ dump_hwaddr 0 (take 6 hw)
   ++ putchar x0a)%string.


(** The wait of [nbstat_query] neither fails, nor times out, nor reports
    the descriptor readable: [select] returns a positive number without
    the descriptor in the ready set, or a negative number other than
    [SOCKET_ERROR]. *)
Definition wait_unanswered (env : transport) (timeout : Z) : bool :=
  let nready := select env (query_timeout timeout) in
  negb (nready =? SOCKET_ERROR) && negb (nready =? 0)
  && negb ((nready >? 0) && FD_ISSET env).
(* ------------------------------------------------------------------ *)
(** ** Arithmetic of bytes and words *)

Lemma byte_val_range (x : byte) : 0 <= byte_val x < 256.
Proof.
  unfold byte_val. pose proof (Byte.to_N_bounded x). lia.
Qed.

Lemma u8_byte_val (x : byte) : u8 (byte_val x) = byte_val x.
Proof.
  unfold u8. apply Z.mod_small. pose proof (byte_val_range x). lia.
Qed.

Lemma lor_add (k a b : Z) :
  0 <= k -> 0 <= b < 2 ^ k -> Z.lor (a * 2 ^ k) b = a * 2 ^ k + b.
Proof.
  intros Hk Hb. rewrite <- Z.add_nocarry_lor; [reflexivity |].
  apply Z.bits_inj'. intros i Hi. rewrite Z.land_spec, Z.bits_0.
  destruct (Z.lt_ge_cases i k) as [Hlt | Hge].
  - rewrite Z.mul_pow2_bits_low by lia. reflexivity.
  - replace (Z.testbit b i) with false; [apply andb_false_r |].
    symmetry. destruct (Z.eq_dec b 0) as [-> | Hb0]; [apply Z.bits_0 |].
    apply Z.bits_above_log2; [lia |].
    assert (Z.log2 b < k); [| lia]. apply Z.log2_lt_pow2; lia.
Qed.

Lemma peek8_range buffer p : 0 <= peek8 buffer p < 256.
Proof. apply byte_val_range. Qed.

Lemma peek16_range buffer p : 0 <= peek16 buffer p < 65536.
Proof.
  unfold peek16. pose proof (peek8_range buffer p).
  pose proof (peek8_range buffer (p + 1)). lia.
Qed.

Lemma word16_peek (x0 x1 : byte) :
  u16 (Z.lor (Z.shiftl (byte_val x0) 8) (byte_val x1))
  = 256 * byte_val x0 + byte_val x1.
Proof.
  pose proof (byte_val_range x0). pose proof (byte_val_range x1).
  rewrite Z.shiftl_mul_pow2, lor_add by (change (2 ^ 8) with 256; lia).
  unfold u16. rewrite Z.mod_small;
    change (2 ^ 8) with 256; change (2 ^ 16) with 65536; lia.
Qed.

Lemma word32_peek (x0 x1 x2 x3 : byte) :
  u32 (Z.lor (Z.lor (Z.lor (Z.shiftl (u32 (byte_val x0)) 24)
                           (Z.shiftl (byte_val x1) 16))
                    (Z.shiftl (byte_val x2) 8))
             (byte_val x3))
  = 65536 * (256 * byte_val x0 + byte_val x1)
    + (256 * byte_val x2 + byte_val x3).
Proof.
  pose proof (byte_val_range x0). pose proof (byte_val_range x1).
  pose proof (byte_val_range x2). pose proof (byte_val_range x3).
  assert (Hu : u32 (byte_val x0) = byte_val x0).
  { unfold u32. apply Z.mod_small. change (2 ^ 32) with 4294967296. lia. }
  rewrite Hu, !Z.shiftl_mul_pow2 by lia.
  rewrite (lor_add 24) by
    (change (2 ^ 16) with 65536; change (2 ^ 24) with 16777216; lia).
  replace (byte_val x0 * 2 ^ 24 + byte_val x1 * 2 ^ 16)
    with ((256 * byte_val x0 + byte_val x1) * 2 ^ 16)
    by (change (2 ^ 16) with 65536; change (2 ^ 24) with 16777216; lia).
  rewrite (lor_add 16) by
    (change (2 ^ 16) with 65536; change (2 ^ 8) with 256; lia).
  replace ((256 * byte_val x0 + byte_val x1) * 2 ^ 16 + byte_val x2 * 2 ^ 8)
    with ((65536 * byte_val x0 + 256 * byte_val x1 + byte_val x2) * 2 ^ 8)
    by (change (2 ^ 16) with 65536; change (2 ^ 8) with 256; lia).
  rewrite (lor_add 8) by (change (2 ^ 8) with 256; lia).
  unfold u32. rewrite Z.mod_small;
    change (2 ^ 8) with 256; change (2 ^ 32) with 4294967296; lia.
Qed.

Lemma bitfield_shift_mask (x i w m : Z) :
  0 <= i -> 0 <= w -> m = Z.ones w ->
  bitfield w (Z.land (Z.shiftr x i) m) = bits x i w.
Proof.
  intros Hi Hw ->. unfold bitfield, bits.
  rewrite Z.land_ones, Z.shiftr_div_pow2 by lia.
  apply Z.mod_mod. lia.
Qed.

Lemma bitfield_low (x w : Z) : bitfield w x = bits x 0 w.
Proof. unfold bitfield, bits. change (2 ^ 0) with 1. by rewrite Z.div_1_r. Qed.

(* ------------------------------------------------------------------ *)
(** ** Rules of the weakest precondition *)

Section wp_rules.
Context {A B : Type}.
Implicit Types (s : state).

Lemma wp_ret (a : A) s (Q : A -> state -> Prop) : Q a s -> wp (ret a) s Q.
Proof. exact id. Qed.

Lemma wp_bind (m : M A) (k : A -> M B) s (Q : B -> state -> Prop) :
  wp m s (fun a s' => wp (k a) s' Q) -> wp (m ≫= k) s Q.
Proof.
  unfold wp, mbind, M_bind, bind. destruct (m s); auto.
Qed.

Lemma wp_mono (m : M A) s (Q Q' : A -> state -> Prop) :
  wp m s Q -> (forall a s', Q a s' -> Q' a s') -> wp m s Q'.
Proof. unfold wp. destruct (m s); auto. Qed.

Lemma wp_run (m : M A) s (Q : A -> state -> Prop) :
  wp m s Q <-> exists a s', m s = Ok a s' /\ Q a s'.
Proof.
  unfold wp. split.
  - destruct (m s) as [a s' | |]; [eauto | done | done].
  - intros (a & s' & -> & HQ). exact HQ.
Qed.
End wp_rules.

Lemma wp_get_rep s (Q : nbstat_response -> state -> Prop) :
  Q (st_rep s) s -> wp get_rep s Q.
Proof. exact id. Qed.

Lemma wp_modify_rep f s (Q : unit -> state -> Prop) :
  Q tt (upd_rep f s) -> wp (modify_rep f) s Q.
Proof. exact id. Qed.

Lemma wp_emit e s (Q : unit -> state -> Prop) :
  Q tt (log_event e s) -> wp (emit e) s Q.
Proof. exact id. Qed.

Lemma load_in_range buffer p s :
  0 <= p < storage buffer ->
  load buffer p s = Ok (peek buffer p) (log_read p s).
Proof.
  intros Hp. unfold load, peek, storage in *.
  destruct (Z.ltb_spec p 0) as [? | _]; [lia |].
  destruct (lookup_lt_is_Some_2 (b_data buffer) (Z.to_nat p)) as [x Hx];
    [lia |].
  by rewrite Hx.
Qed.

Lemma wp_load buffer p s (Q : byte -> state -> Prop) :
  0 <= p < storage buffer ->
  Q (peek buffer p) (log_read p s) -> wp (load buffer p) s Q.
Proof. intros Hp HQ. unfold wp. by rewrite load_in_range. Qed.

Lemma wp_dec8be buffer p s (Q : Z -> state -> Prop) :
  0 <= p -> p + 1 <= storage buffer ->
  Q (peek8 buffer p) (log_read p s) -> wp (dec8be buffer p) s Q.
Proof.
  intros H0 H1 HQ. unfold dec8be. apply wp_bind, wp_load; [lia |].
  apply wp_ret. by rewrite u8_byte_val.
Qed.

Lemma wp_dec16be buffer p s (Q : Z -> state -> Prop) :
  0 <= p -> p + 2 <= storage buffer ->
  Q (peek16 buffer p) (log_read (p + 1) (log_read p s)) ->
  wp (dec16be buffer p) s Q.
Proof.
  intros H0 H1 HQ. unfold dec16be.
  apply wp_bind, wp_load; [lia |]. apply wp_bind, wp_load; [lia |].
  apply wp_ret. by rewrite word16_peek.
Qed.

Lemma wp_dec32be buffer p s (Q : Z -> state -> Prop) :
  0 <= p -> p + 4 <= storage buffer ->
  Q (peek32 buffer p)
    (log_read (p + 3) (log_read (p + 2) (log_read (p + 1) (log_read p s)))) ->
  wp (dec32be buffer p) s Q.
Proof.
  intros H0 H1 HQ. unfold dec32be.
  apply wp_bind, wp_load; [lia |]. apply wp_bind, wp_load; [lia |].
  apply wp_bind, wp_load; [lia |]. apply wp_bind, wp_load; [lia |].
  apply wp_ret. rewrite word32_peek.
  unfold peek32, peek16, peek8 in HQ.
  by replace (p + 2 + 1) with (p + 3) in HQ by lia.
Qed.

Lemma same_memory_refl s : same_memory s s.
Proof. by repeat split. Qed.

Lemma wp_load_bytes buffer n p s (Q : list byte -> state -> Prop) :
  0 <= p -> p + Z.of_nat n <= storage buffer ->
  (forall s', same_memory s s' -> st_rep s' = st_rep s ->
              Q (map (fun i => peek buffer (p + Z.of_nat i)) (seq 0 n)) s') ->
  wp (load_bytes buffer p n) s Q.
Proof.
  revert p s Q. induction n as [| n IH]; intros p s Q H0 H1 HQ.
  - apply wp_ret, HQ; [apply same_memory_refl | done].
  - cbn [load_bytes]. apply wp_bind, wp_load; [lia |].
    apply wp_bind, IH; [lia | lia |]. intros s' Hmem Hrep.
    apply wp_ret.
    replace (peek buffer p
             :: map (fun i => peek buffer (p + 1 + Z.of_nat i)) (seq 0 n))
      with (map (fun i => peek buffer (p + Z.of_nat i)) (seq 0 (S n))).
    + apply HQ; [| by rewrite Hrep].
      destruct Hmem as (? & ? & ?). by repeat split.
    + cbn [seq map]. f_equal; [f_equal; lia |].
      rewrite <- seq_shift, map_map. apply map_ext. intros i. f_equal. lia.
Qed.

(* ------------------------------------------------------------------ *)
(** ** The blocks of the decoder *)

Ltac wp_read :=
  apply wp_bind;
  first [ apply wp_dec16be | apply wp_dec8be | apply wp_dec32be ];
  [ lia | lia | cbv beta zeta ].

Ltac wp_store := apply wp_bind, wp_modify_rep; cbv beta zeta.

(** Header decode: what each field of [rep->hdr] holds afterwards, in
    terms of the wire. *)
Lemma decode_header_wp buffer s (Q : Z -> state -> Prop) :
  12 <= storage buffer ->
  (forall s',
     same_memory s s' ->
     st_rep s' = set_hdr (decoded_hdr buffer) (st_rep s) ->
     Q 12 s') ->
  wp (decode_header buffer 0) s Q.
Proof.
  intros Hlen HQ. unfold decode_header.
  do 6 wp_read. wp_store. apply wp_ret, HQ; [by repeat split |].
  cbn [st_rep upd_rep log_read]. unfold decoded_hdr, wire_flags. f_equal.
  rewrite !bitfield_shift_mask, !bitfield_low by (reflexivity || lia).
  reflexivity.
Qed.

(** Resource record: a type other than [RR_TYPE_NBSTAT] ends the decode
    as soon as the type is read. *)
Lemma decode_rr_type_mismatch buffer s (Q : flow -> state -> Prop) :
  48 <= storage buffer ->
  wire_rr_type buffer <> RR_TYPE_NBSTAT ->
  (forall s', same_memory s s' ->
              rep_hdr (st_rep s') = rep_hdr (st_rep s) ->
              Q (Return NBSTAT_EPROTO) s') ->
  wp (decode_rr buffer 12) s Q.
Proof.
  intros Hlen Hty HQ. unfold decode_rr. cbv zeta.
  wp_read. wp_store.
  change (peek16 buffer (12 + 34)) with (wire_rr_type buffer).
  destruct (Z.eqb_spec (wire_rr_type buffer) RR_TYPE_NBSTAT) as [E | _];
    [done |].
  apply wp_ret, HQ; by repeat split.
Qed.

(** Resource record, entry count and cross-check on a buffer whose
    storage covers them. *)
Lemma decode_rr_wp buffer s (Q : flow -> state -> Prop) :
  57 <= storage buffer ->
  (forall s',
     same_memory s s' ->
     rep_hdr (st_rep s') = rep_hdr (st_rep s) ->
     rep_node (st_rep s') = rep_node (st_rep s) ->
     (wire_rr_type buffer = RR_TYPE_NBSTAT ->
      num_names (st_rep s') = wire_num_names buffer) ->
     Q (if negb (wire_rr_type buffer =? RR_TYPE_NBSTAT)
        then Return NBSTAT_EPROTO
        else if negb (response_length (wire_num_names buffer)
                      =? b_length buffer)
             then Return NBSTAT_EPROTO
             else Next 57) s') ->
  wp (decode_rr buffer 12) s Q.
Proof.
  intros Hlen HQ. unfold decode_rr. cbv zeta.
  wp_read. wp_store.
  change (peek16 buffer (12 + 34)) with (wire_rr_type buffer).
  destruct (Z.eqb_spec (wire_rr_type buffer) RR_TYPE_NBSTAT) as [E | NE];
    cbn [negb].
  - wp_read. wp_store. wp_read. wp_store. wp_read. wp_store.
    wp_read. wp_store. apply wp_bind, wp_get_rep.
    cbn [st_rep upd_rep log_read num_names set_num_names].
    change (12 + 34 + 2 + 2 + 4 + 2) with 56.
    change (peek8 buffer 56) with (wire_num_names buffer).
    replace (56 + 1 - 0 + (18 * wire_num_names buffer + 46))
      with (response_length (wire_num_names buffer))
      by (unfold response_length, header_size, rr_size, entry_size,
            statistics_size; lia).
    cbn [negb] in HQ.
    destruct (response_length (wire_num_names buffer) =? b_length buffer);
      apply wp_ret, HQ; by repeat split.
  - apply wp_ret, HQ; by repeat split.
Qed.

(** Statistics block: 46 bytes are consumed, whatever they hold. *)
Lemma decode_statistics_wp buffer ptr s (Q : Z -> state -> Prop) :
  0 <= ptr -> ptr + 46 <= storage buffer ->
  (forall s',
     same_memory s s' ->
     rep_hdr (st_rep s') = rep_hdr (st_rep s) ->
     rep_node (st_rep s') = rep_node (st_rep s) ->
     num_names (st_rep s') = num_names (st_rep s) ->
     unit_id (rep_stat (st_rep s'))
       = map (fun i => peek8 buffer (ptr + Z.of_nat i)) (seq 0 6) ->
     Q (ptr + 46) s') ->
  wp (decode_statistics buffer ptr) s Q.
Proof.
  intros H0 Hlen HQ. unfold decode_statistics.
  apply wp_bind, wp_load_bytes; [lia | lia |]. intros s1 Hmem1 Hrep1.
  cbv beta zeta. do 19 wp_read. wp_store. apply wp_ret.
  replace (ptr + 6 + 1 + 1 + 2 + 2 + 2 + 2 + 2 + 2 + 4 + 4 + 2 + 2 + 2 + 2
           + 2 + 2 + 2 + 2 + 2) with (ptr + 46) by lia.
  destruct Hmem1 as (? & ? & ?).
  apply HQ; cbn [st_rep upd_rep log_read rep_stat set_stat unit_id
                 rep_hdr rep_node num_names]; try congruence.
  - by repeat split.
  - rewrite map_map. apply map_ext. intros i. apply u8_byte_val.
Qed.

(* ------------------------------------------------------------------ *)
(** ** Linked lists in the heap *)

Section lists.
Implicit Types (h : gmap addr nbstat_node_name) (l : list addr).

Lemma is_list_live h p l a : is_list h p l -> a ∈ l -> is_Some (h !! a).
Proof.
  revert p. induction l as [| b l IH]; intros p Hl Ha.
  - by apply elem_of_nil in Ha.
  - destruct Hl as (-> & n & Hn & Hl). apply elem_of_cons in Ha as [-> | Ha].
    + by exists n.
    + by apply (IH (node_next n)).
Qed.

Lemma is_list_null h l : is_list h None l -> l = [].
Proof. destruct l as [| a l]; [done |]. by intros (? & _). Qed.

Lemma is_list_nonnull h a l : is_list h (Some a) l -> l <> [].
Proof. by destruct l. Qed.

(** Only the [next] fields of the nodes of the list matter. *)
Lemma is_list_agree h h' p l :
  is_list h p l ->
  (forall a, a ∈ l -> node_next <$> h' !! a = node_next <$> h !! a) ->
  is_list h' p l.
Proof.
  revert p. induction l as [| b l IH]; intros p Hl Hag; [done |].
  destruct Hl as (-> & n & Hn & Hl). split; [done |].
  pose proof (Hag b ltac:(left)) as Hb. rewrite Hn in Hb.
  destruct (h' !! b) as [n' |] eqn:Hn'; [| done].
  injection Hb as Hb. exists n'. split; [done |]. rewrite Hb.
  apply IH; [done |]. intros a Ha. apply Hag. by right.
Qed.

(** Linking a new last node [a] behind the last node [t]. *)
Lemma is_list_snoc h h' p l t a :
  is_list h p (l ++ [t]) ->
  (forall b, b ∈ l -> node_next <$> h' !! b = node_next <$> h !! b) ->
  node_next <$> h' !! t = Some (Some a) ->
  node_next <$> h' !! a = Some None ->
  is_list h' p ((l ++ [t]) ++ [a]).
Proof.
  revert p. induction l as [| b l IH]; intros p Hl Hag Ht Ha.
  - destruct Hl as (-> & _). cbn.
    destruct (h' !! t) as [nt |]; [| done]. injection Ht as Ht.
    destruct (h' !! a) as [na |]; [| done]. injection Ha as Ha.
    split; [done |]. exists nt. split; [done |]. rewrite Ht.
    split; [done |]. by exists na.
  - destruct Hl as (-> & n & Hn & Hl). split; [done |].
    pose proof (Hag b ltac:(left)) as Hb. rewrite Hn in Hb.
    destruct (h' !! b) as [n' |]; [| done]. injection Hb as Hb.
    exists n'. split; [done |]. rewrite Hb.
    apply IH; [done | | done | done]. intros c Hc. apply Hag. by right.
Qed.

Lemma is_list_size h p l : is_list h p l -> NoDup l -> (length l <= size h)%nat.
Proof.
  intros Hl Hnd.
  rewrite <- (size_list_to_set (C := gset addr) l Hnd), <- (size_dom h).
  apply subseteq_size. intros a Ha. apply elem_of_list_to_set in Ha.
  apply elem_of_dom. by eapply is_list_live.
Qed.
End lists.

(** Freeing the list from its head frees exactly its nodes. *)
Lemma node_name_free_loop_wp l : forall fuel p s,
  is_list (st_heap s) p l -> NoDup l -> (length l <= fuel)%nat ->
  wp (node_name_free_loop fuel p) s (fun _ s' =>
    st_rep s' = st_rep s /\ st_oracle s' = st_oracle s
    /\ st_events s' = st_events s /\ st_reads s' = st_reads s
    /\ forall b, st_heap s' !! b
                 = if decide (b ∈ l) then None else st_heap s !! b).
Proof.
  induction l as [| a l IH]; intros fuel p s Hl Hnd Hfuel.
  - cbn in Hl. subst p. destruct fuel; cbn; split_and!; try done.
  - destruct Hl as (-> & n & Hn & Hl). apply NoDup_cons in Hnd as [Ha Hnd].
    destruct fuel as [| fuel]; [cbn in Hfuel; lia |].
    cbn [node_name_free_loop]. apply wp_bind.
    unfold wp at 1, node_at. rewrite Hn. apply wp_bind.
    unfold wp at 1, free_node. rewrite Hn.
    eapply wp_mono.
    + apply IH; [| done | cbn in Hfuel; lia].
      cbn [st_heap upd_heap]. eapply is_list_agree; [exact Hl |].
      intros b Hb. rewrite lookup_delete_ne; [done |]. by intros ->.
    + cbn [st_heap upd_heap st_rep st_oracle st_events st_reads].
      intros _ s' (? & ? & ? & ? & Hh). split_and!; try done.
      intros b. rewrite Hh.
      destruct (decide (b ∈ l)) as [Hb | Hb],
               (decide (b ∈ a :: l)) as [Hb' | Hb']; try done.
      * exfalso. apply Hb'. by right.
      * apply elem_of_cons in Hb' as [-> | ?]; [| done].
        apply lookup_delete_eq.
      * apply lookup_delete_ne. intros ->. apply Hb'. by left.
Qed.

Lemma node_name_free_wp h0 l tmp s :
  list_inv h0 l tmp s ->
  wp (node_name_free (rep_node (st_rep s))) s (fun _ s' =>
    st_rep s' = st_rep s /\ st_oracle s' = st_oracle s
    /\ st_events s' = st_events s /\ st_reads s' = st_reads s
    /\ st_heap s' = h0).
Proof.
  intros (Hnd & Hfresh & Hframe & Hl & _). unfold node_name_free.
  eapply wp_mono.
  - apply (node_name_free_loop_wp l); [exact Hl | exact Hnd |].
    by eapply is_list_size.
  - intros _ s' (? & ? & ? & ? & Hh). split_and!; try done.
    apply map_eq. intros b. rewrite Hh.
    destruct (decide (b ∈ l)) as [Hb | Hb]; [by rewrite Hfresh | by apply Hframe].
Qed.

Lemma wp_node_update a f n s (Q : unit -> state -> Prop) :
  st_heap s !! a = Some n ->
  Q tt (upd_heap (insert a (f n)) s) ->
  wp (node_update (Some a) f) s Q.
Proof. intros Hn HQ. unfold wp, node_update. by rewrite Hn. Qed.

(** Stores to fields other than [next] of a node of the list keep the
    invariant. *)
Lemma list_inv_update h0 l tmp s a n n' :
  list_inv h0 l tmp s -> a ∈ l -> st_heap s !! a = Some n ->
  node_next n' = node_next n ->
  list_inv h0 l tmp (upd_heap (insert a n') s).
Proof.
  intros (Hnd & Hfresh & Hframe & Hl & Htmp) Ha Hn Hnext.
  split_and!; try done; cbn [st_heap st_rep upd_heap].
  - intros b Hb. rewrite lookup_insert_ne; [by apply Hframe | by intros ->].
  - eapply is_list_agree; [exact Hl |]. intros b _.
    destruct (decide (a = b)) as [<- | Hne].
    + by rewrite lookup_insert_eq, Hn; cbn; rewrite Hnext.
    + by rewrite lookup_insert_ne.
Qed.

(** Reads of the buffer keep the invariant. *)
Lemma list_inv_same h0 l tmp s s' :
  list_inv h0 l tmp s -> st_heap s' = st_heap s ->
  rep_node (st_rep s') = rep_node (st_rep s) -> list_inv h0 l tmp s'.
Proof. unfold list_inv. intros (? & ? & ? & ? & ?) -> ->. done. Qed.

(** Lines 489-502: a fresh node is made the last node of the list. *)
Lemma link_node_wp {B} h0 l tmp s o (k : unit -> M B)
    (Q : B -> state -> Prop) :
  list_inv h0 l tmp s ->
  let a := fresh (dom (st_heap s)) in
  (forall s',
     rep_hdr (st_rep s') = rep_hdr (st_rep s) ->
     num_names (st_rep s') = num_names (st_rep s) ->
     st_events s' = st_events s -> st_oracle s' = o ->
     list_inv h0 (l ++ [a]) (Some a) s' ->
     wp (k tt) s' Q) ->
  wp (node_update (Some a) (set_next None) ≫= fun _ =>
      get_rep ≫= fun rep =>
      match rep_node rep with
      | None => modify_rep (set_node (Some a))
      | Some _ => node_update tmp (set_next (Some a))
      end ≫= k)
     (set_oracle o (upd_heap (insert a node_uninit) s)) Q.
Proof.
  intros (Hnd & Hfresh & Hframe & Hl & Htmp) a Hk.
  assert (Ha : st_heap s !! a = None).
  { apply not_elem_of_dom, is_fresh. }
  assert (Hal : a ∉ l).
  { intros Hin. destruct (is_list_live _ _ _ _ Hl Hin) as [? ?]. congruence. }
  assert (Hnd' : NoDup (l ++ [a])).
  { apply NoDup_app. split_and!; [done | | apply NoDup_singleton].
    intros b Hb ->%list_elem_of_singleton. done. }
  assert (Hfresh' : forall b, b ∈ l ++ [a] -> h0 !! b = None).
  { intros b [Hb | ->%list_elem_of_singleton]%elem_of_app; [by apply Hfresh |].
    by rewrite <- Hframe. }
  apply wp_bind. eapply wp_node_update; [apply lookup_insert_eq |].
  apply wp_bind, wp_get_rep. cbn [st_rep upd_heap set_oracle].
  destruct (rep_node (st_rep s)) as [b |] eqn:Hnode.
  - (* the list is not empty: link behind [tmp] *)
    pose proof (is_list_nonnull _ _ _ Hl) as Hne. specialize (Htmp Hne).
    destruct (last l) as [t |] eqn:Hlast; [| by apply last_None in Hlast].
    apply last_Some in Hlast as [l0 ->]. subst tmp.
    assert (Ht : t ∈ l0 ++ [t]) by (apply elem_of_app; right; left).
    destruct (is_list_live _ _ _ _ Hl Ht) as [nt Hnt].
    assert (Hta : t <> a) by (intros ->; done).
    apply wp_bind. eapply wp_node_update.
    { cbn [st_heap upd_heap set_oracle]. rewrite !lookup_insert_ne by done.
      exact Hnt. }
    apply Hk; cbn [st_rep st_heap st_events st_oracle upd_heap set_oracle];
      try done.
    split_and!; try done.
    + intros c Hc. cbn [st_heap upd_heap set_oracle].
      rewrite !lookup_insert_ne; [apply Hframe | ..].
      * intros Hc'. apply Hc, elem_of_app. by left.
      * intros ->. apply Hc, elem_of_app. right. left.
      * intros ->. apply Hc, elem_of_app. right. left.
      * intros ->. apply Hc, elem_of_app. by left.
    + cbn [st_heap st_rep upd_heap set_oracle]. rewrite Hnode.
      eapply is_list_snoc; [exact Hl | | |].
      * intros c Hc. rewrite !lookup_insert_ne; [done | ..].
        -- intros ->. apply Hal, elem_of_app. by left.
        -- intros ->. apply Hal, elem_of_app. by left.
        -- intros ->. apply NoDup_app in Hnd as (_ & Hd & _).
           apply (Hd _ Hc). left.
      * by rewrite lookup_insert_eq.
      * rewrite lookup_insert_ne by done. by rewrite !lookup_insert_eq.
    + intros _. by rewrite last_snoc.
  - (* the list is empty: the node becomes its head *)
    apply is_list_null in Hl as ->.
    apply wp_bind, wp_modify_rep.
    apply Hk; cbn [st_rep st_heap st_events st_oracle upd_heap upd_rep
                   set_oracle rep_hdr num_names set_node app]; try done.
    split_and!; try done.
    + intros c Hc. cbn [st_heap upd_heap upd_rep set_oracle].
      rewrite !lookup_insert_ne; [apply Hframe; apply not_elem_of_nil | ..];
        intros ->; apply Hc; left.
    + cbn. split; [done |]. eexists. rewrite lookup_insert_eq. done.
Qed.

(** The entry loop: with enough successful allocations it consumes 18
    bytes per entry and extends the list; at the first failed allocation
    it frees the list and returns [NBSTAT_ENOMEM] with the heap as it was
    on entry of the decoder. *)
Lemma build_list_wp buffer h0 todo : forall ptr tmp s l,
  list_inv h0 l tmp s -> 0 <= ptr ->
  ptr + 18 * Z.of_nat todo <= storage buffer ->
  wp (build_list buffer todo ptr tmp) s (fun fl s' =>
    rep_hdr (st_rep s') = rep_hdr (st_rep s)
    /\ num_names (st_rep s') = num_names (st_rep s)
    /\ st_events s' = st_events s
    /\ if allocs_succeed todo (st_oracle s)
       then fl = Next (ptr + 18 * Z.of_nat todo)
            /\ st_oracle s' = drop todo (st_oracle s)
            /\ exists l' tmp',
                 length l' = todo /\ list_inv h0 (l ++ l') tmp' s'
       else fl = Return NBSTAT_ENOMEM /\ st_heap s' = h0).
Proof.
  induction todo as [| todo IH]; intros ptr tmp s l Hinv Hp Hlen.
  - apply wp_ret. split_and!; try done. cbn.
    split_and!; [f_equal; lia | done |].
    exists [], tmp. by rewrite app_nil_r.
  - cbn [build_list allocs_succeed]. apply wp_bind.
    unfold wp at 1, malloc_node.
    destruct (st_oracle s) as [| [] o] eqn:Ho.
    + (* no outcome left *)
      apply wp_bind, wp_get_rep. apply wp_bind.
      eapply wp_mono; [eapply node_name_free_wp, Hinv |].
      intros _ s' (? & ? & ? & ? & ?). apply wp_ret.
      split_and!; congruence.
    + (* a block is returned *)
      set (a := fresh (dom (st_heap s))).
      apply (link_node_wp h0 l tmp s o _ _ Hinv). fold a.
      intros s3 Hh3 Hn3 He3 Ho3 Hinv3.
      apply wp_bind, wp_load_bytes; [lia | lia |].
      intros s4 (Hheap4 & Ho4 & He4) Hrep4. wp_read. wp_read.
      assert (Hin : a ∈ l ++ [a]) by (apply elem_of_app; right; left).
      destruct Hinv3 as (Hnd3 & Hfresh3 & Hframe3 & Hl3 & Htmp3).
      destruct (is_list_live _ _ _ _ Hl3 Hin) as [na Hna].
      apply wp_bind. eapply wp_node_update.
      { cbn [st_heap log_read]. rewrite Hheap4. exact Hna. }
      eapply wp_mono.
      * apply (IH _ _ _ (l ++ [a])); [| lia | lia].
        eapply list_inv_update with (n := na); cbn [st_heap log_read];
          [| done | by rewrite Hheap4 | done].
        eapply list_inv_same; [by split_and! | done |].
        cbn [st_rep log_read]. by rewrite Hrep4.
      * cbn [st_rep st_oracle st_events upd_heap log_read].
        intros fl s' (Hh & Hn & He & Hpost). rewrite Ho4, Ho3 in Hpost.
        split_and!; [congruence | congruence | congruence |].
        destruct (allocs_succeed todo o); [| done].
        destruct Hpost as (-> & Hor & l' & tmp' & Hlen' & Hinv').
        split_and!; [f_equal; lia | done |].
        exists (a :: l'), tmp'. split; [by cbn; rewrite Hlen' |].
        by rewrite <- app_assoc in Hinv'.
    + (* [NULL] is returned *)
      apply wp_bind, wp_get_rep. apply wp_bind.
      eapply wp_mono.
      { eapply (node_name_free_wp h0 l tmp (set_oracle o s)). exact Hinv. }
      cbn [st_rep st_events set_oracle].
      intros _ s' (Hr & _ & He & _ & Hh). apply wp_ret.
      split_and!; congruence.
Qed.

(* ------------------------------------------------------------------ *)
(** ** The decoder as a whole *)

Lemma response_length_eq n : response_length n = 57 + 18 * n + 46.
Proof.
  unfold response_length, header_size, rr_size, entry_size, statistics_size.
  lia.
Qed.

(** On every buffer whose storage covers the fixed part of a response and
    its declared length, the decoder returns, and returns the code
    [decode_code] computes; a failed decode leaves the heap as it found
    it, a successful one leaves the list of the entries. *)
Lemma decode_response_wp buffer s :
  57 <= storage buffer -> b_length buffer <= storage buffer ->
  wp (nbstat_decode_response buffer) s (fun code s' =>
    code = decode_code buffer (st_oracle s)
    /\ st_events s' = st_events s
    /\ (code <> NBSTAT_EOK -> st_heap s' = st_heap s)
    /\ (b_length buffer <= 576 -> rep_hdr (st_rep s') = decoded_hdr buffer)
    /\ (code = NBSTAT_EOK ->
        num_names (st_rep s') = wire_num_names buffer
        /\ st_oracle s'
           = drop (Z.to_nat (wire_num_names buffer)) (st_oracle s)
        /\ exists l tmp,
             length l = Z.to_nat (wire_num_names buffer)
             /\ list_inv (st_heap s) l tmp s')).
Proof.
  intros Hfix Hlen. unfold nbstat_decode_response, decode_code.
  destruct (Z.gtb_spec (b_length buffer) 576) as [Hbig | Hsmall].
  { apply wp_ret. split_and!; try done. lia. }
  cbv zeta. apply wp_bind, decode_header_wp; [lia |].
  intros s1 (Hh1 & Ho1 & He1) Hrep1.
  apply wp_bind, decode_rr_wp; [lia |].
  intros s2 (Hh2 & Ho2 & He2) Hhdr2 Hnode2 Hnum2.
  assert (Hhdr : rep_hdr (st_rep s2) = decoded_hdr buffer).
  { by rewrite Hhdr2, Hrep1. }
  destruct (Z.eqb_spec (wire_rr_type buffer) RR_TYPE_NBSTAT) as [Hty | Hty];
    cbn [negb].
  2: { apply wp_ret. split_and!; try done; try congruence. }
  specialize (Hnum2 Hty).
  destruct (Z.eqb_spec (response_length (wire_num_names buffer))
              (b_length buffer)) as [Hcross | Hcross]; cbn [negb].
  2: { apply wp_ret. split_and!; try done; try congruence. }
  pose proof (peek8_range buffer 56) as Hn. fold (wire_num_names buffer) in Hn.
  rewrite response_length_eq in Hcross.
  apply wp_bind, wp_modify_rep. apply wp_bind, wp_get_rep.
  cbn [st_rep upd_rep num_names set_node]. rewrite Hnum2.
  apply wp_bind. eapply wp_mono.
  - apply (build_list_wp buffer (st_heap s) _ 57 None _ []);
      [| lia | rewrite Z2Nat.id by lia; lia].
    split_and!; cbn [st_heap st_rep upd_rep rep_node set_node]; try done.
    + apply NoDup_nil_2.
    + intros a Ha. by apply elem_of_nil in Ha.
    + intros a _. by rewrite Hh2, Hh1.
  - cbn [st_rep st_oracle st_events st_heap upd_rep rep_hdr num_names
         set_node]. intros fl s3 (Hhdr3 & Hnum3 & He3 & Hpost).
    rewrite Ho2, Ho1 in Hpost.
    destruct (allocs_succeed (Z.to_nat (wire_num_names buffer)) (st_oracle s)).
    + destruct Hpost as (-> & Ho3 & l & tmp & Hl & Hinv).
      apply wp_bind, decode_statistics_wp; [lia | |].
      { rewrite Z2Nat.id by lia. lia. }
      intros s4 (Hh4 & Ho4 & He4) Hhdr4 Hnode4 Hnum4 _. apply wp_ret.
      rewrite Z2Nat.id by lia.
      replace (57 + 18 * wire_num_names buffer + 46 - 0 =? b_length buffer)
        with true by (symmetry; apply Z.eqb_eq; lia).
      cbn [negb]. split_and!; try done; try congruence.
      intros _. split_and!; [congruence | congruence |].
      exists l, tmp. split; [done |].
      eapply list_inv_same; [exact Hinv | done | done].
    + destruct Hpost as (-> & Hh3). apply wp_ret.
      split_and!; try done; try congruence.
Qed.

(* ------------------------------------------------------------------ *)
(** ** The encoder *)

Section encoder.
Implicit Types (w r d l : list byte).

(** Writing right behind the bytes [w] written so far. *)
Lemma store_at_end w r x p :
  p = Z.of_nat (length w) -> (1 <= length r)%nat ->
  store (w ++ r) p x = Some ((w ++ [x]) ++ drop 1 r).
Proof.
  intros -> Hr. unfold store. rewrite length_app.
  destruct (Z.ltb_spec (Z.of_nat (length w)) 0) as [? | _]; [lia |].
  destruct (Z.leb_spec (Z.of_nat (length w + length r))
              (Z.of_nat (length w))) as [? | _]; [lia |].
  cbn [orb]. rewrite Nat2Z.id. f_equal.
  destruct r as [| y r]; [cbn in Hr; lia |].
  rewrite insert_app_r_alt, Nat.sub_diag by lia.
  cbn. by rewrite drop_0, <- app_assoc.
Qed.

Lemma store_bytes_at_end l : forall w r p,
  p = Z.of_nat (length w) -> (length l <= length r)%nat ->
  store_bytes (w ++ r) p l = Some ((w ++ l) ++ drop (length l) r).
Proof.
  induction l as [| x l IH]; intros w r p Hp Hr.
  - cbn. by rewrite app_nil_r, drop_0.
  - cbn [store_bytes length] in *.
    rewrite (store_at_end w r x p Hp) by lia. cbn [mbind option_bind].
    rewrite IH.
    + rewrite <- (app_assoc w [x] l), drop_drop. done.
    + rewrite length_app. cbn. lia.
    + rewrite length_drop. lia.
Qed.

Lemma enc16be_at_end w r p x :
  p = Z.of_nat (length w) -> (2 <= length r)%nat ->
  enc16be (w ++ r) p x = Some ((w ++ be16 x) ++ drop 2 r).
Proof.
  intros Hp Hr. unfold enc16be.
  rewrite (store_at_end w r _ p Hp) by lia. cbn [mbind option_bind].
  rewrite store_at_end.
  - rewrite <- (app_assoc w [_] [_]), drop_drop. done.
  - rewrite length_app. cbn. lia.
  - rewrite length_drop. lia.
Qed.

Lemma memcpy_to_at_end w r p src n :
  p = Z.of_nat (length w) -> (n <= length src)%nat -> (n <= length r)%nat ->
  memcpy_to (w ++ r) p src n = Some ((w ++ take n src) ++ drop n r).
Proof.
  intros Hp Hsrc Hr. unfold memcpy_to.
  destruct (Nat.ltb_spec (length src) n) as [? | _]; [lia |].
  rewrite store_bytes_at_end; [| done | rewrite length_take; lia].
  by rewrite length_take, Nat.min_l.
Qed.

Lemma length_be16 x : length (be16 x) = 2%nat.
Proof. done. Qed.
End encoder.

(** The encoder on non-null arguments: the 50 bytes of the request land
    at the start of the storage, the rest of the storage is untouched. *)
Lemma encode_request_ok buf query :
  50 <= storage buf ->
  length (q_name (question query)) = 34%nat ->
  nbstat_encode_request (Some buf) (Some query)
  = Some (NBSTAT_EOK,
          Some {| b_data := request_bytes query ++ drop 50 (b_data buf);
                  b_size := b_size buf; b_length := 50 |}).
Proof.
  intros Hst Hq. unfold storage in Hst. unfold nbstat_encode_request.
  cbv zeta.
  rewrite <- (app_nil_l (b_data buf)) at 1.
  rewrite enc16be_at_end by (cbn [length]; lia). cbn [mbind option_bind].
  do 5 (rewrite enc16be_at_end by
          (rewrite ?length_app, ?length_drop, ?length_be16; cbn [length]; lia);
        cbn [mbind option_bind]; rewrite drop_drop).
  rewrite memcpy_to_at_end by
    (rewrite ?length_app, ?length_drop, ?length_be16; cbn [length]; lia).
  cbn [mbind option_bind]. rewrite drop_drop.
  do 2 (rewrite enc16be_at_end by
          (rewrite ?length_app, ?length_drop, ?length_be16, ?length_take;
           cbn [length]; lia);
        cbn [mbind option_bind]; rewrite drop_drop).
  unfold request_bytes. rewrite <- !app_assoc. reflexivity.
Qed.

Lemma length_request_bytes query :
  length (q_name (question query)) = 34%nat ->
  length (request_bytes query) = 50%nat.
Proof.
  intros Hq. unfold request_bytes.
  rewrite !length_app, !length_be16, length_take, Hq. reflexivity.
Qed.

(* ------------------------------------------------------------------ *)
(** ** The query driver *)

Lemma count_nodes_wp l : forall fuel p c s,
  is_list (st_heap s) p l -> (length l <= fuel)%nat ->
  wp (count_nodes fuel p c) s (fun r s' =>
    s' = s /\ r = c + Z.of_nat (length l)).
Proof.
  induction l as [| a l IH]; intros fuel p c s Hl Hfuel.
  - cbn in Hl. subst p. destruct fuel; cbn; split; (done || lia).
  - destruct Hl as (-> & n & Hn & Hl).
    destruct fuel as [| fuel]; [cbn in Hfuel; lia |].
    cbn [count_nodes]. apply wp_bind. unfold wp at 1, node_at. rewrite Hn.
    eapply wp_mono; [apply IH; [exact Hl | cbn in Hfuel; lia] |].
    intros r s' (-> & ->). split; [done |]. cbn [length]. lia.
Qed.

Lemma storage_buffer_init size : 0 <= size -> storage (buffer_init size) = size.
Proof.
  intros Hs. unfold storage, buffer_init. cbn [b_data].
  rewrite repeat_length. lia.
Qed.

Lemma storage_nbstat_recv buffer dgram :
  b_size buffer <= storage buffer ->
  storage (nbstat_recv buffer dgram) = storage buffer
  /\ 0 <= b_length (nbstat_recv buffer dgram) <= storage buffer.
Proof.
  unfold storage, nbstat_recv. cbn [b_data b_length]. intros Hsize.
  assert (length (take (Z.to_nat (b_size buffer)) dgram)
          <= length (b_data buffer))%nat.
  { rewrite length_take. lia. }
  rewrite length_app, length_drop. lia.
Qed.

(** Decode and build the result object: a result object is handed out
    exactly when the code is [NBSTAT_EOK]. *)
Lemma nbstat_query_decode_wp buffer sin0 nbstat s :
  57 <= storage buffer -> b_length buffer <= storage buffer ->
  wp (nbstat_query_decode buffer sin0 nbstat) s (fun r s' =>
    st_events s' = st_events s
    /\ (fst r <> NBSTAT_EOK -> snd r = nbstat \/ snd r = None)
    /\ (fst r = NBSTAT_EOK ->
        exists obj, snd r = Some obj /\ sin obj = sin0
                    /\ count obj = wire_num_names buffer)).
Proof.
  intros Hfix Hlen. unfold nbstat_query_decode. apply wp_bind.
  eapply wp_mono; [by apply decode_response_wp |].
  intros code s1 (Hcode & He1 & _ & _ & Hok).
  destruct (Z.eqb_spec code NBSTAT_EOK) as [-> | Hne]; cbn [negb].
  2: { apply wp_ret. cbn. split_and!; [done | by left | done]. }
  destruct (Hok eq_refl) as (Hnum & _ & l & tmp & Hl & Hinv).
  apply wp_bind. unfold wp at 1, malloc_nbstat.
  assert (Hfail : forall s2, st_events s2 = st_events s ->
            wp (ret (NBSTAT_ENOMEM, @None nbstat_t)) s2 (fun r s' =>
              st_events s' = st_events s
              /\ (fst r <> NBSTAT_EOK -> snd r = nbstat \/ snd r = None)
              /\ (fst r = NBSTAT_EOK ->
                  exists obj, snd r = Some obj /\ sin obj = sin0
                              /\ count obj = wire_num_names buffer))).
  { intros s2 He2. apply wp_ret. cbn. split_and!; [done | by right | done]. }
  destruct (st_oracle s1) as [| [] o]; cbn [negb];
    [by apply Hfail | | by apply Hfail].
  apply wp_bind, wp_get_rep. cbn [st_rep set_oracle]. apply wp_bind.
  destruct Hinv as (Hnd & _ & _ & Hlist & _).
  unfold wp at 1. cbn [st_heap set_oracle].
  pose proof (count_nodes_wp l (size (st_heap s1)) (rep_node (st_rep s1)) 0
                (set_oracle o s1) Hlist (is_list_size _ _ _ Hlist Hnd))
    as Hcount.
  apply wp_run in Hcount as (r & s' & -> & -> & ->).
  apply wp_ret. cbn [fst snd st_events set_oracle].
  split_and!; [done | intros H; by contradict H |]. intros _.
  eexists. split_and!; [done | done |]. cbn [count].
  pose proof (peek8_range buffer 56). unfold wire_num_names in *. lia.
Qed.

Ltac select_events :=
  let d := fresh "d" in
  let Hd := fresh "Hd" in
  intros d Hd;
  repeat (apply elem_of_cons in Hd as [Hd | Hd];
          [first [discriminate Hd | injection Hd as ->; by right] |]);
  by left.

Ltac event_logged := intros; repeat (first [by left | right]).

(** The query driver: it always returns; a result object is handed out
    exactly when it returns [NBSTAT_EOK]; the only wait it makes is for
    [query_timeout timeout], and it makes it once the request has been
    sent. *)
Lemma nbstat_query_wp env nbstat timeout s :
  wp (nbstat_query env nbstat timeout) s (fun r s' =>
    (fst r <> NBSTAT_EOK -> snd r = nbstat \/ snd r = None)
    /\ (fst r = NBSTAT_EOK -> exists obj, snd r = Some obj)
    /\ (forall d, EvSelect d ∈ st_events s' ->
                  EvSelect d ∈ st_events s \/ d = query_timeout timeout)
    /\ (winsock_init env = 0 -> fst (nbstat_socket env) = 0 ->
        (forall bytes, length bytes = 50%nat -> sendto env bytes = 50) ->
        EvSelect (query_timeout timeout) ∈ st_events s')).
Proof.
  unfold nbstat_query.
  destruct (Z.eqb_spec (winsock_init env) 0) as [Hw | Hw]; cbn [negb].
  2: { apply wp_ret. cbn. split_and!; [by left | done | by left | done]. }
  destruct (nbstat_socket env) as [result sin0]. cbn [fst].
  destruct (Z.eqb_spec result 0) as [Hs | Hs]; cbn [negb].
  2: { apply wp_ret. cbn. split_and!; [by left | done | by left | done]. }
  cbv zeta. rewrite encode_request_ok;
    [| by rewrite storage_buffer_init | reflexivity].
  cbn [b_length b_data].
  set (query := {| query_hdr := _; question := _ |}).
  assert (Hbytes : take (Z.to_nat 50)
                     (request_bytes query ++ drop 50 (b_data (buffer_init 1024)))
                   = request_bytes query).
  { apply take_app_length'. by rewrite length_request_bytes. }
  rewrite Hbytes. apply wp_bind, wp_emit.
  assert (Hsent : (forall bytes, length bytes = 50%nat -> sendto env bytes = 50)
                  -> sendto env (request_bytes query) = 50).
  { intros H. apply H. by apply length_request_bytes. }
  destruct (Z.eqb_spec (sendto env (request_bytes query)) SOCKET_ERROR)
    as [Hse | Hse]; cbn [orb].
  { apply wp_bind, wp_emit, wp_ret. cbn [fst snd st_events log_event].
    split_and!; [by left | done | select_events |].
    intros _ _ H. rewrite (Hsent H) in Hse. done. }
  destruct (Z.eqb_spec (sendto env (request_bytes query)) 50)
    as [Hlen | Hlen]; cbn [negb].
  2: { apply wp_bind, wp_emit, wp_ret. cbn [fst snd st_events log_event].
       split_and!; [by left | done | select_events |].
       intros _ _ H. by rewrite (Hsent H) in Hlen. }
  apply wp_bind, wp_emit.
  destruct (select env (query_timeout timeout) =? SOCKET_ERROR).
  { apply wp_bind, wp_emit, wp_ret. cbn [fst snd st_events log_event].
    split_and!; [by left | done | select_events | event_logged]. }
  destruct (select env (query_timeout timeout) =? 0).
  { apply wp_bind, wp_emit, wp_ret. cbn [fst snd st_events log_event].
    split_and!; [by left | done | select_events | event_logged]. }
  assert (Hinit : 57 <= storage (buffer_init 1024)
                  /\ b_length (buffer_init 1024) <= storage (buffer_init 1024)).
  { rewrite storage_buffer_init by lia. cbn. lia. }
  destruct ((select env (query_timeout timeout) >? 0) && FD_ISSET env).
  - apply wp_bind, wp_emit. apply wp_bind, wp_emit.
    destruct (recvfrom env) as [[dgram from] |].
    + destruct (storage_nbstat_recv (buffer_init 1024) dgram) as [Hst Hl].
      { rewrite storage_buffer_init by lia. cbn. lia. }
      rewrite storage_buffer_init in Hst, Hl by lia.
      eapply wp_mono; [apply nbstat_query_decode_wp; lia |].
      cbn [st_events log_event]. intros [code out] s' (He & Hfail & Hok).
      cbn [fst snd] in *. split_and!; [done | | rewrite He; select_events
                                       | rewrite He; event_logged].
      intros Hc. destruct (Hok Hc) as (obj & ? & _). by exists obj.
    + apply wp_ret. cbn [fst snd st_events log_event].
      split_and!; [by left | done | select_events | event_logged].
  - eapply wp_mono; [apply nbstat_query_decode_wp; lia |].
    cbn [st_events log_event]. intros [code out] s' (He & Hfail & Hok).
    cbn [fst snd] in *. split_and!; [done | | rewrite He; select_events
                                     | rewrite He; event_logged].
    intros Hc. destruct (Hok Hc) as (obj & ? & _). by exists obj.
Qed.

(* ------------------------------------------------------------------ *)
(** ** The claims *)

Lemma wp_result_code {A} (m : M A) s (v : A) :
  wp m s (fun a _ => a = v) -> result_code (m s) = Some v.
Proof. unfold wp, result_code. destruct (m s); [by intros -> | done | done]. Qed.

Lemma decode_response_code buffer s :
  57 <= storage buffer -> b_length buffer <= storage buffer ->
  result_code (nbstat_decode_response buffer s)
  = Some (decode_code buffer (st_oracle s)).
Proof.
  intros Hfix Hlen. apply wp_result_code.
  eapply wp_mono; [by apply decode_response_wp |]. by intros c s' (-> & _).
Qed.

Lemma result_code_Some {A} (r : result A) (v : A) :
  result_code r = Some v -> exists s', r = Ok v s'.
Proof. destruct r; [| done | done]. intros [= ->]. by eexists. Qed.

Lemma wire_num_names_range buffer : 0 <= wire_num_names buffer <= 255.
Proof. pose proof (peek8_range buffer 56). unfold wire_num_names. lia. Qed.

(** C1 (as amended).  Length consistency within the size ceiling: on a
    buffer whose storage holds the 57 fixed bytes and the declared length,
    the decoder always returns a code (no access leaves the storage); for
    an entry count N in 0..26, a buffer of length exactly
    header + rr + 1 + 18*N + 46 whose count byte is N and whose type is
    0x0021 decodes with [NBSTAT_EOK] when the N allocations succeed; a
    buffer whose length is not that of its count byte, in particular one
    whose length is of no entry count, fails with [NBSTAT_EPROTO]. *)
Theorem C1_length_consistency buffer s :
  57 <= storage buffer -> b_length buffer <= storage buffer ->
  (forall N, 0 <= N <= 26 ->
     b_length buffer = response_length N ->
     wire_num_names buffer = N ->
     wire_rr_type buffer = RR_TYPE_NBSTAT ->
     allocs_succeed (Z.to_nat N) (st_oracle s) = true ->
     result_code (nbstat_decode_response buffer s) = Some NBSTAT_EOK)
  /\ (b_length buffer <> response_length (wire_num_names buffer) ->
      result_code (nbstat_decode_response buffer s) = Some NBSTAT_EPROTO)
  /\ ((forall N, 0 <= N <= 255 -> b_length buffer <> response_length N) ->
      result_code (nbstat_decode_response buffer s) = Some NBSTAT_EPROTO)
  /\ (exists code s', nbstat_decode_response buffer s = Ok code s').
Proof.
  intros Hfix Hlen. pose proof (decode_response_code buffer s Hfix Hlen) as Hc.
  assert (Hproto : b_length buffer <> response_length (wire_num_names buffer)
                   -> decode_code buffer (st_oracle s) = NBSTAT_EPROTO).
  { intros Hne. unfold decode_code.
    destruct (b_length buffer >? 576); [done |].
    destruct (negb (wire_rr_type buffer =? RR_TYPE_NBSTAT)); [done |].
    destruct (Z.eqb_spec (response_length (wire_num_names buffer))
                (b_length buffer)); [congruence | done]. }
  split_and!.
  - intros N HN HL Hcount Hty Hall. rewrite Hc. f_equal. unfold decode_code.
    rewrite response_length_eq in HL.
    destruct (Z.gtb_spec (b_length buffer) 576); [lia |].
    rewrite Hty, Z.eqb_refl, Hcount, response_length_eq. cbn [negb].
    replace (57 + 18 * N + 46 =? b_length buffer) with true
      by (symmetry; apply Z.eqb_eq; lia).
    cbn [negb]. by rewrite Hall.
  - intros Hne. by rewrite Hc, Hproto.
  - intros Hnone. rewrite Hc, Hproto; [done |].
    apply Hnone, wire_num_names_range.
  - destruct (result_code_Some _ _ Hc) as [s' Hs']. eauto.
Qed.

(** A two-entry response decodes; this instantiates C1 at N = 2. *)
Lemma C1_length_consistency_witness :
  b_length buffer_two = response_length 2
  /\ result_code (nbstat_decode_response buffer_two (state_init [true; true]))
     = Some NBSTAT_EOK.
Proof.
  split; [reflexivity |].
  refine (proj1 (C1_length_consistency buffer_two (state_init [true; true])
                   _ _) 2 _ _ _ _ _);
    try reflexivity; vm_compute; (congruence || (split; congruence)).
Defined.

(** The fixed part of a response is read before the length is looked
    at: on an empty datagram the decoder reads the type at offsets 46 and
    47 of the zeroed storage, beyond the declared length 0, and then
    rejects the datagram. *)
Lemma empty_datagram_reads :
  b_length buffer_empty = 0
  /\ match nbstat_decode_response buffer_empty (state_init []) with
     | Ok code s' => code = NBSTAT_EPROTO /\ take 2 (st_reads s') = [47; 46]
     | Fault | OutOfFuel => False
     end.
Proof. split; vm_compute; [reflexivity | by split]. Qed.

(** C1 (as stated) fails beyond the size ceiling: a response with 27
    entries has exactly the length header + rr + 1 + 18*27 + 46 = 589, the
    type 0x0021 and 27 successful allocations at hand, and is rejected with
    [NBSTAT_EPROTO]. *)
Lemma C1_counterexample :
  0 <= 27 <= 255
  /\ b_length buffer_27 = response_length 27
  /\ wire_num_names buffer_27 = 27
  /\ wire_rr_type buffer_27 = RR_TYPE_NBSTAT
  /\ allocs_succeed 27 (repeat true 27) = true
  /\ result_code (nbstat_decode_response buffer_27
                    (state_init (repeat true 27)))
     = Some NBSTAT_EPROTO.
Proof. split_and!; (lia || (vm_compute; reflexivity)). Qed.

(** C2.  What the header decode stores for the flags word, on every
    buffer within the size ceiling: [r] is bit 15, [opcode] is bits 11-14
    and [rcode] is bits 0-3 of the wire word, but each of the seven
    NM-flags ([aa], [tc], [rd], [ra], [unused1], [unused2], [b]) is bit 0 of
    the wire word, not its own bit 10 down to 4. *)
Theorem C2_flags_decode buffer s :
  57 <= storage buffer -> b_length buffer <= storage buffer ->
  b_length buffer <= 576 ->
  exists code s',
    nbstat_decode_response buffer s = Ok code s'
    /\ hdr_r (rep_hdr (st_rep s')) = bits (wire_flags buffer) 15 1
    /\ hdr_opcode (rep_hdr (st_rep s')) = bits (wire_flags buffer) 11 4
    /\ hdr_rcode (rep_hdr (st_rep s')) = bits (wire_flags buffer) 0 4
    /\ hdr_aa (rep_hdr (st_rep s')) = bits (wire_flags buffer) 0 1
    /\ hdr_tc (rep_hdr (st_rep s')) = bits (wire_flags buffer) 0 1
    /\ hdr_rd (rep_hdr (st_rep s')) = bits (wire_flags buffer) 0 1
    /\ hdr_ra (rep_hdr (st_rep s')) = bits (wire_flags buffer) 0 1
    /\ hdr_unused1 (rep_hdr (st_rep s')) = bits (wire_flags buffer) 0 1
    /\ hdr_unused2 (rep_hdr (st_rep s')) = bits (wire_flags buffer) 0 1
    /\ hdr_b (rep_hdr (st_rep s')) = bits (wire_flags buffer) 0 1.
Proof.
  intros Hfix Hlen Hceil.
  pose proof (decode_response_wp buffer s Hfix Hlen) as H.
  apply wp_run in H as (code & s' & Hrun & _ & _ & _ & Hhdr & _).
  exists code, s'. rewrite (Hhdr Hceil). by split_and!.
Qed.

(** The failing input of C2: the wire flags word 0x8400 has the
    authoritative-answer bit (bit 10) set, the decoded [aa] is 0. *)
Lemma C2_flags_decode_witness :
  wire_flags buffer_aa = 0x8400
  /\ bits (wire_flags buffer_aa) 10 1 = 1
  /\ exists code s',
       nbstat_decode_response buffer_aa (state_init [true; true])
       = Ok code s'
       /\ hdr_aa (rep_hdr (st_rep s')) = 0.
Proof.
  split; [reflexivity |]. split; [reflexivity |].
  destruct (C2_flags_decode buffer_aa (state_init [true; true]))
    as (code & s' & Hrun & _ & _ & _ & Haa & _);
    [vm_compute; congruence .. |].
  exists code, s'. split; [exact Hrun |]. rewrite Haa. reflexivity.
Defined.

Lemma wire_fields_set_wire_flags buffer hi lo :
  wire_rr_type (set_wire_flags buffer hi lo) = wire_rr_type buffer
  /\ wire_num_names (set_wire_flags buffer hi lo) = wire_num_names buffer
  /\ storage (set_wire_flags buffer hi lo) = storage buffer.
Proof.
  unfold wire_rr_type, wire_num_names, peek16, peek8, peek, storage,
    set_wire_flags. cbn [b_data].
  rewrite !length_insert. split_and!; [| | done].
  - by rewrite !list_lookup_insert_ne by (cbn; lia).
  - by rewrite !list_lookup_insert_ne by (cbn; lia).
Qed.

(** C3 (as amended).  The flags word is not validated on decode: the
    return code of the decoder is the same whatever the two bytes of the
    flags word are, and the response bit and the opcode are stored as bit
    15 and bits 11-14 of the word received. *)
Theorem C3_flags_not_validated buffer hi lo s :
  57 <= storage buffer -> b_length buffer <= storage buffer ->
  result_code (nbstat_decode_response (set_wire_flags buffer hi lo) s)
  = result_code (nbstat_decode_response buffer s)
  /\ (exists code, result_code (nbstat_decode_response buffer s) = Some code)
  /\ (b_length buffer <= 576 ->
      exists code s',
        nbstat_decode_response buffer s = Ok code s'
        /\ hdr_r (rep_hdr (st_rep s')) = bits (wire_flags buffer) 15 1
        /\ hdr_opcode (rep_hdr (st_rep s')) = bits (wire_flags buffer) 11 4).
Proof.
  intros Hfix Hlen.
  destruct (wire_fields_set_wire_flags buffer hi lo) as (Hty & Hn & Hst).
  split_and!.
  - rewrite !decode_response_code; [| done | done | by rewrite Hst
                                    | by rewrite Hst].
    unfold decode_code. cbn [b_length set_wire_flags]. by rewrite Hty, Hn.
  - rewrite decode_response_code by done. by eexists.
  - intros Hceil.
    pose proof (decode_response_wp buffer s Hfix Hlen) as H.
    apply wp_run in H as (code & s' & Hrun & _ & _ & _ & Hhdr & _).
    exists code, s'. by rewrite (Hhdr Hceil).
Qed.

(** Replacing the flags word 0x8000 of a two-entry response by 0x0000
    leaves the return code alone; this instantiates C3. *)
Lemma C3_flags_not_validated_witness :
  result_code (nbstat_decode_response
                 (set_wire_flags buffer_two x00 x00)
                 (state_init [true; true]))
  = result_code (nbstat_decode_response buffer_two (state_init [true; true])).
Proof.
  refine (proj1 (C3_flags_not_validated buffer_two x00 x00
                   (state_init [true; true]) _ _));
    vm_compute; congruence.
Defined.

(** C3 (as stated) fails: a response whose flags word has the response
    bit clear, and is otherwise well formed, is decoded with
    [NBSTAT_EOK]. *)
Lemma C3_counterexample :
  bits (wire_flags buffer_no_response_bit) 15 1 = 0
  /\ result_code (nbstat_decode_response buffer_no_response_bit
                    (state_init [true; true]))
     = Some NBSTAT_EOK.
Proof. split; vm_compute; reflexivity. Qed.

(** C4.  A buffer whose length exceeds 576 is rejected with
    [NBSTAT_EPROTO] and the state is as before: no byte of the buffer has
    been read, no field of [rep] written. *)
Theorem C4_oversize_rejected buffer s :
  b_length buffer > 576 ->
  nbstat_decode_response buffer s = Ok NBSTAT_EPROTO s.
Proof.
  intros Hbig. unfold nbstat_decode_response.
  destruct (Z.gtb_spec (b_length buffer) 576); [done | lia].
Qed.

(** A datagram of 600 bytes; this instantiates C4. *)
Lemma C4_oversize_rejected_witness :
  b_length buffer_600 = 600
  /\ nbstat_decode_response buffer_600 (state_init [true; true])
     = Ok NBSTAT_EPROTO (state_init [true; true]).
Proof.
  split; [reflexivity |].
  apply (C4_oversize_rejected buffer_600 (state_init [true; true])).
  reflexivity.
Defined.

(** C5.  A buffer within the size ceiling whose resource-record type is
    not 0x0021 is rejected with [NBSTAT_EPROTO], whatever its length, its
    entry count and the rest of its contents. *)
Theorem C5_type_discriminator buffer s :
  b_length buffer <= 576 -> 48 <= storage buffer ->
  wire_rr_type buffer <> RR_TYPE_NBSTAT ->
  result_code (nbstat_decode_response buffer s) = Some NBSTAT_EPROTO.
Proof.
  intros Hceil Hst Hty. apply wp_result_code. unfold nbstat_decode_response.
  destruct (Z.gtb_spec (b_length buffer) 576); [lia |]. cbv zeta.
  apply wp_bind, decode_header_wp; [lia |]. intros s1 _ _.
  apply wp_bind, decode_rr_type_mismatch; [lia | done |]. intros s2 _ _.
  by apply wp_ret.
Qed.

(** A response of type 0x0020 with valid framing; this instantiates C5. *)
Lemma C5_type_discriminator_witness :
  wire_rr_type buffer_nb = 0x0020
  /\ b_length buffer_nb = response_length (wire_num_names buffer_nb)
  /\ result_code (nbstat_decode_response buffer_nb (state_init [true; true]))
     = Some NBSTAT_EPROTO.
Proof.
  split; [reflexivity |]. split; [reflexivity |].
  apply (C5_type_discriminator buffer_nb (state_init [true; true]));
    vm_compute; congruence.
Defined.

(** C6.  When an allocation fails in the entry loop, the decoder returns
    [NBSTAT_ENOMEM] and the heap is as it was before the call: every entry
    allocated so far has been released.  The query operation always
    returns, and whenever its code is not [NBSTAT_EOK] the caller's
    pointer is as it was or [NULL]: no result object is handed out. *)
Theorem C6_no_partial_result :
  (forall buffer s,
     57 <= storage buffer -> b_length buffer <= storage buffer ->
     b_length buffer <= 576 ->
     wire_rr_type buffer = RR_TYPE_NBSTAT ->
     b_length buffer = response_length (wire_num_names buffer) ->
     allocs_succeed (Z.to_nat (wire_num_names buffer)) (st_oracle s) = false ->
     exists s', nbstat_decode_response buffer s = Ok NBSTAT_ENOMEM s'
                /\ st_heap s' = st_heap s)
  /\ (forall env nbstat timeout s,
        exists code out s',
          nbstat_query env nbstat timeout s = Ok (code, out) s'
          /\ (code <> NBSTAT_EOK -> out = nbstat \/ out = None)
          /\ (code = NBSTAT_EOK -> exists obj, out = Some obj)).
Proof.
  split.
  - intros buffer s Hfix Hlen Hceil Hty Hcross Hfail.
    pose proof (decode_response_wp buffer s Hfix Hlen) as H.
    apply wp_run in H as (code & s' & Hrun & Hcode & _ & Hheap & _).
    assert (code = NBSTAT_ENOMEM) as ->.
    { rewrite Hcode. unfold decode_code.
      destruct (Z.gtb_spec (b_length buffer) 576); [lia |].
      by rewrite Hty, <- Hcross, !Z.eqb_refl, Hfail. }
    exists s'. split; [done |]. by apply Hheap.
  - intros env nbstat timeout s.
    pose proof (nbstat_query_wp env nbstat timeout s) as H.
    apply wp_run in H as ([code out] & s' & Hrun & Hfail & Hok & _).
    by exists code, out, s'.
Qed.

(** The second allocation of a two-entry response fails: the node of the
    first entry is released.  A query on a working transport whose only
    allocation to succeed is the first ends without a result object.  These
    instantiate C6. *)
Lemma C6_no_partial_result_witness :
  (exists s', nbstat_decode_response buffer_two (state_init [true; false])
              = Ok NBSTAT_ENOMEM s'
              /\ st_heap s' = ∅)
  /\ (exists s',
        nbstat_query transport_ok None 0 (state_init [true])
        = Ok (NBSTAT_ENOMEM, None) s').
Proof.
  split.
  - apply (proj1 C6_no_partial_result buffer_two (state_init [true; false]));
      vm_compute; congruence.
  - destruct (proj2 C6_no_partial_result transport_ok None 0
                (state_init [true])) as (code & out & s' & Hrun & _ & _).
    assert (Hc : result_code (nbstat_query transport_ok None 0
                                (state_init [true]))
                 = Some (NBSTAT_ENOMEM, None)) by (vm_compute; reflexivity).
    rewrite Hrun in Hc. injection Hc as -> ->. by exists s'.
Defined.

(** C7.  On non-null arguments (a buffer with room for 50 bytes, a query
    with its 34-byte name array) the encoder returns [NBSTAT_EOK], sets
    the length to 50 and has written exactly the 50 bytes of the request
    (12 of header, 34 of name, 2 of type, 2 of class) at the start of the
    storage, the rest of which is untouched.  It returns [NBSTAT_EINVAL]
    exactly when a pointer is null, and leaves the buffer alone then. *)
Theorem C7_encode_request buffer query :
  (forall buf q,
     buffer = Some buf -> query = Some q ->
     50 <= storage buf -> length (q_name (question q)) = 34%nat ->
     nbstat_encode_request buffer query
     = Some (NBSTAT_EOK,
             Some {| b_data := request_bytes q ++ drop 50 (b_data buf);
                     b_size := b_size buf; b_length := 50 |})
     /\ length (request_bytes q) = 50%nat)
  /\ (forall r,
        nbstat_encode_request buffer query = Some (NBSTAT_EINVAL, r)
        <-> (buffer = None \/ query = None) /\ r = buffer).
Proof.
  split.
  - intros buf q -> -> Hst Hq. split; [by apply encode_request_ok |].
    by apply length_request_bytes.
  - intros r. split.
    + destruct buffer as [buf |], query as [q |]; cbn;
        try (intros [= <-]; split; [by (left + right) | done]).
      unfold NBSTAT_EOK, NBSTAT_EINVAL.
      repeat (match goal with
              | |- context [mbind _ ?m] => destruct m; cbn
              end); congruence.
    + intros [[-> | ->] ->]; [done |]. by destruct buffer.
Qed.

(** The request of the driver for process id 1234, encoded into a zeroed
    buffer of 1024 bytes; this instantiates C7. *)
Lemma C7_encode_request_witness :
  exists buf',
    nbstat_encode_request (Some (buffer_init 1024)) (Some query_1234)
    = Some (NBSTAT_EOK, Some buf')
    /\ b_length buf' = 50
    /\ take 4 (b_data buf') = [byte_of 0x04; byte_of 0xd2; x00; x00].
Proof.
  destruct (proj1 (C7_encode_request (Some (buffer_init 1024))
                     (Some query_1234))
              (buffer_init 1024) query_1234 eq_refl eq_refl)
    as [Hrun _]; [vm_compute; congruence | reflexivity |].
  eexists. split; [exact Hrun |]. split; reflexivity.
Defined.

(** C8.  The timeout handed to the wait: 0, -1 and 50000 become 3000,
    2000 stays; in general a value in (0, 10000] is kept, any other is
    replaced by 3000, so the result is always in (0, 10000].  The query
    driver waits for no other delay, and does wait for this one once the
    request is sent. *)
Theorem C8_timeout_normalization :
  query_timeout 0 = 3000
  /\ query_timeout (-1) = 3000
  /\ query_timeout 50000 = 3000
  /\ query_timeout 2000 = 2000
  /\ (forall t, 0 < t <= 10000 -> query_timeout t = t)
  /\ (forall t, ~ 0 < t <= 10000 -> query_timeout t = 3000)
  /\ (forall t, 0 < query_timeout t <= 10000)
  /\ (forall env nbstat timeout s,
        exists r s',
          nbstat_query env nbstat timeout s = Ok r s'
          /\ (forall d, EvSelect d ∈ st_events s' ->
                        EvSelect d ∈ st_events s
                        \/ d = query_timeout timeout)
          /\ (winsock_init env = 0 -> fst (nbstat_socket env) = 0 ->
              (forall bytes, length bytes = 50%nat -> sendto env bytes = 50) ->
              EvSelect (query_timeout timeout) ∈ st_events s')).
Proof.
  assert (Hin : forall t, 0 < t <= 10000 -> query_timeout t = t).
  { intros t Ht. unfold query_timeout.
    destruct (Z.gtb_spec t 10000); [lia |].
    destruct (Z.leb_spec t 0); [lia | done]. }
  assert (Hout : forall t, ~ 0 < t <= 10000 -> query_timeout t = 3000).
  { intros t Ht. unfold query_timeout.
    destruct (Z.gtb_spec t 10000); [done |].
    destruct (Z.leb_spec t 0); [done | lia]. }
  split_and!; try reflexivity; try done.
  - intros t. destruct (decide (0 < t <= 10000)) as [Ht | Ht].
    + by rewrite Hin.
    + rewrite Hout by done. lia.
  - intros env nbstat timeout s.
    pose proof (nbstat_query_wp env nbstat timeout s) as H.
    apply wp_run in H as (r & s' & Hrun & _ & _ & Honly & Hwait).
    by exists r, s'.
Qed.

(** A query with timeout 50000 on a working transport waits 3000 ms; one
    with timeout 2000 waits 2000 ms.  These instantiate C8. *)
Lemma C8_timeout_normalization_witness :
  (exists r s',
     nbstat_query transport_ok None 50000 (state_init [true; true; true])
     = Ok r s'
     /\ EvSelect 3000 ∈ st_events s')
  /\ query_timeout 2000 = 2000.
Proof.
  destruct C8_timeout_normalization
    as (_ & _ & _ & _ & Hin & _ & _ & Hquery).
  split; [| apply Hin; lia].
  destruct (Hquery transport_ok None 50000 (state_init [true; true; true]))
    as (r & s' & Hrun & _ & Hwait).
  exists r, s'. split; [exact Hrun |].
  apply Hwait; [reflexivity | reflexivity |].
  intros bytes Hlen. cbn. by rewrite Hlen.
Defined.

Lemma run_unique {A} (m : M A) s a s' (Q : A -> state -> Prop) :
  m s = Ok a s' -> wp m s Q -> Q a s'.
Proof. unfold wp. by intros ->. Qed.

(** C9.  On every buffer whose storage holds the fixed part and the
    declared length, the decoder returns a code other than
    [NBSTAT_EDEBUG]; and whenever the cross-check is passed, the entry
    loop runs to its end and the statistics block is decoded, the cursor
    is at the declared length. *)
Theorem C9_no_debug_error buffer s :
  57 <= storage buffer -> b_length buffer <= storage buffer ->
  (exists code,
     result_code (nbstat_decode_response buffer s) = Some code
     /\ code <> NBSTAT_EDEBUG)
  /\ (forall p0 s1 p1 s2 p2 s3,
        decode_rr buffer 12 s = Ok (Next p0) s1 ->
        build_list buffer (Z.to_nat (num_names (st_rep s1))) p0 None
          (upd_rep (set_node None) s1) = Ok (Next p1) s2 ->
        decode_statistics buffer p1 s2 = Ok p2 s3 ->
        p0 + 18 * num_names (st_rep s1) + 46 = b_length buffer
        /\ p1 = p0 + 18 * num_names (st_rep s1)
        /\ p2 = b_length buffer).
Proof.
  intros Hfix Hlen. split.
  - exists (decode_code buffer (st_oracle s)).
    split; [by apply decode_response_code |]. unfold decode_code.
    repeat (match goal with |- context [if ?b then _ else _] => destruct b end);
      done.
  - intros p0 s1 p1 s2 p2 s3 Hrr Hloop Hstat.
    pose proof (wire_num_names_range buffer) as Hn.
    (* the cross-check *)
    pose proof (decode_rr_wp buffer s
                  (fun fl s' =>
                     st_heap s' = st_heap s
                     /\ (wire_rr_type buffer = RR_TYPE_NBSTAT ->
                         num_names (st_rep s') = wire_num_names buffer)
                     /\ fl = if negb (wire_rr_type buffer =? RR_TYPE_NBSTAT)
                             then Return NBSTAT_EPROTO
                             else if negb (response_length
                                             (wire_num_names buffer)
                                           =? b_length buffer)
                                  then Return NBSTAT_EPROTO
                                  else Next 57) Hfix) as H1.
    apply (run_unique _ _ _ _ _ Hrr) in H1.
    2: { intros s' (? & _) _ _ ?. by split_and!. }
    destruct H1 as (Hheap1 & Hnum1 & Hfl).
    destruct (Z.eqb_spec (wire_rr_type buffer) RR_TYPE_NBSTAT) as [Hty | ?];
      [| done].
    destruct (Z.eqb_spec (response_length (wire_num_names buffer))
                (b_length buffer)) as [Hcross | ?]; [| done].
    cbn [negb] in Hfl. injection Hfl as ->. rewrite (Hnum1 Hty) in *.
    rewrite response_length_eq in Hcross.
    (* the entry loop *)
    pose proof (build_list_wp buffer (st_heap s1)
                  (Z.to_nat (wire_num_names buffer)) 57 None
                  (upd_rep (set_node None) s1) []) as H2.
    apply (run_unique _ _ _ _ _ Hloop) in H2.
    2: { split_and!; cbn [st_heap st_rep upd_rep rep_node set_node];
           try done.
         - apply NoDup_nil_2.
         - intros a Ha. by apply elem_of_nil in Ha. }
    2: lia.
    2: { rewrite Z2Nat.id by lia. lia. }
    destruct H2 as (_ & _ & _ & Hpost).
    destruct (allocs_succeed _ _); [| by destruct Hpost].
    destruct Hpost as (Hp1 & _). injection Hp1 as ->.
    rewrite Z2Nat.id by lia.
    (* the statistics block *)
    pose proof (decode_statistics_wp buffer
                  (57 + 18 * wire_num_names buffer) s2
                  (fun p _ => p = 57 + 18 * wire_num_names buffer + 46)) as H3.
    rewrite Z2Nat.id in Hstat by lia.
    apply (run_unique _ _ _ _ _ Hstat) in H3; [| lia | lia | done].
    cbv beta in H3. split_and!; lia.
Qed.

(** On the two-entry response the cursor is at 57 when the cross-check is
    passed, at 93 after the entries and at 139, the length, after the
    statistics block, and the decoder returns [NBSTAT_EOK]; this
    instantiates C9. *)
Lemma C9_no_debug_error_witness :
  (exists code,
     result_code (nbstat_decode_response buffer_two
                    (state_init [true; true])) = Some code
     /\ code <> NBSTAT_EDEBUG)
  /\ (exists s1 s2 s3,
        decode_rr buffer_two 12 (state_init [true; true]) = Ok (Next 57) s1
        /\ build_list buffer_two (Z.to_nat (num_names (st_rep s1))) 57 None
             (upd_rep (set_node None) s1) = Ok (Next 93) s2
        /\ decode_statistics buffer_two 93 s2 = Ok 139 s3
        /\ 139 = b_length buffer_two).
Proof.
  destruct (C9_no_debug_error buffer_two (state_init [true; true]))
    as [Hcode Hcursor]; [vm_compute; congruence .. |].
  split; [exact Hcode |].
  pose (s1 := match decode_rr buffer_two 12 (state_init [true; true]) with
              | Ok _ s' => s'
              | _ => state_init []
              end).
  pose (s2 := match build_list buffer_two (Z.to_nat (num_names (st_rep s1)))
                      57 None (upd_rep (set_node None) s1) with
              | Ok _ s' => s'
              | _ => state_init []
              end).
  pose (s3 := match decode_statistics buffer_two 93 s2 with
              | Ok _ s' => s'
              | _ => state_init []
              end).
  assert (H1 : decode_rr buffer_two 12 (state_init [true; true])
               = Ok (Next 57) s1) by (vm_compute; reflexivity).
  assert (H2 : build_list buffer_two (Z.to_nat (num_names (st_rep s1)))
                 57 None (upd_rep (set_node None) s1) = Ok (Next 93) s2)
    by (vm_compute; reflexivity).
  assert (H3 : decode_statistics buffer_two 93 s2 = Ok 139 s3)
    by (vm_compute; reflexivity).
  exists s1, s2, s3. split_and!; [exact H1 | exact H2 | exact H3 |].
  exact (proj2 (proj2 (Hcursor 57 s1 93 s2 139 s3 H1 H2 H3))).
Defined.

(** C10.  The error-string table has no entry for [NBSTAT_EPROTO], so
    [nbstat_error] answers the fallback for it; each of the eight other
    codes has its own description. *)
Theorem C10_error_strings :
  (forall str, (NBSTAT_EPROTO, str) ∉ error_list)
  /\ nbstat_error NBSTAT_EPROTO = "Unknown error"%string
  /\ nbstat_error NBSTAT_EOK = "operation completed successfully"%string
  /\ nbstat_error NBSTAT_ENOMEM = "memory allocation failure"%string
  /\ nbstat_error NBSTAT_EINVAL
     = "an invalid argument was passed to a library function"%string
  /\ nbstat_error NBSTAT_EWSAFAIL
     = "could not initialize the sockets layer"%string
  /\ nbstat_error NBSTAT_ESOCKET
     = "the system could not allocate a socket descriptor"%string
  /\ nbstat_error NBSTAT_ETRFLAG
     = "truncation flag was set in response"%string
  /\ nbstat_error NBSTAT_ETIMEOUT = "request expired"%string
  /\ nbstat_error NBSTAT_EDEBUG = "debugging error"%string.
Proof.
  split_and!; try reflexivity.
  intros str Hin. unfold error_list in Hin.
  repeat (apply elem_of_cons in Hin as [Hin | Hin]; [discriminate Hin |]).
  by apply elem_of_nil in Hin.
Qed.

(* ------------------------------------------------------------------ *)
(** ** Further properties: the byte-order codec *)

Lemma byte_val_byte_of (x : Z) : byte_val (byte_of x) = u8 x.
Proof.
  unfold byte_val, byte_of.
  assert (Hr : 0 <= u8 x < 256) by (unfold u8; apply Z.mod_pos_bound; lia).
  destruct (Byte.of_N (Z.to_N (u8 x))) as [c |] eqn:Hc.
  - apply Byte.to_of_N in Hc. rewrite Hc. lia.
  - pose proof (Byte.to_of_N_option_map (Z.to_N (u8 x))) as H.
    rewrite Hc in H. cbn in H.
    destruct (N.leb_spec (Z.to_N (u8 x)) 255); [done | lia].
Qed.

Lemma u8_land_ff (x : Z) : u8 (Z.land x 0xff) = x mod 256.
Proof.
  unfold u8. change 0xff with (Z.ones 8). rewrite Z.land_ones by lia.
  change (2 ^ 8) with 256. apply Z.mod_mod. lia.
Qed.

Lemma shiftr_mod (x k : Z) : 0 <= k -> (Z.shiftr x k) mod 256 = (x / 2 ^ k) mod 256.
Proof. intros Hk. by rewrite Z.shiftr_div_pow2. Qed.

Lemma split16 (x : Z) : 256 * ((x / 256) mod 256) + x mod 256 = x mod 65536.
Proof.
  change 65536 with (256 * 256). rewrite Z.rem_mul_r by lia. lia.
Qed.

Lemma split32 (x : Z) :
  65536 * (256 * ((x / 16777216) mod 256) + (x / 65536) mod 256)
  + (256 * ((x / 256) mod 256) + x mod 256) = x mod 4294967296.
Proof.
  change 4294967296 with (65536 * 65536).
  rewrite (Z.rem_mul_r x 65536 65536) by lia.
  rewrite <- (split16 x), <- (split16 (x / 65536)).
  rewrite Z.div_div by lia. change (65536 * 256) with 16777216. lia.
Qed.

Lemma store_inv d p x d' :
  store d p x = Some d' ->
  0 <= p < Z.of_nat (length d) /\ d' = <[Z.to_nat p := x]> d.
Proof.
  unfold store. destruct (Z.ltb_spec p 0); cbn [orb]; [done |].
  destruct (Z.leb_spec (Z.of_nat (length d)) p); [done |].
  intros [= <-]. split; [lia | done].
Qed.

Lemma dec8be_run buffer p s :
  0 <= p -> p + 1 <= storage buffer ->
  dec8be buffer p s = Ok (peek8 buffer p) (log_read p s).
Proof.
  intros H0 H1.
  pose proof (wp_dec8be buffer p s
                (fun a s' => a = peek8 buffer p /\ s' = log_read p s) H0 H1
                (conj eq_refl eq_refl)) as H.
  apply wp_run in H as (a & s' & -> & -> & ->). done.
Qed.

Lemma dec16be_run buffer p s :
  0 <= p -> p + 2 <= storage buffer ->
  dec16be buffer p s
  = Ok (peek16 buffer p) (log_read (p + 1) (log_read p s)).
Proof.
  intros H0 H1.
  pose proof (wp_dec16be buffer p s
                (fun a s' => a = peek16 buffer p
                             /\ s' = log_read (p + 1) (log_read p s)) H0 H1
                (conj eq_refl eq_refl)) as H.
  apply wp_run in H as (a & s' & -> & -> & ->). done.
Qed.

Lemma dec32be_run buffer p s :
  0 <= p -> p + 4 <= storage buffer ->
  dec32be buffer p s
  = Ok (peek32 buffer p)
      (log_read (p + 3) (log_read (p + 2) (log_read (p + 1) (log_read p s)))).
Proof.
  intros H0 H1.
  pose proof (wp_dec32be buffer p s
                (fun a s' =>
                   a = peek32 buffer p
                   /\ s' = log_read (p + 3) (log_read (p + 2)
                             (log_read (p + 1) (log_read p s)))) H0 H1
                (conj eq_refl eq_refl)) as H.
  apply wp_run in H as (a & s' & -> & -> & ->). done.
Qed.

(** What a successful [enc16be] leaves in the storage. *)
Lemma enc16be_inv d p x d' :
  enc16be d p x = Some d' ->
  0 <= p /\ p + 2 <= Z.of_nat (length d) /\ length d' = length d
  /\ d' !! Z.to_nat p = Some (byte_of (Z.land (Z.shiftr x 8) 0xff))
  /\ d' !! Z.to_nat (p + 1) = Some (byte_of (Z.land x 0xff))
  /\ (forall q, q <> Z.to_nat p -> q <> Z.to_nat (p + 1) -> d' !! q = d !! q).
Proof.
  unfold enc16be. intros H.
  destruct (store d p _) as [d1 |] eqn:H1; [| done]. cbn in H.
  apply store_inv in H1 as [Hp ->]. apply store_inv in H as [Hp1 ->].
  rewrite length_insert in Hp1. rewrite !length_insert.
  split_and!; [lia | lia | done | | |].
  - rewrite list_lookup_insert_ne by lia.
    by rewrite list_lookup_insert_eq by lia.
  - by rewrite list_lookup_insert_eq by (rewrite length_insert; lia).
  - intros q Hq Hq1. by rewrite !list_lookup_insert_ne by done.
Qed.

Lemma peek_lookup buffer p x :
  b_data buffer !! Z.to_nat p = Some x -> peek buffer p = x.
Proof. unfold peek. by intros ->. Qed.

Lemma value16 (x : Z) :
  256 * byte_val (byte_of (Z.land (Z.shiftr x 8) 0xff))
  + byte_val (byte_of (Z.land x 0xff)) = u16 x.
Proof.
  rewrite !byte_val_byte_of, !u8_land_ff, Z.shiftr_div_pow2 by lia.
  change (2 ^ 8) with 256. apply split16.
Qed.

(** X1.  Round trip of the byte-order codec: what [enc8be], [enc16be]
    and [enc32be] have written at an offset, [dec8be], [dec16be] and
    [dec32be] read back at that offset as the value reduced to 8, 16 and
    32 bits; and [enc16be] leaves every other byte of the storage as it
    was. *)
Theorem X1_codec_roundtrip d p x buffer s :
  (enc8be d p x = Some (b_data buffer) ->
   dec8be buffer p s = Ok (u8 x) (log_read p s))
  /\ (enc16be d p x = Some (b_data buffer) ->
      dec16be buffer p s = Ok (u16 x) (log_read (p + 1) (log_read p s))
      /\ forall q, q <> p -> q <> p + 1 -> 0 <= q ->
                   b_data buffer !! Z.to_nat q = d !! Z.to_nat q)
  /\ (enc32be d p x = Some (b_data buffer) ->
      dec32be buffer p s
      = Ok (u32 x)
          (log_read (p + 3)
             (log_read (p + 2) (log_read (p + 1) (log_read p s))))).
Proof.
  split_and!.
  - unfold enc8be. intros [Hp Hd]%store_inv.
    assert (Hlen : storage buffer = Z.of_nat (length d)).
    { unfold storage. by rewrite Hd, length_insert. }
    rewrite dec8be_run by lia. f_equal. unfold peek8.
    erewrite peek_lookup; [apply byte_val_byte_of |].
    rewrite Hd. apply list_lookup_insert_eq. lia.
  - intros (Hp & Hp2 & Hlen & Hhi & Hlo & Hframe)%enc16be_inv. split.
    + rewrite dec16be_run by (unfold storage; lia). f_equal.
      unfold peek16, peek8. rewrite (peek_lookup _ _ _ Hhi),
        (peek_lookup _ _ _ Hlo). apply value16.
    + intros q Hq Hq1 Hq0. apply Hframe; lia.
  - unfold enc32be. intros H.
    destruct (store d p _) as [d1 |] eqn:H1; [| done]. cbn in H.
    destruct (store d1 (p + 1) _) as [d2 |] eqn:H2; [| done]. cbn in H.
    destruct (store d2 (p + 2) _) as [d3 |] eqn:H3; [| done]. cbn in H.
    apply store_inv in H1 as [Hp ->]. apply store_inv in H2 as [Hp1 ->].
    apply store_inv in H3 as [Hp2 ->]. apply store_inv in H as [Hp3 Hd].
    rewrite !length_insert in *.
    assert (Hlen : storage buffer = Z.of_nat (length d)).
    { unfold storage. by rewrite Hd, !length_insert. }
    rewrite dec32be_run by lia. f_equal.
    unfold peek32, peek16, peek8.
    replace (p + 2 + 1) with (p + 3) by lia.
    rewrite (peek_lookup buffer p (byte_of (Z.land (Z.shiftr x 24) 0xff))),
      (peek_lookup buffer (p + 1) (byte_of (Z.land (Z.shiftr x 16) 0xff))),
      (peek_lookup buffer (p + 2) (byte_of (Z.land (Z.shiftr x 8) 0xff))),
      (peek_lookup buffer (p + 3) (byte_of (Z.land x 0xff))).
    + rewrite !byte_val_byte_of, !u8_land_ff, !Z.shiftr_div_pow2 by lia.
      unfold u32. change (2 ^ 32) with 4294967296.
      change (2 ^ 24) with 16777216. change (2 ^ 16) with 65536.
      change (2 ^ 8) with 256. apply split32.
    + rewrite Hd. apply list_lookup_insert_eq. rewrite !length_insert. lia.
    + rewrite Hd. rewrite list_lookup_insert_ne by lia.
      apply list_lookup_insert_eq. rewrite !length_insert. lia.
    + rewrite Hd. rewrite !list_lookup_insert_ne by lia.
      apply list_lookup_insert_eq. rewrite !length_insert. lia.
    + rewrite Hd. rewrite !list_lookup_insert_ne by lia.
      apply list_lookup_insert_eq. lia.
Qed.

(** The round trip at offset 2 of a four-byte storage: the value
    0x11234 is written as its low 16 bits and read back as 0x1234; this
    instantiates X1. *)
Lemma X1_codec_roundtrip_witness :
  dec16be {| b_data := [x00; x00; x12; x34]; b_size := 4; b_length := 4 |}
    2 (state_init [])
  = Ok 0x1234 (log_read 3 (log_read 2 (state_init []))).
Proof.
  refine (proj1 (proj1 (proj2
            (X1_codec_roundtrip [x00; x00; x00; x00] 2 0x11234
               {| b_data := [x00; x00; x12; x34]; b_size := 4;
                  b_length := 4 |} (state_init []))) _)).
  vm_compute. reflexivity.
Defined.

(* ------------------------------------------------------------------ *)
(** ** Further properties: the flags word of a request *)

Lemma flags_step (acc v k w A m : Z) :
  0 <= k -> 0 <= w -> k + w <= 16 -> m = Z.shiftl (Z.ones w) k ->
  acc = A * 2 ^ (k + w) -> 0 <= acc -> acc + 2 ^ (k + w) <= 65536 ->
  u16 (Z.lor acc (Z.land (Z.shiftl v k) m)) = acc + 2 ^ k * (v mod 2 ^ w).
Proof.
  intros Hk Hw Hkw -> HA Hacc Hbound.
  rewrite <- Z.shiftl_land, Z.land_ones, Z.shiftl_mul_pow2 by lia.
  assert (Hv : 0 <= v mod 2 ^ w < 2 ^ w) by (apply Z.mod_pos_bound; lia).
  assert (Hpow : 2 ^ (k + w) = 2 ^ k * 2 ^ w) by (apply Z.pow_add_r; lia).
  assert (Hk2 : 0 < 2 ^ k) by (apply Z.pow_pos_nonneg; lia).
  rewrite HA, lor_add by nia.
  unfold u16. rewrite Z.mod_small; [lia |].
  change (2 ^ 16) with 65536. nia.
Qed.

Lemma flags_last (acc v A : Z) :
  acc = A * 16 -> 0 <= acc -> acc + 16 <= 65536 ->
  u16 (Z.lor acc (Z.land v 0x000f)) = acc + v mod 16.
Proof.
  intros HA Hacc Hbound.
  rewrite <- (Z.shiftl_0_r v) at 1.
  rewrite (flags_step acc v 0 4 A 0x000f); try done; try lia.
  change (2 ^ 0) with 1. change (2 ^ 4) with 16. lia.
Qed.

(** The flags word as a sum of the sub-fields at their places. *)
Lemma encode_flags_sum h :
  encode_flags h
  = 32768 * (hdr_r h mod 2) + 2048 * (hdr_opcode h mod 16)
    + 1024 * (hdr_aa h mod 2) + 512 * (hdr_tc h mod 2)
    + 256 * (hdr_rd h mod 2) + 128 * (hdr_ra h mod 2)
    + 64 * (hdr_unused1 h mod 2) + 32 * (hdr_unused2 h mod 2)
    + 16 * (hdr_b h mod 2) + hdr_rcode h mod 16.
Proof.
  unfold encode_flags. cbv zeta.
  pose proof (Z.mod_pos_bound (hdr_r h) 2 ltac:(lia)).
  pose proof (Z.mod_pos_bound (hdr_opcode h) 16 ltac:(lia)).
  pose proof (Z.mod_pos_bound (hdr_aa h) 2 ltac:(lia)).
  pose proof (Z.mod_pos_bound (hdr_tc h) 2 ltac:(lia)).
  pose proof (Z.mod_pos_bound (hdr_rd h) 2 ltac:(lia)).
  pose proof (Z.mod_pos_bound (hdr_ra h) 2 ltac:(lia)).
  pose proof (Z.mod_pos_bound (hdr_unused1 h) 2 ltac:(lia)).
  pose proof (Z.mod_pos_bound (hdr_unused2 h) 2 ltac:(lia)).
  pose proof (Z.mod_pos_bound (hdr_b h) 2 ltac:(lia)).
  pose proof (Z.mod_pos_bound (hdr_rcode h) 16 ltac:(lia)).
  rewrite (flags_step 0 (hdr_r h) 15 1 0) by (reflexivity || (cbn; lia)).
  rewrite (flags_step _ (hdr_opcode h) 11 4 (hdr_r h mod 2))
    by (reflexivity || (change (2 ^ (11 + 4)) with 32768;
                        change (2 ^ 15) with 32768;
                        change (2 ^ 1) with 2; lia)).
  change (2 ^ 15) with 32768. change (2 ^ 1) with 2.
  change (2 ^ 11) with 2048. change (2 ^ 4) with 16.
  rewrite (flags_step _ (hdr_aa h) 10 1
             (16 * (hdr_r h mod 2) + hdr_opcode h mod 16))
    by (reflexivity || (change (2 ^ (10 + 1)) with 2048; lia)).
  change (2 ^ 10) with 1024. change (2 ^ 1) with 2.
  rewrite (flags_step _ (hdr_tc h) 9 1
             (32 * (hdr_r h mod 2) + 2 * (hdr_opcode h mod 16)
              + hdr_aa h mod 2))
    by (reflexivity || (change (2 ^ (9 + 1)) with 1024; lia)).
  change (2 ^ 9) with 512. change (2 ^ 1) with 2.
  rewrite (flags_step _ (hdr_rd h) 8 1
             (64 * (hdr_r h mod 2) + 4 * (hdr_opcode h mod 16)
              + 2 * (hdr_aa h mod 2) + hdr_tc h mod 2))
    by (reflexivity || (change (2 ^ (8 + 1)) with 512; lia)).
  change (2 ^ 8) with 256. change (2 ^ 1) with 2.
  rewrite (flags_step _ (hdr_ra h) 7 1
             (128 * (hdr_r h mod 2) + 8 * (hdr_opcode h mod 16)
              + 4 * (hdr_aa h mod 2) + 2 * (hdr_tc h mod 2)
              + hdr_rd h mod 2))
    by (reflexivity || (change (2 ^ (7 + 1)) with 256; lia)).
  change (2 ^ 7) with 128. change (2 ^ 1) with 2.
  rewrite (flags_step _ (hdr_unused1 h) 6 1
             (256 * (hdr_r h mod 2) + 16 * (hdr_opcode h mod 16)
              + 8 * (hdr_aa h mod 2) + 4 * (hdr_tc h mod 2)
              + 2 * (hdr_rd h mod 2) + hdr_ra h mod 2))
    by (reflexivity || (change (2 ^ (6 + 1)) with 128; lia)).
  change (2 ^ 6) with 64. change (2 ^ 1) with 2.
  rewrite (flags_step _ (hdr_unused2 h) 5 1
             (512 * (hdr_r h mod 2) + 32 * (hdr_opcode h mod 16)
              + 16 * (hdr_aa h mod 2) + 8 * (hdr_tc h mod 2)
              + 4 * (hdr_rd h mod 2) + 2 * (hdr_ra h mod 2)
              + hdr_unused1 h mod 2))
    by (reflexivity || (change (2 ^ (5 + 1)) with 64; lia)).
  change (2 ^ 5) with 32. change (2 ^ 1) with 2.
  rewrite (flags_step _ (hdr_b h) 4 1
             (1024 * (hdr_r h mod 2) + 64 * (hdr_opcode h mod 16)
              + 32 * (hdr_aa h mod 2) + 16 * (hdr_tc h mod 2)
              + 8 * (hdr_rd h mod 2) + 4 * (hdr_ra h mod 2)
              + 2 * (hdr_unused1 h mod 2) + hdr_unused2 h mod 2))
    by (reflexivity || (change (2 ^ (4 + 1)) with 32; lia)).
  change (2 ^ 4) with 16. change (2 ^ 1) with 2.
  rewrite (flags_last _ (hdr_rcode h)
             (2048 * (hdr_r h mod 2) + 128 * (hdr_opcode h mod 16)
              + 64 * (hdr_aa h mod 2) + 32 * (hdr_tc h mod 2)
              + 16 * (hdr_rd h mod 2) + 8 * (hdr_ra h mod 2)
              + 4 * (hdr_unused1 h mod 2) + 2 * (hdr_unused2 h mod 2)
              + hdr_b h mod 2)) by lia.
  lia.
Qed.

Lemma bits_extract (hi mid lo i w : Z) :
  0 <= i -> 0 <= w -> 0 <= lo < 2 ^ i -> 0 <= mid < 2 ^ w ->
  bits (hi * 2 ^ (i + w) + mid * 2 ^ i + lo) i w = mid.
Proof.
  intros Hi Hw Hlo Hmid. unfold bits.
  rewrite Z.pow_add_r by lia.
  replace (hi * (2 ^ i * 2 ^ w) + mid * 2 ^ i + lo)
    with ((hi * 2 ^ w + mid) * 2 ^ i + lo) by lia.
  rewrite Z.div_add_l by lia. rewrite (Z.div_small lo) by lia.
  rewrite Z.add_0_r, Z.add_comm, Z.mod_add by lia.
  apply Z.mod_small. lia.
Qed.

(** X2.  The flags word the request encoder assembles holds every header
    sub-field at its place of the wire layout, reduced to its width: [r]
    at bit 15, [opcode] at bits 11-14, [aa], [tc], [rd], [ra], [unused1],
    [unused2], [b] at bits 10 down to 4, [rcode] at bits 0-3; a value too
    wide for its field does not spill into the neighbouring fields. *)
Theorem X2_encode_flags_layout h :
  0 <= encode_flags h < 65536
  /\ bits (encode_flags h) 15 1 = hdr_r h mod 2
  /\ bits (encode_flags h) 11 4 = hdr_opcode h mod 16
  /\ bits (encode_flags h) 10 1 = hdr_aa h mod 2
  /\ bits (encode_flags h) 9 1 = hdr_tc h mod 2
  /\ bits (encode_flags h) 8 1 = hdr_rd h mod 2
  /\ bits (encode_flags h) 7 1 = hdr_ra h mod 2
  /\ bits (encode_flags h) 6 1 = hdr_unused1 h mod 2
  /\ bits (encode_flags h) 5 1 = hdr_unused2 h mod 2
  /\ bits (encode_flags h) 4 1 = hdr_b h mod 2
  /\ bits (encode_flags h) 0 4 = hdr_rcode h mod 16.
Proof.
  rewrite encode_flags_sum.
  pose proof (Z.mod_pos_bound (hdr_r h) 2 ltac:(lia)).
  pose proof (Z.mod_pos_bound (hdr_opcode h) 16 ltac:(lia)).
  pose proof (Z.mod_pos_bound (hdr_aa h) 2 ltac:(lia)).
  pose proof (Z.mod_pos_bound (hdr_tc h) 2 ltac:(lia)).
  pose proof (Z.mod_pos_bound (hdr_rd h) 2 ltac:(lia)).
  pose proof (Z.mod_pos_bound (hdr_ra h) 2 ltac:(lia)).
  pose proof (Z.mod_pos_bound (hdr_unused1 h) 2 ltac:(lia)).
  pose proof (Z.mod_pos_bound (hdr_unused2 h) 2 ltac:(lia)).
  pose proof (Z.mod_pos_bound (hdr_b h) 2 ltac:(lia)).
  pose proof (Z.mod_pos_bound (hdr_rcode h) 16 ltac:(lia)).
  set (r := hdr_r h mod 2) in *. set (op := hdr_opcode h mod 16) in *.
  set (aa := hdr_aa h mod 2) in *. set (tc := hdr_tc h mod 2) in *.
  set (rd := hdr_rd h mod 2) in *. set (ra := hdr_ra h mod 2) in *.
  set (u1 := hdr_unused1 h mod 2) in *. set (u2 := hdr_unused2 h mod 2) in *.
  set (b := hdr_b h mod 2) in *. set (rc := hdr_rcode h mod 16) in *.
  set (f := 32768 * r + 2048 * op + 1024 * aa + 512 * tc + 256 * rd
            + 128 * ra + 64 * u1 + 32 * u2 + 16 * b + rc).
  assert (Hx : forall hi mid lo i w,
            0 <= i -> 0 <= w -> 0 <= lo < 2 ^ i -> 0 <= mid < 2 ^ w ->
            f = hi * 2 ^ (i + w) + mid * 2 ^ i + lo -> bits f i w = mid).
  { intros hi mid lo i w ? ? ? ? ->. by apply bits_extract. }
  split; [subst f; lia |]. split_and!.
  - apply (Hx 0 r (f - 32768 * r)); subst f; cbn; lia.
  - apply (Hx r op (f - 32768 * r - 2048 * op)); subst f; cbn; lia.
  - apply (Hx (16 * r + op) aa (512 * tc + 256 * rd + 128 * ra + 64 * u1
                                + 32 * u2 + 16 * b + rc));
      subst f; cbn; lia.
  - apply (Hx (32 * r + 2 * op + aa) tc
             (256 * rd + 128 * ra + 64 * u1 + 32 * u2 + 16 * b + rc));
      subst f; cbn; lia.
  - apply (Hx (64 * r + 4 * op + 2 * aa + tc) rd
             (128 * ra + 64 * u1 + 32 * u2 + 16 * b + rc));
      subst f; cbn; lia.
  - apply (Hx (128 * r + 8 * op + 4 * aa + 2 * tc + rd) ra
             (64 * u1 + 32 * u2 + 16 * b + rc)); subst f; cbn; lia.
  - apply (Hx (256 * r + 16 * op + 8 * aa + 4 * tc + 2 * rd + ra) u1
             (32 * u2 + 16 * b + rc)); subst f; cbn; lia.
  - apply (Hx (512 * r + 32 * op + 16 * aa + 8 * tc + 4 * rd + 2 * ra + u1)
             u2 (16 * b + rc)); subst f; cbn; lia.
  - apply (Hx (1024 * r + 64 * op + 32 * aa + 16 * tc + 8 * rd + 4 * ra
               + 2 * u1 + u2) b rc); subst f; cbn; lia.
  - apply (Hx (2048 * r + 128 * op + 64 * aa + 32 * tc + 16 * rd + 8 * ra
               + 4 * u1 + 2 * u2 + b) rc 0); subst f; cbn; lia.
Qed.

(* ------------------------------------------------------------------ *)
(** ** Further properties: the NetBIOS name encoding *)

Lemma flat_map_pair_lookup {A B} (f g : A -> B) (l : list A) :
  forall (i : nat) (c : A),
    l !! i = Some c ->
    flat_map (fun c => [f c; g c]) l !! (2 * i)%nat = Some (f c)
    /\ flat_map (fun c => [f c; g c]) l !! S (2 * i) = Some (g c).
Proof.
  induction l as [| a l IH]; intros i c Hi; [done |].
  destruct i as [| i].
  - cbn in Hi. injection Hi as ->. done.
  - cbn in Hi. destruct (IH i c Hi) as [H0 H1].
    replace (2 * S i)%nat with (S (S (2 * i))) by lia. done.
Qed.

Lemma flat_map_pair_length {A B} (f g : A -> B) (l : list A) :
  length (flat_map (fun c => [f c; g c]) l) = (2 * length l)%nat.
Proof. induction l as [| a l IH]; cbn; [done |]. rewrite IH. lia. Qed.

Lemma nibble_letter (v : Z) :
  0 <= v < 16 -> byte_val (byte_of (0x41 + v)) = 0x41 + v.
Proof.
  intros Hv. rewrite byte_val_byte_of. unfold u8.
  apply Z.mod_small. change (2 ^ 8) with 256. lia.
Qed.

(** X3.  The first-level encoding of a 16-byte label: 34 bytes are
    produced and 33 is returned; the first byte is the length 0x20 and the
    last is 0; the two bytes that stand for label byte [i] are letters
    'A'..'P' (0x41..0x50), the first for its high and the second for its
    low nibble, so the label byte is recovered from them. *)
Theorem X3_netbios_encode_name src pad :
  (16 <= length src)%nat ->
  length (fst (netbios_encode_name src pad)) = 34%nat
  /\ snd (netbios_encode_name src pad) = 33
  /\ fst (netbios_encode_name src pad) !! 0%nat = Some x20
  /\ fst (netbios_encode_name src pad) !! 33%nat = Some x00
  /\ forall (i : nat) c,
       (i < 16)%nat -> src !! i = Some c ->
       exists hi lo,
         fst (netbios_encode_name src pad) !! (1 + 2 * i)%nat = Some hi
         /\ fst (netbios_encode_name src pad) !! (2 + 2 * i)%nat = Some lo
         /\ 0x41 <= byte_val hi <= 0x50 /\ 0x41 <= byte_val lo <= 0x50
         /\ 16 * (byte_val hi - 0x41) + (byte_val lo - 0x41) = byte_val c.
Proof.
  intros Hsrc. unfold netbios_encode_name. cbn [fst snd].
  pose (f := fun c : byte =>
              byte_of (0x41 + Z.land (Z.shiftr (byte_val c) 4) 0x0f)).
  pose (g := fun c : byte => byte_of (0x41 + Z.land (byte_val c) 0x0f)).
  change (flat_map _ (take 16 src))
    with (flat_map (fun c => [f c; g c]) (take 16 src)).
  assert (Hbody : length (flat_map (fun c => [f c; g c]) (take 16 src))
                  = 32%nat).
  { rewrite flat_map_pair_length, length_take. lia. }
  split_and!.
  - cbn [length]. rewrite length_app, Hbody. reflexivity.
  - rewrite Hbody. reflexivity.
  - reflexivity.
  - rewrite lookup_cons, lookup_app_r by lia.
    rewrite Hbody. reflexivity.
  - intros i c Hi Hc.
    assert (Htake : take 16 src !! i = Some c) by (by rewrite lookup_take_lt).
    destruct (flat_map_pair_lookup f g _ i c Htake) as [Hhi Hlo].
    pose proof (byte_val_range c) as Hr.
    assert (Hhn : Z.land (Z.shiftr (byte_val c) 4) 0x0f = byte_val c / 16).
    { change 0x0f with (Z.ones 4). rewrite Z.land_ones, Z.shiftr_div_pow2 by lia.
      change (2 ^ 4) with 16. apply Z.mod_small.
      split; [apply Z.div_pos; lia | apply Z.div_lt_upper_bound; lia]. }
    assert (Hln : Z.land (byte_val c) 0x0f = byte_val c mod 16).
    { change 0x0f with (Z.ones 4). by rewrite Z.land_ones by lia. }
    assert (Hq : 0 <= byte_val c / 16 < 16).
    { split; [apply Z.div_pos; lia | apply Z.div_lt_upper_bound; lia]. }
    pose proof (Z.mod_pos_bound (byte_val c) 16 ltac:(lia)) as Hm.
    exists (f c), (g c). split_and!.
    + rewrite lookup_cons. cbn [Nat.add]. rewrite lookup_app_l by lia.
      exact Hhi.
    + rewrite lookup_cons. cbn [Nat.add]. rewrite lookup_app_l by lia.
      exact Hlo.
    + unfold f. rewrite Hhn, nibble_letter by lia. lia.
    + unfold f. rewrite Hhn, nibble_letter by lia. lia.
    + unfold g. rewrite Hln, nibble_letter by lia. lia.
    + unfold g. rewrite Hln, nibble_letter by lia. lia.
    + unfold f, g. rewrite Hhn, Hln, !nibble_letter by lia.
      pose proof (Z.div_mod (byte_val c) 16 ltac:(lia)). lia.
Qed.

(** The wildcard label of the driver, an asterisk and fifteen zero
    bytes: its first byte 0x2a is encoded as the letters C and K; this
    instantiates X3. *)
Lemma X3_netbios_encode_name_witness :
  length (fst (netbios_encode_name (x2a :: repeat x00 15) 0x20)) = 34%nat
  /\ exists hi lo,
       fst (netbios_encode_name (x2a :: repeat x00 15) 0x20) !! 1%nat
       = Some hi
       /\ fst (netbios_encode_name (x2a :: repeat x00 15) 0x20) !! 2%nat
          = Some lo
       /\ 16 * (byte_val hi - 0x41) + (byte_val lo - 0x41) = 0x2a.
Proof.
  destruct (X3_netbios_encode_name (x2a :: repeat x00 15) 0x20)
    as (Hlen & _ & _ & _ & Hpair); [vm_compute; lia |].
  split; [exact Hlen |].
  destruct (Hpair 0%nat x2a) as (hi & lo & Hhi & Hlo & _ & _ & Hval);
    [lia | reflexivity |].
  exists hi, lo. split_and!; [exact Hhi | exact Hlo | exact Hval].
Defined.

(* ------------------------------------------------------------------ *)
(** ** Further properties: error strings and the wait *)

(** X4.  [nbstat_error] answers the fallback string exactly for the
    codes that are none of the eight of the table; the code stored in the
    sentinel entry is not looked at, so it gets the fallback too. *)
Theorem X4_nbstat_error_fallback x :
  nbstat_error x = "Unknown error"%string
  <-> x <> NBSTAT_EOK /\ x <> NBSTAT_ENOMEM /\ x <> NBSTAT_EINVAL
      /\ x <> NBSTAT_EWSAFAIL /\ x <> NBSTAT_ESOCKET /\ x <> NBSTAT_ETRFLAG
      /\ x <> NBSTAT_ETIMEOUT /\ x <> NBSTAT_EDEBUG.
Proof.
  unfold nbstat_error, error_list. cbn [nbstat_error_loop].
  destruct (Z.eqb_spec NBSTAT_EOK x) as [<- | ?]; [by split; [| intros (? & _)] |].
  destruct (Z.eqb_spec NBSTAT_ENOMEM x) as [<- | ?];
    [by split; [| intros (_ & ? & _)] |].
  destruct (Z.eqb_spec NBSTAT_EINVAL x) as [<- | ?];
    [by split; [| intros (_ & _ & ? & _)] |].
  destruct (Z.eqb_spec NBSTAT_EWSAFAIL x) as [<- | ?];
    [by split; [| intros (_ & _ & _ & ? & _)] |].
  destruct (Z.eqb_spec NBSTAT_ESOCKET x) as [<- | ?];
    [by split; [| intros (_ & _ & _ & _ & ? & _)] |].
  destruct (Z.eqb_spec NBSTAT_ETRFLAG x) as [<- | ?];
    [by split; [| intros (_ & _ & _ & _ & _ & ? & _)] |].
  destruct (Z.eqb_spec NBSTAT_ETIMEOUT x) as [<- | ?];
    [by split; [| intros (_ & _ & _ & _ & _ & _ & ? & _)] |].
  destruct (Z.eqb_spec NBSTAT_EDEBUG x) as [<- | ?];
    [by split; [| intros (_ & _ & _ & _ & _ & _ & _ & ?)] |].
  split; [| done]. intros _. by split_and!.
Qed.

(** The code of the sentinel entry, 0xffffffff read as an [int]; this
    instantiates X4. *)
Lemma X4_nbstat_error_fallback_witness :
  nbstat_error (-1) = "Unknown error"%string.
Proof.
  apply (proj2 (X4_nbstat_error_fallback (-1))). by split_and!.
Defined.

(** X5.  The time handed to [select]: for every caller-supplied timeout
    the driver waits for a well-formed [timeval] (0 to 10 seconds, 0 to
    999999 microseconds) that stands for exactly the normalized number of
    milliseconds. *)
Theorem X5_wait_timeval timeout :
  let tv := socket_timeout_timeval (query_timeout timeout) in
  0 <= fst tv <= 10 /\ 0 <= snd tv < 1000000
  /\ 1000 * (1000 * fst tv) + snd tv = 1000 * query_timeout timeout.
Proof.
  cbv zeta. unfold socket_timeout_timeval. cbn [fst snd].
  assert (Hq : 0 < query_timeout timeout <= 10000).
  { unfold query_timeout.
    destruct (Z.gtb_spec timeout 10000); cbn [orb]; [lia |].
    destruct (Z.leb_spec timeout 0); lia. }
  rewrite Z.quot_div_nonneg, Z.rem_mod_nonneg by lia.
  pose proof (Z.div_mod (query_timeout timeout) 1000 ltac:(lia)).
  pose proof (Z.mod_pos_bound (query_timeout timeout) 1000 ltac:(lia)).
  assert (0 <= query_timeout timeout / 1000 <= 10).
  { split; [apply Z.div_pos; lia |].
    apply Z.div_le_upper_bound; lia. }
  lia.
Qed.

(* ------------------------------------------------------------------ *)
(** ** Further properties: a request read back by the decoder *)

Lemma peek16_at buffer (p : nat) hi lo :
  b_data buffer !! p = Some hi -> b_data buffer !! S p = Some lo ->
  peek16 buffer (Z.of_nat p) = 256 * byte_val hi + byte_val lo.
Proof.
  intros Hhi Hlo. unfold peek16, peek8, peek.
  replace (Z.to_nat (Z.of_nat p + 1)) with (S p) by lia.
  by rewrite Nat2Z.id, Hhi, Hlo.
Qed.

Lemma header_of_request buffer query tail :
  b_data buffer = request_bytes query ++ tail ->
  peek16 buffer 0 = u16 (name_trn_id (query_hdr query))
  /\ wire_flags buffer = encode_flags (query_hdr query)
  /\ peek16 buffer 4 = u16 (qdcount (query_hdr query))
  /\ peek16 buffer 6 = u16 (ancount (query_hdr query))
  /\ peek16 buffer 8 = u16 (nscount (query_hdr query))
  /\ peek16 buffer 10 = u16 (arcount (query_hdr query)).
Proof.
  intros Hd. unfold wire_flags.
  assert (Hflags : u16 (encode_flags (query_hdr query))
                   = encode_flags (query_hdr query)).
  { unfold u16. apply Z.mod_small.
    rewrite encode_flags_sum.
    pose proof (Z.mod_pos_bound (hdr_r (query_hdr query)) 2 ltac:(lia)).
    pose proof (Z.mod_pos_bound (hdr_opcode (query_hdr query)) 16 ltac:(lia)).
    pose proof (Z.mod_pos_bound (hdr_aa (query_hdr query)) 2 ltac:(lia)).
    pose proof (Z.mod_pos_bound (hdr_tc (query_hdr query)) 2 ltac:(lia)).
    pose proof (Z.mod_pos_bound (hdr_rd (query_hdr query)) 2 ltac:(lia)).
    pose proof (Z.mod_pos_bound (hdr_ra (query_hdr query)) 2 ltac:(lia)).
    pose proof (Z.mod_pos_bound (hdr_unused1 (query_hdr query)) 2 ltac:(lia)).
    pose proof (Z.mod_pos_bound (hdr_unused2 (query_hdr query)) 2 ltac:(lia)).
    pose proof (Z.mod_pos_bound (hdr_b (query_hdr query)) 2 ltac:(lia)).
    pose proof (Z.mod_pos_bound (hdr_rcode (query_hdr query)) 16 ltac:(lia)).
    change (2 ^ 16) with 65536. lia. }
  rewrite <- Hflags.
  change 0 with (Z.of_nat 0). change 2 with (Z.of_nat 2).
  change 4 with (Z.of_nat 4). change 6 with (Z.of_nat 6).
  change 8 with (Z.of_nat 8). change 10 with (Z.of_nat 10).
  split_and!;
    (erewrite peek16_at;
     [apply value16
     | rewrite Hd; unfold request_bytes, be16; reflexivity
     | rewrite Hd; unfold request_bytes, be16; reflexivity]).
Qed.

Lemma encode_flags_ends h :
  bits (encode_flags h) 15 1 = hdr_r h mod 2
  /\ bits (encode_flags h) 11 4 = hdr_opcode h mod 16
  /\ bits (encode_flags h) 0 4 = hdr_rcode h mod 16.
Proof.
  rewrite encode_flags_sum.
  pose proof (Z.mod_pos_bound (hdr_r h) 2 ltac:(lia)).
  pose proof (Z.mod_pos_bound (hdr_opcode h) 16 ltac:(lia)).
  pose proof (Z.mod_pos_bound (hdr_aa h) 2 ltac:(lia)).
  pose proof (Z.mod_pos_bound (hdr_tc h) 2 ltac:(lia)).
  pose proof (Z.mod_pos_bound (hdr_rd h) 2 ltac:(lia)).
  pose proof (Z.mod_pos_bound (hdr_ra h) 2 ltac:(lia)).
  pose proof (Z.mod_pos_bound (hdr_unused1 h) 2 ltac:(lia)).
  pose proof (Z.mod_pos_bound (hdr_unused2 h) 2 ltac:(lia)).
  pose proof (Z.mod_pos_bound (hdr_b h) 2 ltac:(lia)).
  pose proof (Z.mod_pos_bound (hdr_rcode h) 16 ltac:(lia)).
  set (r := hdr_r h mod 2) in *. set (op := hdr_opcode h mod 16) in *.
  set (rc := hdr_rcode h mod 16) in *.
  set (mid := 1024 * (hdr_aa h mod 2) + 512 * (hdr_tc h mod 2)
              + 256 * (hdr_rd h mod 2) + 128 * (hdr_ra h mod 2)
              + 64 * (hdr_unused1 h mod 2) + 32 * (hdr_unused2 h mod 2)
              + 16 * (hdr_b h mod 2)).
  assert (Hmid : 0 <= mid < 2048 /\ exists m, mid = 16 * m).
  { split; [subst mid; lia |].
    exists (64 * (hdr_aa h mod 2) + 32 * (hdr_tc h mod 2)
            + 16 * (hdr_rd h mod 2) + 8 * (hdr_ra h mod 2)
            + 4 * (hdr_unused1 h mod 2) + 2 * (hdr_unused2 h mod 2)
            + hdr_b h mod 2). subst mid. lia. }
  destruct Hmid as (Hmid & m & Hm).
  replace (32768 * r + 2048 * op + 1024 * (hdr_aa h mod 2)
           + 512 * (hdr_tc h mod 2) + 256 * (hdr_rd h mod 2)
           + 128 * (hdr_ra h mod 2) + 64 * (hdr_unused1 h mod 2)
           + 32 * (hdr_unused2 h mod 2) + 16 * (hdr_b h mod 2) + rc)
    with (32768 * r + 2048 * op + mid + rc) by (subst mid; lia).
  split_and!.
  - replace (32768 * r + 2048 * op + mid + rc)
      with (0 * 2 ^ (15 + 1) + r * 2 ^ 15 + (2048 * op + mid + rc))
      by (cbn; lia).
    apply bits_extract; cbn; lia.
  - replace (32768 * r + 2048 * op + mid + rc)
      with (r * 2 ^ (11 + 4) + op * 2 ^ 11 + (mid + rc)) by (cbn; lia).
    apply bits_extract; cbn; lia.
  - replace (32768 * r + 2048 * op + mid + rc)
      with ((2048 * r + 128 * op + m) * 2 ^ (0 + 4) + rc * 2 ^ 0 + 0)
      by (cbn; lia).
    apply bits_extract; cbn; lia.
Qed.

(** X6.  A request that comes back as it was sent is never taken for a
    response: the decoder rejects the 50 encoded bytes with
    [NBSTAT_EPROTO] and allocates nothing.  The header it has decoded by
    then gives back the request's transaction id and four counts (to 16
    bits) and its [r], [opcode] and [rcode] (to their widths). *)
Theorem X6_request_read_back buf query s :
  57 <= storage buf ->
  length (q_name (question query)) = 34%nat ->
  exists buf' s',
    nbstat_encode_request (Some buf) (Some query)
    = Some (NBSTAT_EOK, Some buf')
    /\ b_length buf' = 50
    /\ nbstat_decode_response buf' s = Ok NBSTAT_EPROTO s'
    /\ st_heap s' = st_heap s
    /\ name_trn_id (rep_hdr (st_rep s'))
       = u16 (name_trn_id (query_hdr query))
    /\ qdcount (rep_hdr (st_rep s')) = u16 (qdcount (query_hdr query))
    /\ ancount (rep_hdr (st_rep s')) = u16 (ancount (query_hdr query))
    /\ nscount (rep_hdr (st_rep s')) = u16 (nscount (query_hdr query))
    /\ arcount (rep_hdr (st_rep s')) = u16 (arcount (query_hdr query))
    /\ hdr_r (rep_hdr (st_rep s')) = hdr_r (query_hdr query) mod 2
    /\ hdr_opcode (rep_hdr (st_rep s')) = hdr_opcode (query_hdr query) mod 16
    /\ hdr_rcode (rep_hdr (st_rep s')) = hdr_rcode (query_hdr query) mod 16.
Proof.
  intros Hst Hq.
  set (buf' := {| b_data := request_bytes query ++ drop 50 (b_data buf);
                  b_size := b_size buf; b_length := 50 |}).
  assert (Hst' : storage buf' = storage buf).
  { unfold storage in *. cbn [b_data buf'].
    rewrite length_app, length_drop, length_request_bytes by done. lia. }
  pose proof (decode_response_wp buf' s) as H.
  apply wp_run in H as (code & s' & Hrun & Hcode & _ & Hheap & Hhdr & _);
    [| lia | cbn; lia].
  assert (code = NBSTAT_EPROTO) as ->.
  { rewrite Hcode. unfold decode_code. cbn [b_length buf'].
    destruct (negb (wire_rr_type buf' =? RR_TYPE_NBSTAT)); [done |].
    pose proof (wire_num_names_range buf').
    destruct (Z.eqb_spec (response_length (wire_num_names buf')) 50)
      as [E | _]; [| done].
    rewrite response_length_eq in E. lia. }
  destruct (header_of_request buf' query (drop 50 (b_data buf)) eq_refl)
    as (Hid & Hfl & Hqd & Han & Hns & Har).
  destruct (encode_flags_ends (query_hdr query))
    as (Hr & Hop & Hrc).
  exists buf', s'. rewrite (Hhdr ltac:(cbn; lia)). unfold decoded_hdr.
  cbn [name_trn_id qdcount ancount nscount arcount hdr_r hdr_opcode
       hdr_rcode]. rewrite Hfl.
  split_and!; try done.
  - apply encode_request_ok; [lia | done].
  - by apply Hheap.
Qed.

(** The request of the driver for process id 1234, read back by the
    decoder: the transaction id and the question count come back; this
    instantiates X6. *)
Lemma X6_request_read_back_witness :
  exists buf' s',
    nbstat_encode_request (Some (buffer_init 1024)) (Some query_1234)
    = Some (NBSTAT_EOK, Some buf')
    /\ nbstat_decode_response buf' (state_init []) = Ok NBSTAT_EPROTO s'
    /\ name_trn_id (rep_hdr (st_rep s')) = 1234
    /\ qdcount (rep_hdr (st_rep s')) = 1.
Proof.
  destruct (X6_request_read_back (buffer_init 1024) query_1234 (state_init []))
    as (buf' & s' & Henc & _ & Hdec & _ & Hid & Hqd & _);
    [vm_compute; congruence | reflexivity |].
  exists buf', s'. split_and!; [exact Henc | exact Hdec | exact Hid | exact Hqd].
Defined.

(* ------------------------------------------------------------------ *)
(** ** Further properties: what a successful decode leaves *)

Lemma bitfield_low_mask (x w m : Z) :
  0 <= w -> m = Z.ones w -> bitfield w (Z.land x m) = bits x 0 w.
Proof.
  intros Hw ->. unfold bitfield, bits. rewrite Z.land_ones by lia.
  change (2 ^ 0) with 1. rewrite Z.div_1_r. apply Z.mod_mod. lia.
Qed.

Lemma set_next_set_next p q n : set_next p (set_next q n) = set_next p n.
Proof. by destruct n. Qed.

(** Lines 489-502 once more, with what they leave of the other nodes
    and of [rep]: only [next] fields and [rep->node] are written. *)
Lemma link_node_full_wp {B} h0 l tmp s o (k : unit -> M B)
    (Q : B -> state -> Prop) :
  list_inv h0 l tmp s ->
  let a := fresh (dom (st_heap s)) in
  (forall s',
     set_node None (st_rep s') = set_node None (st_rep s) ->
     st_events s' = st_events s -> st_oracle s' = o ->
     st_reads s' = st_reads s ->
     list_inv h0 (l ++ [a]) (Some a) s' ->
     (forall b, b <> a ->
        set_next None <$> st_heap s' !! b = set_next None <$> st_heap s !! b) ->
     wp (k tt) s' Q) ->
  wp (node_update (Some a) (set_next None) ≫= fun _ =>
      get_rep ≫= fun rep =>
      match rep_node rep with
      | None => modify_rep (set_node (Some a))
      | Some _ => node_update tmp (set_next (Some a))
      end ≫= k)
     (set_oracle o (upd_heap (insert a node_uninit) s)) Q.
Proof.
  intros (Hnd & Hfresh & Hframe & Hl & Htmp) a Hk.
  assert (Ha : st_heap s !! a = None).
  { apply not_elem_of_dom, is_fresh. }
  assert (Hal : a ∉ l).
  { intros Hin. destruct (is_list_live _ _ _ _ Hl Hin) as [? ?]. congruence. }
  assert (Hnd' : NoDup (l ++ [a])).
  { apply NoDup_app. split_and!; [done | | apply NoDup_singleton].
    intros b Hb ->%list_elem_of_singleton. done. }
  assert (Hfresh' : forall b, b ∈ l ++ [a] -> h0 !! b = None).
  { intros b [Hb | ->%list_elem_of_singleton]%elem_of_app; [by apply Hfresh |].
    by rewrite <- Hframe. }
  apply wp_bind. eapply wp_node_update; [apply lookup_insert_eq |].
  apply wp_bind, wp_get_rep. cbn [st_rep upd_heap set_oracle].
  destruct (rep_node (st_rep s)) as [b |] eqn:Hnode.
  - pose proof (is_list_nonnull _ _ _ Hl) as Hne. specialize (Htmp Hne).
    destruct (last l) as [t |] eqn:Hlast; [| by apply last_None in Hlast].
    apply last_Some in Hlast as [l0 ->]. subst tmp.
    assert (Ht : t ∈ l0 ++ [t]) by (apply elem_of_app; right; left).
    destruct (is_list_live _ _ _ _ Hl Ht) as [nt Hnt].
    assert (Hta : t <> a) by (intros ->; done).
    apply wp_bind. eapply wp_node_update.
    { cbn [st_heap upd_heap set_oracle]. rewrite !lookup_insert_ne by done.
      exact Hnt. }
    apply Hk;
      cbn [st_rep st_heap st_events st_oracle st_reads upd_heap set_oracle];
      try done.
    + split_and!; try done.
      * intros c Hc. cbn [st_heap upd_heap set_oracle].
        rewrite !lookup_insert_ne; [apply Hframe | ..].
        -- intros Hc'. apply Hc, elem_of_app. by left.
        -- intros ->. apply Hc, elem_of_app. right. left.
        -- intros ->. apply Hc, elem_of_app. right. left.
        -- intros ->. apply Hc, elem_of_app. by left.
      * cbn [st_heap st_rep upd_heap set_oracle]. rewrite Hnode.
        eapply is_list_snoc; [exact Hl | | |].
        -- intros c Hc. rewrite !lookup_insert_ne; [done | ..].
           ++ intros ->. apply Hal, elem_of_app. by left.
           ++ intros ->. apply Hal, elem_of_app. by left.
           ++ intros ->. apply NoDup_app in Hnd as (_ & Hd & _).
              apply (Hd _ Hc). left.
        -- by rewrite lookup_insert_eq.
        -- rewrite lookup_insert_ne by done. by rewrite !lookup_insert_eq.
      * intros _. by rewrite last_snoc.
    + intros c Hc. destruct (decide (c = t)) as [-> | Hct].
      * rewrite lookup_insert_eq, Hnt. cbn. by rewrite set_next_set_next.
      * by rewrite !lookup_insert_ne by done.
  - apply is_list_null in Hl as ->.
    apply wp_bind, wp_modify_rep.
    apply Hk; cbn [st_rep st_heap st_events st_oracle st_reads upd_heap
                   upd_rep set_oracle app]; try done.
    + split_and!; try done.
      * intros c Hc. cbn [st_heap upd_heap upd_rep set_oracle].
        rewrite !lookup_insert_ne; [apply Hframe; apply not_elem_of_nil | ..];
          intros ->; apply Hc; left.
      * cbn. split; [done |]. eexists. rewrite lookup_insert_eq. done.
    + intros c Hc. by rewrite !lookup_insert_ne by done.
Qed.

(** The entry loop when every allocation succeeds: the nodes appended
    hold the entries of the wire from the cursor on, in order; nothing of
    [rep] but [node] is written, no buffer byte is read twice or skipped
    from what the counters show. *)
Lemma build_list_full_wp buffer h0 todo : forall ptr tmp s l,
  list_inv h0 l tmp s -> entries_at buffer (st_heap s) l ->
  ptr = 57 + 18 * Z.of_nat (length l) ->
  ptr + 18 * Z.of_nat todo <= storage buffer ->
  allocs_succeed todo (st_oracle s) = true ->
  wp (build_list buffer todo ptr tmp) s (fun fl s' =>
    fl = Next (ptr + 18 * Z.of_nat todo)
    /\ set_node None (st_rep s') = set_node None (st_rep s)
    /\ st_events s' = st_events s
    /\ st_oracle s' = drop todo (st_oracle s)
    /\ exists l' tmp',
         length l' = todo /\ list_inv h0 (l ++ l') tmp' s'
         /\ entries_at buffer (st_heap s') (l ++ l')).
Proof.
  induction todo as [| todo IH]; intros ptr tmp s l Hinv Hent Hptr Hlen Hall.
  - apply wp_ret. split_and!; try done; [f_equal; lia |].
    exists [], tmp. by rewrite app_nil_r.
  - cbn [build_list]. cbn [allocs_succeed] in Hall. apply wp_bind.
    unfold wp at 1, malloc_node.
    destruct (st_oracle s) as [| [] o] eqn:Ho; [done | | done].
    set (a := fresh (dom (st_heap s))).
    apply (link_node_full_wp h0 l tmp s o _ _ Hinv). fold a.
    intros s3 Hrep3 He3 Ho3 _ Hinv3 Hframe3.
    apply wp_bind, wp_load_bytes; [lia | lia |].
    intros s4 (Hheap4 & Ho4 & He4) Hrep4. wp_read. wp_read.
    assert (Hin : a ∈ l ++ [a]) by (apply elem_of_app; right; left).
    pose proof Hinv3 as (Hnd3 & Hfresh3 & Hfr3 & Hl3 & Htmp3).
    destruct (is_list_live _ _ _ _ Hl3 Hin) as [na Hna].
    apply wp_bind. eapply wp_node_update.
    { cbn [st_heap log_read]. rewrite Hheap4. exact Hna. }
    assert (Hal : a ∉ l).
    { apply NoDup_app in Hnd3 as (_ & Hd & _). intros Hal.
      apply (Hd _ Hal). left. }
    eapply wp_mono.
    + apply (IH _ _ _ (l ++ [a])).
      * eapply list_inv_update with (n := na); cbn [st_heap log_read];
          [| done | by rewrite Hheap4 | done].
        eapply list_inv_same; [exact Hinv3 | done |].
        cbn [st_rep log_read]. by rewrite Hrep4.
      * (* the entries, old and new *)
        intros i b Hb. cbn [st_heap upd_heap log_read]. rewrite Hheap4.
        apply lookup_app_Some in Hb as [Hb | [Hge Hb]].
        -- assert (b <> a) by (intros ->; apply Hal;
                               by eapply list_elem_of_lookup_2).
           rewrite lookup_insert_ne by done.
           rewrite Hframe3 by done. by apply Hent.
        -- destruct (i - length l)%nat as [| j] eqn:Hj; [| done].
           cbn in Hb. injection Hb as <-. rewrite lookup_insert_eq. cbn.
           f_equal. unfold wire_entry. replace (Z.of_nat i)
             with (Z.of_nat (length l)) by lia. rewrite <- Hptr.
           replace (ptr + 15 + 1) with (ptr + 16) by lia.
           rewrite !bitfield_shift_mask by (reflexivity || lia).
           rewrite bitfield_low_mask by (reflexivity || lia).
           reflexivity.
      * rewrite length_app. cbn [length]. lia.
      * lia.
      * cbn [st_oracle upd_heap log_read]. by rewrite Ho4, Ho3.
    + cbn [st_rep st_oracle st_events upd_heap log_read].
      intros fl s' (-> & Hrep & He & Hor & l' & tmp' & Hlen' & Hinv' & Hent').
      rewrite Ho4, Ho3 in Hor. rewrite Hrep4 in Hrep.
      split_and!; [f_equal; lia | congruence | congruence | done |].
      exists (a :: l'), tmp'. split; [by cbn; rewrite Hlen' |].
      by rewrite <- app_assoc in Hinv', Hent'.
Qed.

Lemma decode_rr_full_wp buffer s (Q : flow -> state -> Prop) :
  57 <= storage buffer ->
  wire_rr_type buffer = RR_TYPE_NBSTAT ->
  response_length (wire_num_names buffer) = b_length buffer ->
  (forall s',
     same_memory s s' ->
     st_rep s'
     = set_num_names (wire_num_names buffer)
         (set_rr {| rr_name := rr_name (rep_rr (st_rep s));
                    rr_type := wire_rr_type buffer;
                    rr_class := peek16 buffer 48;
                    ttl := peek32 buffer 50;
                    rdlength := peek16 buffer 54 |} (st_rep s)) ->
     Q (Next 57) s') ->
  wp (decode_rr buffer 12) s Q.
Proof.
  intros Hlen Hty Hcross HQ. unfold decode_rr. cbv zeta.
  wp_read. wp_store.
  change (peek16 buffer (12 + 34)) with (wire_rr_type buffer).
  rewrite Hty, Z.eqb_refl. cbn [negb].
  wp_read. wp_store. wp_read. wp_store. wp_read. wp_store.
  wp_read. wp_store. apply wp_bind, wp_get_rep.
  cbn [st_rep upd_rep log_read num_names set_num_names].
  change (12 + 34 + 2 + 2 + 4 + 2) with 56.
  change (peek8 buffer 56) with (wire_num_names buffer).
  replace (56 + 1 - 0 + (18 * wire_num_names buffer + 46))
    with (response_length (wire_num_names buffer))
    by (rewrite response_length_eq; lia).
  rewrite Hcross, Z.eqb_refl. cbn [negb].
  apply wp_ret, HQ; [by repeat split |].
  cbn [st_rep upd_rep log_read]. rewrite Hty.
  by destruct (st_rep s) as [? [] ? ? ?].
Qed.

Lemma decode_statistics_full_wp buffer ptr s (Q : Z -> state -> Prop) :
  0 <= ptr -> ptr + 46 <= storage buffer ->
  (forall s',
     same_memory s s' ->
     st_rep s' = set_stat (wire_statistics buffer ptr) (st_rep s) ->
     Q (ptr + 46) s') ->
  wp (decode_statistics buffer ptr) s Q.
Proof.
  intros H0 Hlen HQ. unfold decode_statistics.
  apply wp_bind, wp_load_bytes; [lia | lia |]. intros s1 Hmem1 Hrep1.
  cbv beta zeta. do 19 wp_read. wp_store. apply wp_ret.
  replace (ptr + 6 + 1 + 1 + 2 + 2 + 2 + 2 + 2 + 2 + 4 + 4 + 2 + 2 + 2 + 2
           + 2 + 2 + 2 + 2 + 2) with (ptr + 46) by lia.
  destruct Hmem1 as (? & ? & ?).
  apply HQ; cbn [st_rep upd_rep log_read]; [by repeat split |].
  rewrite Hrep1. unfold set_stat, wire_statistics. f_equal.
  rewrite map_map.
  f_equal; try (f_equal; lia).
  apply map_ext. intros i. apply u8_byte_val.
Qed.

Lemma decode_code_ok buffer o :
  decode_code buffer o = NBSTAT_EOK ->
  b_length buffer <= 576
  /\ wire_rr_type buffer = RR_TYPE_NBSTAT
  /\ response_length (wire_num_names buffer) = b_length buffer
  /\ allocs_succeed (Z.to_nat (wire_num_names buffer)) o = true.
Proof.
  unfold decode_code.
  destruct (Z.gtb_spec (b_length buffer) 576); [done |].
  destruct (Z.eqb_spec (wire_rr_type buffer) RR_TYPE_NBSTAT); [| done].
  destruct (Z.eqb_spec (response_length (wire_num_names buffer))
              (b_length buffer)); [| done].
  cbn [negb]. destruct (allocs_succeed _ _); [| done].
  intros _. split_and!; (done || lia).
Qed.

(** A successful decode, in full: the response object is the wire's,
    the list hanging off it holds the entries of the wire in order, made
    of blocks that were not live before, and nothing else of the heap
    has changed. *)
Lemma decode_response_full_wp buffer s :
  57 <= storage buffer -> b_length buffer <= storage buffer ->
  decode_code buffer (st_oracle s) = NBSTAT_EOK ->
  wp (nbstat_decode_response buffer) s (fun code s' =>
    code = NBSTAT_EOK
    /\ st_events s' = st_events s
    /\ st_oracle s' = drop (Z.to_nat (wire_num_names buffer)) (st_oracle s)
    /\ set_node None (st_rep s') = wire_response buffer (st_rep s)
    /\ exists l tmp,
         length l = Z.to_nat (wire_num_names buffer)
         /\ list_inv (st_heap s) l tmp s'
         /\ entries_at buffer (st_heap s') l).
Proof.
  intros Hfix Hlen (Hceil & Hty & Hcross & Hall)%decode_code_ok.
  unfold nbstat_decode_response.
  destruct (Z.gtb_spec (b_length buffer) 576); [lia |].
  cbv zeta. apply wp_bind, decode_header_wp; [lia |].
  intros s1 (Hh1 & Ho1 & He1) Hrep1.
  apply wp_bind, decode_rr_full_wp; [lia | done | done |].
  intros s2 (Hh2 & Ho2 & He2) Hrep2.
  pose proof (wire_num_names_range buffer) as Hn.
  pose proof Hcross as Hcross'. rewrite response_length_eq in Hcross'.
  apply wp_bind, wp_modify_rep. apply wp_bind, wp_get_rep.
  cbn [st_rep upd_rep]. rewrite Hrep2 at 1.
  cbn [num_names set_node set_num_names].
  apply wp_bind. eapply wp_mono.
  - apply (build_list_full_wp buffer (st_heap s) _ 57 None _ []).
    + split_and!; cbn [st_heap st_rep upd_rep rep_node set_node]; try done.
      * apply NoDup_nil_2.
      * intros a Ha. by apply elem_of_nil in Ha.
      * intros a _. by rewrite Hh2, Hh1.
    + intros i a Hi. done.
    + cbn [length]. lia.
    + rewrite Z2Nat.id by lia. lia.
    + cbn [st_oracle upd_rep]. by rewrite Ho2, Ho1.
  - cbn [st_rep st_oracle st_events st_heap upd_rep app].
    intros fl s3 (-> & Hrep3 & He3 & Ho3 & l & tmp & Hl & Hinv & Hent).
    rewrite Z2Nat.id by lia.
    apply wp_bind, decode_statistics_full_wp; [lia | lia |].
    intros s4 (Hh4 & Ho4 & He4) Hrep4. apply wp_ret.
    replace (57 + 18 * wire_num_names buffer + 46 - 0 =? b_length buffer)
      with true by (symmetry; apply Z.eqb_eq; lia).
    cbn [negb]. split_and!; [done | congruence | congruence | |].
    + rewrite Hrep4.
      transitivity (set_stat
                      (wire_statistics buffer
                         (57 + 18 * wire_num_names buffer))
                      (set_node None (st_rep s3))); [done |].
      rewrite Hrep3. rewrite Hrep2, Hrep1. reflexivity.
    + exists l, tmp. split; [done |]. split.
      * eapply list_inv_same; [exact Hinv | done |]. by rewrite Hrep4.
      * by rewrite Hh4.
Qed.

Lemma list_entries_map (e : nat -> nbstat_node_name) h l : forall fuel p,
  is_list h p l -> (length l <= fuel)%nat ->
  (forall (i : nat) a, l !! i = Some a -> set_next None <$> h !! a = Some (e i)) ->
  list_entries fuel h p = map e (seq 0 (length l)).
Proof.
  revert e. induction l as [| a l IH]; intros e fuel p Hl Hfuel He.
  - cbn in Hl. subst p. by destruct fuel.
  - destruct Hl as (-> & n & Hn & Hl).
    destruct fuel as [| fuel]; [cbn in Hfuel; lia |].
    cbn [list_entries length seq map]. rewrite Hn.
    pose proof (He 0%nat a eq_refl) as H0. rewrite Hn in H0.
    injection H0 as H0. rewrite H0. f_equal.
    rewrite <- seq_shift, map_map.
    apply (IH (fun i => e (S i))); [done | cbn in Hfuel; lia |].
    intros i b Hb. by apply (He (S i)).
Qed.

Lemma list_inv_dom h0 l tmp s :
  list_inv h0 l tmp s ->
  dom (st_heap s) = dom h0 ∪ list_to_set l /\ dom h0 ## list_to_set (C := gset addr) l.
Proof.
  intros (Hnd & Hfresh & Hframe & Hl & _). split.
  - apply set_eq. intros a. rewrite elem_of_union, elem_of_list_to_set,
      !elem_of_dom.
    destruct (decide (a ∈ l)) as [Ha | Ha].
    + split; [by right |]. intros _. by eapply is_list_live.
    + rewrite Hframe by done. split; [by left | by intros [? | ?]].
  - intros a Ha Hal. apply elem_of_list_to_set in Hal.
    apply elem_of_dom in Ha as [? Ha]. rewrite Hfresh in Ha; done.
Qed.

Lemma list_inv_size h0 l tmp s :
  list_inv h0 l tmp s -> size (st_heap s) = (size h0 + length l)%nat.
Proof.
  intros Hinv. destruct (list_inv_dom _ _ _ _ Hinv) as [Hdom Hdisj].
  pose proof Hinv as (Hnd & _).
  rewrite <- !size_dom, Hdom, size_union by done.
  by rewrite size_list_to_set.
Qed.

Lemma list_inv_old h0 l tmp s a n :
  list_inv h0 l tmp s -> h0 !! a = Some n -> st_heap s !! a = Some n.
Proof.
  intros (_ & Hfresh & Hframe & _) Hn. rewrite Hframe; [done |].
  intros Ha. rewrite Hfresh in Hn; done.
Qed.

Lemma decode_code_EOK buffer o :
  b_length buffer <= 576 ->
  wire_rr_type buffer = RR_TYPE_NBSTAT ->
  b_length buffer = response_length (wire_num_names buffer) ->
  allocs_succeed (Z.to_nat (wire_num_names buffer)) o = true ->
  decode_code buffer o = NBSTAT_EOK.
Proof.
  intros Hceil Hty Hcross Hall. unfold decode_code.
  destruct (Z.gtb_spec (b_length buffer) 576); [lia |].
  by rewrite Hty, <- Hcross, !Z.eqb_refl, Hall.
Qed.

(** X7.  Entry order preservation.  When a well-framed response is
    decoded and the allocations succeed, walking the list from
    [rep->node] meets exactly the entries of the wire, in the order of
    the wire, each with its 15 name bytes, its suffix and its flag
    sub-fields ([g] bit 15, [ont] bits 13-14, [drg], [cnf], [act], [prm]
    bits 12 down to 9, [reserved] bits 0-8, stored as received).  The
    list is made of as many new blocks as there are entries; the blocks
    that were live before are left as they were. *)
Theorem X7_entries_in_wire_order buffer s :
  57 <= storage buffer -> b_length buffer <= storage buffer ->
  b_length buffer <= 576 ->
  wire_rr_type buffer = RR_TYPE_NBSTAT ->
  b_length buffer = response_length (wire_num_names buffer) ->
  allocs_succeed (Z.to_nat (wire_num_names buffer)) (st_oracle s) = true ->
  exists s',
    nbstat_decode_response buffer s = Ok NBSTAT_EOK s'
    /\ list_entries (size (st_heap s')) (st_heap s') (rep_node (st_rep s'))
       = wire_entries buffer (Z.to_nat (wire_num_names buffer))
    /\ size (st_heap s')
       = (size (st_heap s) + Z.to_nat (wire_num_names buffer))%nat
    /\ (forall a n, st_heap s !! a = Some n -> st_heap s' !! a = Some n).
Proof.
  intros Hfix Hlen Hceil Hty Hcross Hall.
  pose proof (decode_response_full_wp buffer s Hfix Hlen
                (decode_code_EOK _ _ Hceil Hty Hcross Hall)) as H.
  apply wp_run in H as (code & s' & Hrun & -> & _ & _ & _ & l & tmp & Hl
                        & Hinv & Hent).
  exists s'. split; [done |].
  pose proof Hinv as (Hnd & _ & _ & Hlist & _).
  split_and!.
  - unfold wire_entries. rewrite <- Hl.
    apply list_entries_map; [done | by eapply is_list_size | done].
  - rewrite <- Hl. by eapply list_inv_size.
  - intros a n Hn. by eapply list_inv_old.
Qed.

(** X8.  The fixed fields of a successful decode: the entry count, the
    class, TTL and RDLENGTH of the resource record and every field of the
    statistics block are those of the wire at their offsets (the
    statistics block right behind the last entry, its first six bytes the
    unit id), and exactly one allocation per entry has been made. *)
Theorem X8_fixed_fields_from_wire buffer s :
  57 <= storage buffer -> b_length buffer <= storage buffer ->
  b_length buffer <= 576 ->
  wire_rr_type buffer = RR_TYPE_NBSTAT ->
  b_length buffer = response_length (wire_num_names buffer) ->
  allocs_succeed (Z.to_nat (wire_num_names buffer)) (st_oracle s) = true ->
  exists s',
    nbstat_decode_response buffer s = Ok NBSTAT_EOK s'
    /\ num_names (st_rep s') = wire_num_names buffer
    /\ rr_type (rep_rr (st_rep s')) = RR_TYPE_NBSTAT
    /\ rr_class (rep_rr (st_rep s')) = peek16 buffer 48
    /\ ttl (rep_rr (st_rep s')) = peek32 buffer 50
    /\ rdlength (rep_rr (st_rep s')) = peek16 buffer 54
    /\ rep_stat (st_rep s')
       = wire_statistics buffer (57 + 18 * wire_num_names buffer)
    /\ unit_id (rep_stat (st_rep s'))
       = map (fun i => peek8 buffer
                         (57 + 18 * wire_num_names buffer + Z.of_nat i))
           (seq 0 6)
    /\ st_oracle s'
       = drop (Z.to_nat (wire_num_names buffer)) (st_oracle s).
Proof.
  intros Hfix Hlen Hceil Hty Hcross Hall.
  pose proof (decode_response_full_wp buffer s Hfix Hlen
                (decode_code_EOK _ _ Hceil Hty Hcross Hall)) as H.
  apply wp_run in H as (code & s' & Hrun & -> & _ & Hor & Hrep & _).
  exists s'. split; [done |].
  assert (Hf : forall {A} (f : nbstat_response -> A),
            (forall r, f (set_node None r) = f r) ->
            f (st_rep s') = f (wire_response buffer (st_rep s))).
  { intros A f Hfn. by rewrite <- Hrep, Hfn. }
  split_and!.
  - by apply (Hf _ num_names).
  - rewrite (Hf _ (fun r => rr_type (rep_rr r))) by done. exact Hty.
  - by apply (Hf _ (fun r => rr_class (rep_rr r))).
  - by apply (Hf _ (fun r => ttl (rep_rr r))).
  - by apply (Hf _ (fun r => rdlength (rep_rr r))).
  - by apply (Hf _ rep_stat).
  - by rewrite (Hf _ (fun r => unit_id (rep_stat r))).
  - done.
Qed.

(** The two entries of the sample response are decoded in their order,
    WORKSTATION with suffix 0x00 first, FILESERVER with suffix 0x20
    second, both unique and active; this instantiates X7. *)
Lemma X7_entries_in_wire_order_witness :
  exists s',
    nbstat_decode_response buffer_names (state_init [true; true])
    = Ok NBSTAT_EOK s'
    /\ map (fun n => (nbf_name n, suffix n, node_g n, node_act n))
         (list_entries (size (st_heap s')) (st_heap s')
            (rep_node (st_rep s')))
       = [(list_byte_of_string "WORKSTATION    ", 0x00, 0, 1);
          (list_byte_of_string "FILESERVER     ", 0x20, 0, 1)].
Proof.
  destruct (X7_entries_in_wire_order buffer_names (state_init [true; true]))
    as (s' & Hrun & Hent & _);
    [vm_compute; congruence .. | try reflexivity | try reflexivity
     | try reflexivity |].
  exists s'. split; [exact Hrun |]. rewrite Hent. vm_compute. reflexivity.
Defined.

(** The unit id of the sample response is read from its offset 93; this
    instantiates X8. *)
Lemma X8_fixed_fields_from_wire_witness :
  exists s',
    nbstat_decode_response buffer_names (state_init [true; true])
    = Ok NBSTAT_EOK s'
    /\ unit_id (rep_stat (st_rep s')) = [0xaa; 0xbb; 0xcc; 0xdd; 0xee; 0xff]
    /\ rdlength (rep_rr (st_rep s')) = 0x53.
Proof.
  destruct (X8_fixed_fields_from_wire buffer_names (state_init [true; true]))
    as (s' & Hrun & _ & _ & _ & _ & Hrd & _ & Huid & _);
    [vm_compute; congruence .. | try reflexivity | try reflexivity
     | try reflexivity |].
  exists s'. split; [exact Hrun |]. rewrite Huid, Hrd.
  split; vm_compute; reflexivity.
Defined.

(* ------------------------------------------------------------------ *)
(** ** Further properties: the query, its result and its release *)

Ltac sample_transport :=
  unfold transport_delivers; split_and!;
  [reflexivity | reflexivity
   | let bytes := fresh "bytes" in
     let Hb := fresh "Hb" in
     intros bytes Hb; cbn [sendto transport_names]; rewrite Hb; reflexivity
   | reflexivity | reflexivity | reflexivity].

Ltac sample_framing :=
  unfold well_framed; split_and!; vm_compute; congruence.

Lemma received_storage dgram :
  57 <= storage (received dgram)
  /\ b_length (received dgram) <= storage (received dgram).
Proof.
  destruct (storage_nbstat_recv (buffer_init 1024) dgram) as [Hst Hl].
  { rewrite storage_buffer_init by lia. cbn. lia. }
  rewrite storage_buffer_init in Hst, Hl by lia. unfold received. lia.
Qed.

(** The two ways the driver ends: before the decode, with a code other
    than [NBSTAT_EOK], the caller's pointer and the memory untouched; or
    in the decode of lines 699-721, of the buffer as received or as
    zeroed. *)
Lemma nbstat_query_cases env nbstat timeout s :
  (exists code s',
     nbstat_query env nbstat timeout s = Ok (code, nbstat) s'
     /\ code <> NBSTAT_EOK
     /\ st_heap s' = st_heap s /\ st_oracle s' = st_oracle s)
  \/ (exists buffer sin0 s0,
        57 <= storage buffer /\ b_length buffer <= storage buffer
        /\ st_heap s0 = st_heap s /\ st_oracle s0 = st_oracle s
        /\ nbstat_query env nbstat timeout s
           = nbstat_query_decode buffer sin0 nbstat s0).
Proof.
  unfold nbstat_query.
  destruct (Z.eqb_spec (winsock_init env) 0) as [Hw | Hw]; cbn [negb].
  2: { left. by exists NBSTAT_EWSAFAIL, s. }
  destruct (nbstat_socket env) as [result sin0].
  destruct (Z.eqb_spec result 0) as [Hs | Hs]; cbn [negb].
  2: { left. by exists NBSTAT_ESOCKET, s. }
  cbv zeta. rewrite encode_request_ok;
    [| by rewrite storage_buffer_init | reflexivity].
  cbn [b_length b_data].
  match goal with
  | |- context [emit (EvSendto ?b)] => generalize b; intros bytes
  end.
  unfold mbind, M_bind, bind, emit, ret.
  destruct ((sendto env bytes =? SOCKET_ERROR)
            || negb (sendto env bytes =? 50)).
  { left. eexists NBSTAT_EDEBUG, _. by split_and!. }
  destruct (select env (query_timeout timeout) =? SOCKET_ERROR).
  { left. eexists NBSTAT_EDEBUG, _. by split_and!. }
  destruct (select env (query_timeout timeout) =? 0).
  { left. eexists NBSTAT_ETIMEOUT, _. by split_and!. }
  destruct ((select env (query_timeout timeout) >? 0) && FD_ISSET env).
  - destruct (recvfrom env) as [[dgram from] |].
    + right. destruct (received_storage dgram) as [H1 H2].
      exists (received dgram), from,
        (log_event EvClose
           (log_event EvRecvfrom
              (log_event (EvSelect (query_timeout timeout))
                 (log_event (EvSendto bytes) s)))).
      by split_and!.
    + left. eexists NBSTAT_EDEBUG, _. by split_and!.
  - right.
    exists (buffer_init 1024), sin0,
      (log_event (EvSelect (query_timeout timeout))
         (log_event (EvSendto bytes) s)).
    rewrite storage_buffer_init by lia. cbn [b_length buffer_init].
    by split_and!.
Qed.

Lemma nbstat_query_received env nbstat timeout dgram from s :
  transport_delivers env timeout dgram from ->
  exists s0,
    st_heap s0 = st_heap s /\ st_oracle s0 = st_oracle s
    /\ st_rep s0 = st_rep s
    /\ nbstat_query env nbstat timeout s
       = nbstat_query_decode (received dgram) from nbstat s0.
Proof.
  intros (Hw & Hs & Hsend & Hsel & Hfd & Hrecv). unfold nbstat_query.
  rewrite Hw. cbn [Z.eqb negb].
  destruct (nbstat_socket env) as [result sin0]. cbn [fst] in Hs. subst result.
  cbn [Z.eqb negb]. cbv zeta. rewrite encode_request_ok;
    [| by rewrite storage_buffer_init | reflexivity].
  cbn [b_length b_data].
  match goal with
  | |- context [emit (EvSendto ?b)] =>
      assert (Hb : length b = 50%nat)
        by (rewrite take_app_length'; by rewrite length_request_bytes);
      generalize dependent b; intros bytes Hb
  end.
  unfold mbind, M_bind, bind, emit, ret.
  rewrite (Hsend bytes Hb). cbn [Z.eqb orb negb SOCKET_ERROR].
  destruct (Z.eqb_spec (select env (query_timeout timeout)) SOCKET_ERROR)
    as [E | _]; [unfold SOCKET_ERROR in E; lia |].
  destruct (Z.eqb_spec (select env (query_timeout timeout)) 0)
    as [E | _]; [lia |].
  destruct (Z.gtb_spec (select env (query_timeout timeout)) 0); [| lia].
  rewrite Hfd, Hrecv. cbn [andb].
  eexists. split_and!; [| | | reflexivity]; done.
Qed.

(** Lines 699-721 behind a successful decode: the result object is built
    from what the decoder left, when its allocation succeeds. *)
Lemma nbstat_query_decode_full_wp buffer sin0 nbstat s :
  57 <= storage buffer -> b_length buffer <= storage buffer ->
  decode_code buffer (st_oracle s) = NBSTAT_EOK ->
  wp (nbstat_query_decode buffer sin0 nbstat) s (fun r s' =>
    st_events s' = st_events s
    /\ (exists l tmp,
          length l = Z.to_nat (wire_num_names buffer)
          /\ list_inv (st_heap s) l tmp s'
          /\ entries_at buffer (st_heap s') l)
    /\ match drop (Z.to_nat (wire_num_names buffer)) (st_oracle s) with
       | true :: _ =>
           r = (NBSTAT_EOK,
                Some {| sin := sin0;
                        hwaddr :=
                          map (fun i =>
                                 peek8 buffer
                                   (57 + 18 * wire_num_names buffer
                                    + Z.of_nat i)) (seq 0 6);
                        count := wire_num_names buffer;
                        node := rep_node (st_rep s') |})
       | _ => r = (NBSTAT_ENOMEM, None)
       end).
Proof.
  intros Hfix Hlen Hcode. unfold nbstat_query_decode. apply wp_bind.
  eapply wp_mono; [by apply decode_response_full_wp |].
  intros code s1 (-> & He1 & Ho1 & Hrep1 & l & tmp & Hl & Hinv & Hent).
  cbn [Z.eqb negb NBSTAT_EOK]. apply wp_bind. unfold wp at 1, malloc_nbstat.
  rewrite Ho1.
  assert (Hlist : forall o, list_inv (st_heap s) l tmp (set_oracle o s1))
    by (intros o; exact Hinv).
  destruct (drop _ (st_oracle s)) as [| [] o]; cbn [negb].
  - apply wp_ret. split_and!; [done | by exists l, tmp | done].
  - apply wp_bind, wp_get_rep. cbn [st_rep set_oracle]. apply wp_bind.
    destruct Hinv as (Hnd & _ & _ & Hlist' & _).
    unfold wp at 1. cbn [st_heap set_oracle].
    pose proof (count_nodes_wp l (size (st_heap s1)) (rep_node (st_rep s1)) 0
                  (set_oracle o s1) Hlist' (is_list_size _ _ _ Hlist' Hnd))
      as Hcount.
    apply wp_run in Hcount as (r & s' & -> & -> & ->).
    apply wp_ret. cbn [st_events st_heap st_rep set_oracle].
    split_and!; [done | by exists l, tmp |].
    pose proof (wire_num_names_range buffer).
    do 3 f_equal.
    + assert (Hst : rep_stat (st_rep s1)
                    = rep_stat (wire_response buffer (st_rep s)))
        by (by rewrite <- Hrep1).
      rewrite Hst. reflexivity.
    + lia.
  - apply wp_ret. split_and!; [done | by exists l, tmp | done].
Qed.

Lemma allocs_succeed_S n o :
  allocs_succeed (S n) o = true ->
  allocs_succeed n o = true /\ exists o', drop n o = true :: o'.
Proof.
  revert o. induction n as [| n IH]; intros o H.
  - cbn in H. destruct o as [| [] o]; [done | | done]. split; [done |].
    by exists o.
  - cbn [allocs_succeed] in H. destruct o as [| [] o]; [done | | done].
    destruct (IH o H) as [H1 H2]. split; [exact H1 | exact H2].
Qed.

(** X9.  The result of a query.  On a transport that delivers a
    well-framed response, and with memory for its entries and for the
    result object, [nbstat_query] returns [NBSTAT_EOK] and a result object
    that holds the sender's address, the number of entries of the
    datagram, the six bytes of its unit id as the hardware address, and a
    list whose nodes are the entries of the datagram in wire order. *)
Theorem X9_query_result env nbstat timeout dgram from s :
  transport_delivers env timeout dgram from ->
  well_framed (received dgram) ->
  allocs_succeed (S (Z.to_nat (wire_num_names (received dgram))))
    (st_oracle s) = true ->
  exists obj s',
    nbstat_query env nbstat timeout s = Ok (NBSTAT_EOK, Some obj) s'
    /\ sin obj = from
    /\ count obj = wire_num_names (received dgram)
    /\ hwaddr obj
       = map (fun i => peek8 (received dgram)
                         (57 + 18 * wire_num_names (received dgram)
                          + Z.of_nat i)) (seq 0 6)
    /\ list_entries (size (st_heap s')) (st_heap s') (node obj)
       = wire_entries (received dgram)
           (Z.to_nat (wire_num_names (received dgram))).
Proof.
  intros Henv (Hceil & Hty & Hcross) Hall.
  destruct (allocs_succeed_S _ _ Hall) as (Hall' & o' & Hdrop).
  destruct (nbstat_query_received env nbstat timeout dgram from s Henv)
    as (s0 & Hh0 & Ho0 & _ & ->).
  destruct (received_storage dgram) as [Hfix Hlen].
  pose proof (nbstat_query_decode_full_wp (received dgram) from nbstat s0
                Hfix Hlen) as H.
  rewrite Ho0 in H.
  specialize (H (decode_code_EOK _ _ Hceil Hty Hcross Hall')).
  apply wp_run in H as (r & s' & Hrun & _ & (l & tmp & Hl & Hinv & Hent) & Hr).
  rewrite Hdrop in Hr. subst r.
  eexists _, s'. split; [exact Hrun |]. cbn [sin count hwaddr node].
  split_and!; try done.
  pose proof Hinv as (Hnd & _ & _ & Hlist & _).
  unfold wire_entries. rewrite <- Hl.
  apply list_entries_map; [done | by eapply is_list_size | done].
Qed.

(** The query of a host that answers with the sample response: the
    object counts two names and carries the unit id; this instantiates
    X9. *)
Lemma X9_query_result_witness :
  exists obj s',
    nbstat_query transport_names None 0 (state_init [true; true; true])
    = Ok (NBSTAT_EOK, Some obj) s'
    /\ sin obj = 7 /\ count obj = 2
    /\ hwaddr obj = [0xaa; 0xbb; 0xcc; 0xdd; 0xee; 0xff].
Proof.
  destruct (X9_query_result transport_names None 0 names_dgram 7
              (state_init [true; true; true]))
    as (obj & s' & Hrun & Hsin & Hcount & Hhw & _);
    [sample_transport | sample_framing | reflexivity |].
  exists obj, s'. split_and!; [exact Hrun | exact Hsin | |].
  - rewrite Hcount. vm_compute. reflexivity.
  - rewrite Hhw. vm_compute. reflexivity.
Defined.

(** X10.  When the response is decoded but the allocation of the result
    object fails, [nbstat_query] returns [NBSTAT_ENOMEM] with the caller's
    pointer [NULL], and the nodes of the decoded entries stay allocated:
    the heap holds one block per entry more than before the call. *)
Theorem X10_query_object_allocation_fails env nbstat timeout dgram from s :
  transport_delivers env timeout dgram from ->
  well_framed (received dgram) ->
  allocs_succeed (Z.to_nat (wire_num_names (received dgram)))
    (st_oracle s) = true ->
  allocs_succeed (S (Z.to_nat (wire_num_names (received dgram))))
    (st_oracle s) = false ->
  exists s',
    nbstat_query env nbstat timeout s = Ok (NBSTAT_ENOMEM, None) s'
    /\ size (st_heap s')
       = (size (st_heap s)
          + Z.to_nat (wire_num_names (received dgram)))%nat.
Proof.
  intros Henv (Hceil & Hty & Hcross) Hall Hfail.
  destruct (nbstat_query_received env nbstat timeout dgram from s Henv)
    as (s0 & Hh0 & Ho0 & _ & ->).
  destruct (received_storage dgram) as [Hfix Hlen].
  pose proof (nbstat_query_decode_full_wp (received dgram) from nbstat s0
                Hfix Hlen) as H.
  rewrite Ho0, Hh0 in H.
  specialize (H (decode_code_EOK _ _ Hceil Hty Hcross Hall)).
  apply wp_run in H as (r & s' & Hrun & _ & (l & tmp & Hl & Hinv & Hent) & Hr).
  assert (Hnone : forall o', drop (Z.to_nat (wire_num_names (received dgram)))
                               (st_oracle s) <> true :: o').
  { clear -Hall Hfail. revert Hall Hfail.
    generalize (Z.to_nat (wire_num_names (received dgram))) (st_oracle s).
    intros n. induction n as [| n IH]; intros o Hall Hfail o' Hd.
    - rewrite drop_0 in Hd. subst o. done.
    - destruct o as [| [] o]; [done | | done]. by apply (IH o Hall Hfail o'). }
  exists s'. split.
  - rewrite Hrun. f_equal.
    destruct (drop _ (st_oracle s)) as [| [] o]; [done | | done].
    by destruct (Hnone o).
  - rewrite <- Hl. by eapply list_inv_size.
Qed.

(** The same query when only the two node allocations succeed; this
    instantiates X10. *)
Lemma X10_query_object_allocation_fails_witness :
  exists s',
    nbstat_query transport_names None 0 (state_init [true; true])
    = Ok (NBSTAT_ENOMEM, None) s'
    /\ size (st_heap s') = 2%nat.
Proof.
  destruct (X10_query_object_allocation_fails transport_names None 0
              names_dgram 7 (state_init [true; true]))
    as (s' & Hrun & Hsize);
    [sample_transport | sample_framing | reflexivity | reflexivity |].
  exists s'. split; [exact Hrun |]. rewrite Hsize. vm_compute. reflexivity.
Defined.

Lemma list_inv_nil_heap h0 tmp s : list_inv h0 [] tmp s -> st_heap s = h0.
Proof.
  intros (_ & _ & Hframe & _). apply map_eq. intros a.
  apply Hframe, not_elem_of_nil.
Qed.

(** Releasing the result of a decode gives back the heap of before. *)
Lemma nbstat_free_wp h0 l tmp s obj :
  list_inv h0 l tmp s -> node obj = rep_node (st_rep s) ->
  wp (nbstat_free (Some obj)) s (fun _ s' =>
    st_heap s' = h0 /\ st_oracle s' = st_oracle s
    /\ st_events s' = st_events s).
Proof.
  intros Hinv Hnode. unfold nbstat_free.
  destruct (node obj) as [a |] eqn:Ha.
  - rewrite Hnode. eapply wp_mono; [by eapply node_name_free_wp |].
    intros _ s' (_ & ? & ? & _ & ?). done.
  - apply wp_ret. pose proof Hinv as (_ & _ & _ & Hl & _).
    rewrite <- Hnode in Hl. apply is_list_null in Hl as ->.
    split_and!; try done. by eapply list_inv_nil_heap.
Qed.

(** X11.  No leak on the successful path: after a query that returns
    [NBSTAT_EOK], [nbstat_free] of the result leaves the heap exactly as
    it was before the query; and [nbstat_free] of a null pointer does
    nothing. *)
Theorem X11_query_then_free env nbstat timeout dgram from s :
  transport_delivers env timeout dgram from ->
  well_framed (received dgram) ->
  allocs_succeed (S (Z.to_nat (wire_num_names (received dgram))))
    (st_oracle s) = true ->
  (exists obj s' s'',
     nbstat_query env nbstat timeout s = Ok (NBSTAT_EOK, Some obj) s'
     /\ nbstat_free (Some obj) s' = Ok tt s''
     /\ st_heap s'' = st_heap s)
  /\ nbstat_free None s = Ok tt s.
Proof.
  intros Henv (Hceil & Hty & Hcross) Hall. split; [| done].
  destruct (allocs_succeed_S _ _ Hall) as (Hall' & o' & Hdrop).
  destruct (nbstat_query_received env nbstat timeout dgram from s Henv)
    as (s0 & Hh0 & Ho0 & _ & ->).
  destruct (received_storage dgram) as [Hfix Hlen].
  pose proof (nbstat_query_decode_full_wp (received dgram) from nbstat s0
                Hfix Hlen) as H.
  rewrite Ho0, Hh0 in H.
  specialize (H (decode_code_EOK _ _ Hceil Hty Hcross Hall')).
  apply wp_run in H as (r & s' & Hrun & _ & (l & tmp & Hl & Hinv & Hent) & Hr).
  rewrite Hdrop in Hr. subst r.
  match type of Hrun with
  | _ = Ok (_, Some ?o) _ =>
      pose proof (nbstat_free_wp (st_heap s) l tmp s' o Hinv eq_refl) as Hfree;
      exists o, s'
  end.
  apply wp_run in Hfree as ([] & s'' & Hfree & Hheap & _).
  exists s''. split_and!; [exact Hrun | exact Hfree | exact Hheap].
Qed.

(** The sample query followed by the release of its result; this
    instantiates X11. *)
Lemma X11_query_then_free_witness :
  exists obj s' s'',
    nbstat_query transport_names None 0 (state_init [true; true; true])
    = Ok (NBSTAT_EOK, Some obj) s'
    /\ nbstat_free (Some obj) s' = Ok tt s''
    /\ st_heap s'' = ∅.
Proof.
  destruct (X11_query_then_free transport_names None 0 names_dgram 7
              (state_init [true; true; true]))
    as [(obj & s' & s'' & Hrun & Hfree & Hheap) _];
    [sample_transport | sample_framing | reflexivity |].
  exists obj, s', s''. split_and!; [exact Hrun | exact Hfree | exact Hheap].
Defined.

(* ------------------------------------------------------------------ *)
(** ** Further properties: presentation and the command line *)

Lemma dump_entry_set_next p n : dump_entry (set_next p n) = dump_entry n.
Proof. by destruct n. Qed.

Lemma dump_nodes_wp l : forall fuel p s,
  is_list (st_heap s) p l -> (length l <= fuel)%nat ->
  wp (dump_nodes fuel p) s (fun out s' =>
    s' = s
    /\ out = fold_right (fun n out => (dump_entry n ++ out)%string) ""%string
               (list_entries fuel (st_heap s) p)).
Proof.
  induction l as [| a l IH]; intros fuel p s Hl Hfuel.
  - cbn in Hl. subst p. by destruct fuel.
  - destruct Hl as (-> & n & Hn & Hl).
    destruct fuel as [| fuel]; [cbn in Hfuel; lia |].
    cbn [dump_nodes list_entries]. rewrite Hn. apply wp_bind.
    unfold wp at 1, node_at. rewrite Hn. apply wp_bind.
    eapply wp_mono; [apply IH; [exact Hl | cbn in Hfuel; lia] |].
    intros out s' (-> & ->). apply wp_ret. split; [done |].
    cbn [fold_right]. by rewrite dump_entry_set_next.
Qed.

Lemma nbstat_dump_nbtstat_run obj l s :
  is_list (st_heap s) (node obj) l -> NoDup l ->
  nbstat_dump_nbtstat (Some obj) s
  = Ok (dump_text (list_entries (size (st_heap s)) (st_heap s) (node obj))
          (hwaddr obj)) s.
Proof.
  intros Hl Hnd. unfold nbstat_dump_nbtstat, mbind, M_bind, bind.
  pose proof (dump_nodes_wp l (size (st_heap s)) (node obj) s Hl
                (is_list_size _ _ _ Hl Hnd)) as H.
  apply wp_run in H as (out & s' & -> & -> & ->). reflexivity.
Qed.

Lemma nbstat_query_success env nbstat timeout dgram from s :
  transport_delivers env timeout dgram from ->
  well_framed (received dgram) ->
  allocs_succeed (S (Z.to_nat (wire_num_names (received dgram))))
    (st_oracle s) = true ->
  exists s' l tmp,
    nbstat_query env nbstat timeout s
    = Ok (NBSTAT_EOK,
          Some {| sin := from;
                  hwaddr :=
                    map (fun i =>
                           peek8 (received dgram)
                             (57 + 18 * wire_num_names (received dgram)
                              + Z.of_nat i)) (seq 0 6);
                  count := wire_num_names (received dgram);
                  node := rep_node (st_rep s') |}) s'
    /\ length l = Z.to_nat (wire_num_names (received dgram))
    /\ list_inv (st_heap s) l tmp s'
    /\ entries_at (received dgram) (st_heap s') l.
Proof.
  intros Henv (Hceil & Hty & Hcross) Hall.
  destruct (allocs_succeed_S _ _ Hall) as (Hall' & o' & Hdrop).
  destruct (nbstat_query_received env nbstat timeout dgram from s Henv)
    as (s0 & Hh0 & Ho0 & _ & ->).
  destruct (received_storage dgram) as [Hfix Hlen].
  pose proof (nbstat_query_decode_full_wp (received dgram) from nbstat s0
                Hfix Hlen) as H.
  rewrite Ho0, Hh0 in H.
  specialize (H (decode_code_EOK _ _ Hceil Hty Hcross Hall')).
  apply wp_run in H as (r & s' & Hrun & _ & (l & tmp & Hl & Hinv & Hent) & Hr).
  rewrite Hdrop in Hr. subst r. by exists s', l, tmp.
Qed.

(** X12.  [main] from end to end.  When the arguments are accepted, the
    transport delivers a well-framed response and memory suffices, [main]
    exits with [EXIT_SUCCESS]; the table it has printed has one line per
    entry of the datagram, in wire order, and the datagram's unit id as
    the hardware address; and every node has been released again. *)
Theorem X12_main_success env atoi argv target port timeout dgram from s :
  main_arguments atoi argv = Arguments_ok target port timeout ->
  transport_delivers (env target (u16 port)) timeout dgram from ->
  well_framed (received dgram) ->
  allocs_succeed (S (Z.to_nat (wire_num_names (received dgram))))
    (st_oracle s) = true ->
  exists s',
    main env atoi argv s
    = Ok (EXIT_SUCCESS,
          Some (dump_text
                  (wire_entries (received dgram)
                     (Z.to_nat (wire_num_names (received dgram))))
                  (map (fun i =>
                          peek8 (received dgram)
                            (57 + 18 * wire_num_names (received dgram)
                             + Z.of_nat i)) (seq 0 6)))) s'
    /\ st_heap s' = st_heap s.
Proof.
  intros Hargs Henv Hframed Hall. unfold main. rewrite Hargs.
  destruct (nbstat_query_success _ None timeout dgram from s Henv Hframed Hall)
    as (s1 & l & tmp & Hrun & Hl & Hinv & Hent).
  match type of Hrun with
  | _ = Ok (_, Some ?o) _ => set (obj := o) in *
  end.
  unfold mbind, M_bind, bind at 1. rewrite Hrun. cbn [Z.eqb negb NBSTAT_EOK].
  pose proof Hinv as (Hnd & _ & _ & Hlist & _).
  unfold bind at 1.
  rewrite (nbstat_dump_nbtstat_run obj l s1) by done.
  pose proof (nbstat_free_wp (st_heap s) l tmp s1 obj Hinv eq_refl) as Hfree.
  apply wp_run in Hfree as ([] & s2 & Hfree & Hheap & _).
  unfold bind at 1. rewrite Hfree. unfold ret. cbn [node hwaddr obj].
  exists s2. split; [| exact Hheap]. do 3 f_equal.
  unfold wire_entries. rewrite <- Hl. f_equal.
  apply list_entries_map; [done | by eapply is_list_size | done].
Qed.

(** The program run on the target alone, the host answering with the
    sample response; this instantiates X12. *)
Lemma X12_main_success_witness :
  exists table s',
    main (fun _ _ => transport_names) atoi_sample
      ["nbquery"; "192.168.1.200"]%string (state_init [true; true; true])
    = Ok (EXIT_SUCCESS, Some table) s'
    /\ st_heap s' = ∅.
Proof.
  destruct (X12_main_success (fun _ _ => transport_names) atoi_sample
              ["nbquery"; "192.168.1.200"]%string "192.168.1.200"%string
              137 3000 names_dgram 7 (state_init [true; true; true]))
    as (s' & Hrun & Hheap);
    [reflexivity | sample_transport | sample_framing | reflexivity |].
  eexists _, s'. split; [exact Hrun | exact Hheap].
Defined.

Lemma main_options_spec atoi : forall fuel argv argc port timeout,
  argc = Z.of_nat (length argv) -> (length argv <= fuel)%nat ->
  Nat.odd (length argv) = true ->
  main_options atoi fuel argc argv port timeout <> Arguments_fault
  /\ forall target p t,
       main_options atoi fuel argc argv port timeout = Arguments_ok target p t ->
       last argv = Some target /\ p <> 0 /\ t <> 0.
Proof.
  induction fuel as [| fuel IH]; intros argv argc port timeout Hc Hf Hodd.
  - destruct argv; [done | cbn in Hf; lia].
  - destruct argv as [| a [| v rest]]; [done | |].
    + (* one argument left: the target *)
      subst argc. cbn. split; [done |]. intros target p t [= <- <- <-].
      split_and!; [done | |].
      * destruct (Z.eqb_spec port 0); [done | done].
      * destruct (Z.eqb_spec timeout 0); [done | done].
    + (* an option and its value *)
      assert (Hgt : (argc >? 1) = true).
      { subst argc. cbn [length]. apply Z.gtb_lt. lia. }
      assert (Hlt : (argc - 1 <? 1) = false).
      { subst argc. cbn [length]. apply Z.ltb_ge. lia. }
      assert (Hrest : argc - 1 - 1 = Z.of_nat (length rest)).
      { subst argc. cbn [length]. lia. }
      assert (Hodd' : Nat.odd (length rest) = true).
      { cbn [length] in Hodd. by rewrite Nat.odd_succ_succ in Hodd. }
      assert (Hlast : last (a :: v :: rest) = last rest).
      { destruct rest as [| x rest]; [done |]. by rewrite !last_cons_cons. }
      cbn [main_options]. rewrite Hgt, Hlt. cbn [orb]. rewrite Hlast.
      destruct (String.eqb a "-p").
      * destruct (negb (port =? 0)); [split; [done | by intros] |].
        apply IH; [done | cbn in Hf; lia | done].
      * destruct (String.eqb a "-t"); [| split; [done | by intros]].
        destruct (negb (timeout =? 0)); [split; [done | by intros] |].
        apply IH; [done | cbn in Hf; lia | done].
Qed.



(** X14.  The forms of the command line.  With the target alone the
    port is 137 and the timeout 3000; [-p] and [-t] set them from their
    values, in either order, a value of 0 giving the default; any other
    first word where an option is expected is a usage error; and an
    option given a second time is a usage error when its first value was
    not 0, while after a first value of 0 the second value is taken. *)
Theorem X14_command_line_forms atoi prog target v v1 v2 :
  let dflt_port x := if x =? 0 then 137 else x in
  let dflt_timeout x := if x =? 0 then 3000 else x in
  main_arguments atoi [prog; target] = Arguments_ok target 137 3000
  /\ main_arguments atoi [prog; "-p"; v; target]%string
     = Arguments_ok target (dflt_port (atoi v)) 3000
  /\ main_arguments atoi [prog; "-t"; v; target]%string
     = Arguments_ok target 137 (dflt_timeout (atoi v))
  /\ main_arguments atoi [prog; "-p"; v1; "-t"; v2; target]%string
     = Arguments_ok target (dflt_port (atoi v1)) (dflt_timeout (atoi v2))
  /\ main_arguments atoi [prog; "-t"; v1; "-p"; v2; target]%string
     = Arguments_ok target (dflt_port (atoi v2)) (dflt_timeout (atoi v1))
  /\ (forall word, word <> "-p"%string -> word <> "-t"%string ->
        main_arguments atoi [prog; word; v; target] = Usage_error)
  /\ (atoi v1 <> 0 ->
      main_arguments atoi [prog; "-p"; v1; "-p"; v2; target]%string
      = Usage_error
      /\ main_arguments atoi [prog; "-t"; v1; "-t"; v2; target]%string
         = Usage_error)
  /\ (atoi v1 = 0 ->
      main_arguments atoi [prog; "-p"; v1; "-p"; v2; target]%string
      = Arguments_ok target (dflt_port (atoi v2)) 3000
      /\ main_arguments atoi [prog; "-t"; v1; "-t"; v2; target]%string
         = Arguments_ok target 137 (dflt_timeout (atoi v2))).
Proof.
  cbv zeta. unfold main_arguments. cbn.
  split_and!; try reflexivity.
  - intros word Hp Ht.
    apply String.eqb_neq in Hp, Ht. by rewrite Hp, Ht.
  - intros Hne. destruct (Z.eqb_spec (atoi v1) 0); done.
  - intros ->. done.
Qed.

(** A port given twice is refused; this instantiates X14. *)
Lemma X14_command_line_forms_witness :
  main_arguments atoi_sample
    ["nbquery"; "-p"; "137"; "-p"; "1137"; "192.168.1.200"]%string
  = Usage_error.
Proof.
  refine (proj1 (proj1 (proj2 (proj2 (proj2 (proj2 (proj2 (proj2
            (X14_command_line_forms atoi_sample "nbquery"%string
               "192.168.1.200"%string ""%string "137"%string
               "1137"%string))))))) _)).
  vm_compute. congruence.
Defined.

Lemma nbstat_query_decode_list_wp buffer sin0 nbstat s :
  57 <= storage buffer -> b_length buffer <= storage buffer ->
  wp (nbstat_query_decode buffer sin0 nbstat) s (fun r s' =>
    (fst r <> NBSTAT_EOK -> snd r = nbstat \/ snd r = None)
    /\ (fst r = NBSTAT_EOK ->
        exists obj l tmp,
          snd r = Some obj /\ node obj = rep_node (st_rep s')
          /\ list_inv (st_heap s) l tmp s')).
Proof.
  intros Hfix Hlen. unfold nbstat_query_decode. apply wp_bind.
  eapply wp_mono; [by apply decode_response_wp |].
  intros code s1 (Hcode & He1 & _ & _ & Hok).
  destruct (Z.eqb_spec code NBSTAT_EOK) as [-> | Hne]; cbn [negb].
  2: { apply wp_ret. cbn. split; [by left | done]. }
  destruct (Hok eq_refl) as (Hnum & _ & l & tmp & Hl & Hinv).
  apply wp_bind. unfold wp at 1, malloc_nbstat.
  destruct (st_oracle s1) as [| [] o]; cbn [negb].
  - apply wp_ret. cbn. split; [by right | done].
  - apply wp_bind, wp_get_rep. cbn [st_rep set_oracle]. apply wp_bind.
    pose proof Hinv as (Hnd & _ & _ & Hlist & _).
    unfold wp at 1. cbn [st_heap set_oracle].
    pose proof (count_nodes_wp l (size (st_heap s1)) (rep_node (st_rep s1)) 0
                  (set_oracle o s1) Hlist (is_list_size _ _ _ Hlist Hnd))
      as Hcount.
    apply wp_run in Hcount as (r & s' & -> & -> & ->).
    apply wp_ret. cbn [fst snd]. split; [intros H; by contradict H |].
    intros _. eexists _, l, tmp. split_and!; [done | done | exact Hinv].
  - apply wp_ret. cbn. split; [by right | done].
Qed.

Lemma main_arguments_no_fault atoi argv :
  main_arguments atoi argv <> Arguments_fault.
Proof.
  unfold main_arguments.
  destruct (negb (Z.of_nat (length argv) =? 2)
            && negb (Z.of_nat (length argv) =? 4)
            && negb (Z.of_nat (length argv) =? 6)) eqn:Htest; [done |].
  destruct argv as [| prog argv']; [done |]. cbn [length] in *.
  apply main_options_spec; [lia | lia |].
  destruct (Z.eqb_spec (Z.of_nat (S (length argv'))) 2) as [H | _];
    [by replace (length argv') with 1%nat by lia |].
  destruct (Z.eqb_spec (Z.of_nat (S (length argv'))) 4) as [H | _];
    [by replace (length argv') with 3%nat by lia |].
  destruct (Z.eqb_spec (Z.of_nat (S (length argv'))) 6) as [H | _];
    [by replace (length argv') with 5%nat by lia | done].
Qed.

(** X15.  [main] always comes to an end, with [EXIT_SUCCESS] or
    [EXIT_FAILURE], whatever the arguments, the transport and the
    allocator do.  It exits with [EXIT_SUCCESS] only with the table
    printed and the heap as it found it; with [EXIT_FAILURE] no table is
    printed. *)
Theorem X15_main_exit env atoi argv s :
  exists status out s',
    main env atoi argv s = Ok (status, out) s'
    /\ ((status = EXIT_SUCCESS /\ (exists table, out = Some table)
         /\ st_heap s' = st_heap s)
        \/ (status = EXIT_FAILURE /\ out = None)).
Proof.
  unfold main.
  pose proof (main_arguments_no_fault atoi argv) as Hnf.
  destruct (main_arguments atoi argv) as [| target port timeout |];
    [| | done].
  { exists EXIT_FAILURE, None, s. split; [done | by right]. }
  unfold mbind, M_bind, bind at 1.
  destruct (nbstat_query_cases (env target (u16 port)) None timeout s)
    as [(code & s1 & Hrun & Hne & _) | (buffer & sin0 & s0 & Hfix & Hlen
                                       & Hh0 & _ & Hrun)].
  - rewrite Hrun. apply Z.eqb_neq in Hne. rewrite Hne. cbn [negb].
    exists EXIT_FAILURE, None, s1. split; [done | by right].
  - rewrite Hrun.
    pose proof (nbstat_query_decode_list_wp buffer sin0 None s0 Hfix Hlen)
      as H.
    apply wp_run in H as ([code out] & s1 & -> & Hfail & Hok).
    cbn [fst snd] in *.
    destruct (Z.eqb_spec code NBSTAT_EOK) as [-> | Hne]; cbn [negb].
    + destruct (Hok eq_refl) as (obj & l & tmp & -> & Hnode & Hinv).
      pose proof Hinv as (Hnd & _ & _ & Hlist & _).
      rewrite <- Hnode in Hlist.
      unfold bind at 1. rewrite (nbstat_dump_nbtstat_run obj l s1) by done.
      pose proof (nbstat_free_wp (st_heap s0) l tmp s1 obj Hinv Hnode)
        as Hfree.
      apply wp_run in Hfree as ([] & s2 & Hfree & Hheap & _).
      unfold bind at 1. rewrite Hfree. unfold ret.
      eexists EXIT_SUCCESS, _, s2. split; [reflexivity |]. left.
      split_and!; [done | by eexists | congruence].
    + exists EXIT_FAILURE, None, s1. split; [done | by right].
Qed.

Lemma list_byte_of_putchar c (out : string) :
  list_byte_of_string (putchar c ++ out) = c :: list_byte_of_string out.
Proof.
  unfold putchar, list_byte_of_string.
  change (String (ascii_of_byte c) "" ++ out)%string
    with (String (ascii_of_byte c) out).
  cbn [list_ascii_of_string map]. by rewrite byte_of_ascii_of_byte.
Qed.

Lemma dump_name_bytes name :
  list_byte_of_string (dump_name name) = map dump_char (take 15 name).
Proof.
  unfold dump_name. induction (take 15 name) as [| b l IH]; [done |].
  cbn [fold_right map]. by rewrite list_byte_of_putchar, IH.
Qed.

Lemma dump_char_spec b :
  dump_char b
  = if (0x20 <=? byte_val b) && (byte_val b <=? 0x79) then b else x2e.
Proof.
  unfold dump_char. pose proof (byte_val_range b).
  destruct (Z.ltb_spec (byte_val b) 128).
  - by rewrite Z.geb_leb.
  - destruct (Z.geb_spec (byte_val b - 256) 0x20); [lia |]. cbn [andb].
    destruct (Z.leb_spec (byte_val b) 0x79); [lia |].
    by rewrite andb_false_r.
Qed.

(** X16.  How a name is printed: at most its first 15 bytes, one
    character each; a byte in 0x20..0x79 is printed as it is, every other
    byte (control characters, the letters from 'z' on, bytes with the high
    bit set) as a dot; so the output holds only characters in
    0x20..0x79. *)
Theorem X16_dump_name name :
  length (list_byte_of_string (dump_name name)) = (length name `min` 15)%nat
  /\ Forall (fun c => 0x20 <= byte_val c <= 0x79)
       (list_byte_of_string (dump_name name))
  /\ forall (i : nat) b,
       (i < 15)%nat -> name !! i = Some b ->
       list_byte_of_string (dump_name name) !! i
       = Some (if (0x20 <=? byte_val b) && (byte_val b <=? 0x79)
               then b else x2e).
Proof.
  rewrite dump_name_bytes. split_and!.
  - rewrite length_map, length_take. lia.
  - apply Forall_map, Forall_forall. intros b _. cbn beta.
    rewrite dump_char_spec.
    destruct (Z.leb_spec 0x20 (byte_val b)), (Z.leb_spec (byte_val b) 0x79);
      cbn [andb]; (lia || (vm_compute; split; congruence)).
  - intros i b Hi Hb. rewrite list_lookup_fmap, lookup_take_lt by done.
    rewrite Hb. cbn. by rewrite dump_char_spec.
Qed.

Lemma X16_dump_name_witness :
  list_byte_of_string (dump_name [x7a; x65; x62; x72; x61; x7e; x80]) !! 0%nat
  = Some x2e.
Proof.
  apply (proj2 (proj2 (X16_dump_name [x7a; x65; x62; x72; x61; x7e; x80]))
           0%nat x7a); [lia | reflexivity].
Defined.

Lemma hex_digit_inj m n :
  0 <= m < 16 -> 0 <= n < 16 -> hex_digit m = hex_digit n -> m = n.
Proof.
  intros Hm Hn.
  assert (Hc : forall k, 0 <= k < 16 ->
             k = 0 \/ k = 1 \/ k = 2 \/ k = 3 \/ k = 4 \/ k = 5 \/ k = 6
             \/ k = 7 \/ k = 8 \/ k = 9 \/ k = 10 \/ k = 11 \/ k = 12
             \/ k = 13 \/ k = 14 \/ k = 15) by (intros; lia).
  destruct (Hc m Hm) as [->|[->|[->|[->|[->|[->|[->|[->|[->|[->|[->|[->|[->|[->|[->| ->]]]]]]]]]]]]]]];
    destruct (Hc n Hn) as [->|[->|[->|[->|[->|[->|[->|[->|[->|[->|[->|[->|[->|[->|[->| ->]]]]]]]]]]]]]]];
    vm_compute; congruence.
Qed.

Lemma ascii_of_byte_inj a b : ascii_of_byte a = ascii_of_byte b -> a = b.
Proof.
  intros H. apply (f_equal byte_of_ascii) in H.
  by rewrite !byte_of_ascii_of_byte in H.
Qed.

Lemma printf_02X_cons x (out : string) :
  (printf_02X x ++ out)%string
  = String (ascii_of_byte (hex_digit (x / 16)))
      (String (ascii_of_byte (hex_digit (x mod 16))) out).
Proof. reflexivity. Qed.

Lemma printf_02X_inj x y (out out' : string) :
  0 <= x < 256 -> 0 <= y < 256 ->
  (printf_02X x ++ out)%string = (printf_02X y ++ out')%string ->
  x = y /\ out = out'.
Proof.
  intros Hx Hy. rewrite !printf_02X_cons. intros H.
  injection H as Hh Hl Ho.
  assert (0 <= x / 16 < 16 /\ 0 <= y / 16 < 16) as [Hx1 Hy1]
    by (split; split; try apply Z.div_pos; try apply Z.div_lt_upper_bound; lia).
  assert (0 <= x mod 16 < 16 /\ 0 <= y mod 16 < 16) as [Hx2 Hy2]
    by (split; apply Z.mod_pos_bound; lia).
  apply ascii_of_byte_inj in Hh, Hl.
  apply hex_digit_inj in Hh; [| done ..].
  apply hex_digit_inj in Hl; [| done ..].
  split; [| done].
  rewrite (Z.div_mod x 16), (Z.div_mod y 16) by lia. congruence.
Qed.

Lemma dump_hwaddr_S i x hw :
  dump_hwaddr (S i) (x :: hw)
  = String (ascii_of_byte x2d) (printf_02X x ++ dump_hwaddr (S (S i)) hw).
Proof. reflexivity. Qed.

Lemma dump_hwaddr_O x hw :
  dump_hwaddr 0 (x :: hw) = (printf_02X x ++ dump_hwaddr 1 hw)%string.
Proof. reflexivity. Qed.

Lemma String_tail_inj a b (s t : string) : String a s = String b t -> s = t.
Proof. by intros [= _ H]. Qed.

Lemma dump_hwaddr_S_length hw i :
  String.length (dump_hwaddr (S i) hw) = (3 * length hw)%nat.
Proof.
  revert i. induction hw as [| x hw IH]; intros i; [done |].
  rewrite dump_hwaddr_S, printf_02X_cons. cbn [String.length length].
  rewrite IH. lia.
Qed.

Lemma dump_hwaddr_S_inj hw hw' i :
  length hw = length hw' ->
  Forall (fun x => 0 <= x < 256) hw -> Forall (fun x => 0 <= x < 256) hw' ->
  dump_hwaddr (S i) hw = dump_hwaddr (S i) hw' -> hw = hw'.
Proof.
  revert hw' i. induction hw as [| x hw IH]; intros [| y hw'] i Hlen Hr Hr' H;
    try done.
  rewrite !dump_hwaddr_S in H. apply String_tail_inj in H.
  inversion Hr; inversion Hr'; subst.
  apply printf_02X_inj in H as [-> H]; [| done ..].
  f_equal. apply (IH hw' (S i)); [by injection Hlen | done ..].
Qed.

(** X17.  The hardware address line: six bytes are printed as 17
    characters (two upper-case hexadecimal digits per byte, a dash between
    bytes), and two different addresses are never printed alike. *)
Theorem X17_dump_hwaddr hw hw' :
  length hw = 6%nat -> length hw' = 6%nat ->
  Forall (fun x => 0 <= x < 256) hw -> Forall (fun x => 0 <= x < 256) hw' ->
  String.length (dump_hwaddr 0 hw) = 17%nat
  /\ (dump_hwaddr 0 hw = dump_hwaddr 0 hw' -> hw = hw').
Proof.
  intros Hlen Hlen' Hr Hr'.
  destruct hw as [| x hw]; [done |]. destruct hw' as [| y hw']; [done |].
  rewrite !dump_hwaddr_O, !printf_02X_cons.
  inversion Hr; inversion Hr'; subst. split.
  - cbn [String.length]. rewrite dump_hwaddr_S_length.
    cbn [length] in Hlen. lia.
  - rewrite <- !printf_02X_cons. intros H.
    apply printf_02X_inj in H as [-> H]; [| done ..].
    f_equal. apply (dump_hwaddr_S_inj hw hw' 0); [| done ..].
    cbn [length] in Hlen, Hlen'. lia.
Qed.

Lemma X17_dump_hwaddr_witness :
  String.length (dump_hwaddr 0 [0xaa; 0xbb; 0xcc; 0xdd; 0xee; 0xff]) = 17%nat
  /\ (dump_hwaddr 0 [0xaa; 0xbb; 0xcc; 0xdd; 0xee; 0xff]
      = dump_hwaddr 0 [0xaa; 0xbb; 0xcc; 0xdd; 0xee; 0xff]
      -> [0xaa; 0xbb; 0xcc; 0xdd; 0xee; 0xff]
         = [0xaa; 0xbb; 0xcc; 0xdd; 0xee; 0xff]).
Proof.
  apply (X17_dump_hwaddr [0xaa; 0xbb; 0xcc; 0xdd; 0xee; 0xff]
           [0xaa; 0xbb; 0xcc; 0xdd; 0xee; 0xff]);
    try reflexivity; repeat constructor; lia.
Defined.

(* ------------------------------------------------------------------ *)
(** ** Further properties: the socket of a query *)

Ltac not_logged :=
  let Hin := fresh "Hin" in
  intros Hin;
  repeat (apply elem_of_cons in Hin as [Hin | Hin]; [discriminate Hin |]);
  by apply elem_of_nil in Hin.

Lemma nbstat_query_decode_blank sin0 nbstat s :
  exists s',
    nbstat_query_decode (buffer_init 1024) sin0 nbstat s
    = Ok (NBSTAT_EPROTO, nbstat) s'
    /\ st_heap s' = st_heap s /\ st_events s' = st_events s.
Proof.
  destruct (nbstat_query_decode (buffer_init 1024) sin0 nbstat s)
    as [r s' | |] eqn:H; vm_compute in H; try discriminate H.
  injection H as <- <-. eexists. split; [reflexivity |]. by split.
Qed.

(** X18.  Once the socket is open, [nbstat_query] returns and closes the
    socket exactly once, as its last call into the sockets layer: after a
    failed send, a failed or expired wait, and after the receive whatever
    its outcome and that of the decoding.  The one exception is a wait that
    reports neither failure, nor expiry, nor the descriptor readable: the
    socket is then not closed, the zeroed buffer is decoded and the result
    is [NBSTAT_EPROTO] with the caller's pointer and the heap untouched. *)
Theorem X18_socket_closed env nbstat timeout s :
  winsock_init env = 0 -> fst (nbstat_socket env) = 0 ->
  exists r s' evs,
    nbstat_query env nbstat timeout s = Ok r s'
    /\ st_events s' = evs ++ st_events s
    /\ ((exists evs', evs = EvClose :: evs' /\ (EvClose ∉ evs'))
        \/ ((EvClose ∉ evs) /\ wait_unanswered env timeout = true
            /\ r = (NBSTAT_EPROTO, nbstat) /\ st_heap s' = st_heap s)).
Proof.
  intros Hw Hs. unfold nbstat_query, wait_unanswered. cbv zeta.
  rewrite Hw. cbn [Z.eqb negb].
  destruct (nbstat_socket env) as [result sin0]. cbn [fst] in Hs. subst result.
  cbn [Z.eqb negb].
  rewrite encode_request_ok; [| by rewrite storage_buffer_init | reflexivity].
  cbn [b_length b_data].
  match goal with
  | |- context [emit (EvSendto ?b)] => generalize b; intros bytes
  end.
  unfold mbind, M_bind, bind, emit, ret.
  assert (Hsel : forall d,
            EvClose ∉ [EvSelect d; EvSendto bytes]).
  { intros d. not_logged. }
  destruct ((sendto env bytes =? SOCKET_ERROR)
            || negb (sendto env bytes =? 50)).
  { eexists _, _, [EvClose; EvSendto bytes]. split_and!; [done | done |].
    left. eexists. split; [done |]. not_logged. }
  destruct (select env (query_timeout timeout) =? SOCKET_ERROR).
  { eexists _, _, [EvClose; EvSelect _; EvSendto bytes].
    split_and!; [done | done |]. left. eexists. split; [done |]. apply Hsel. }
  destruct (select env (query_timeout timeout) =? 0).
  { eexists _, _, [EvClose; EvSelect _; EvSendto bytes].
    split_and!; [done | done |]. left. eexists. split; [done |]. apply Hsel. }
  destruct ((select env (query_timeout timeout) >? 0) && FD_ISSET env).
  - assert (Hrcv : EvClose ∉ [EvRecvfrom; EvSelect (query_timeout timeout);
                              EvSendto bytes]) by not_logged.
    destruct (recvfrom env) as [[dgram from] |].
    + destruct (received_storage dgram) as [H1 H2].
      pose proof (nbstat_query_decode_wp (received dgram) from nbstat
                    (log_event EvClose
                       (log_event EvRecvfrom
                          (log_event (EvSelect (query_timeout timeout))
                             (log_event (EvSendto bytes) s)))) H1 H2) as H.
      apply wp_run in H as (r & s' & Hrun & Hev & _).
      exists r, s', [EvClose; EvRecvfrom; EvSelect (query_timeout timeout);
                     EvSendto bytes].
      split_and!; [exact Hrun | by rewrite Hev |].
      left. eexists. by split.
    + eexists _, _, [EvClose; EvRecvfrom; EvSelect _; EvSendto bytes].
      split_and!; [done | done |]. left. eexists. by split.
  - destruct (nbstat_query_decode_blank sin0 nbstat
                (log_event (EvSelect (query_timeout timeout))
                   (log_event (EvSendto bytes) s))) as (s' & Hrun & Hh & He).
    exists (NBSTAT_EPROTO, nbstat), s',
      [EvSelect (query_timeout timeout); EvSendto bytes].
    split_and!; [exact Hrun | by rewrite He |].
    right. split_and!; [apply Hsel | done | done | by rewrite Hh].
Qed.

(** The sample query closes its socket after the receive; this
    instantiates X18. *)
Lemma X18_socket_closed_witness :
  exists r s' evs,
    nbstat_query transport_names None 0 (state_init [true; true; true])
    = Ok r s'
    /\ st_events s' = evs ++ []
    /\ ((exists evs', evs = EvClose :: evs' /\ (EvClose ∉ evs'))
        \/ ((EvClose ∉ evs) /\ wait_unanswered transport_names 0 = true
            /\ r = (NBSTAT_EPROTO, None) /\ st_heap s' = ∅)).
Proof.
  apply (X18_socket_closed transport_names None 0
           (state_init [true; true; true])); reflexivity.
Defined.
